(** * Kenchi outlier detectors: a shallow embedding and its properties

    The two detector classes of the repository,
    [kenchi/outlier_detection/mixture_distns.py]
    (class [GaussianMixtureOutlierDetector]) and
    [kenchi/outlier_detection/reconstruction_based.py] (class [PCA]),
    are embedded as state-passing programs over a record that holds the
    instance attributes.  A Python attribute that has not been assigned
    yet is [None]; an exception is a [Raise] result that keeps the state
    reached so far, because an assignment made before a [raise] survives
    it.

    Numbers are the real numbers of the Standard Library, the usual
    idealisation of binary64 arithmetic; the one floating-point question
    (underflow of the mixture density) is treated on primitive floats in
    [Module Float64] at the end of the definitions.

    NumPy, SciPy and scikit-learn are not code of this repository.  Their
    shape checks and elementwise formulas are written out from their
    documentation; their numerical solvers (EM, SVD, the normal density,
    the probabilistic-PCA likelihood) are the fields of the class
    [Libs], over which every statement is quantified.

    Two further modules follow the detectors: [plot_anomaly_score] of
    [kenchi/utils/pyplot.py], over a record of what it draws on the
    axes, and the dataset loaders of [kenchi/datasets/base.py], over the
    arrays they load. *)

From Stdlib Require Import List Bool Arith Lia ZArith Reals Lra Sorted Permutation.
From Stdlib Require String.
From Stdlib Require PrimFloat.
From Stdlib Require FloatAxioms.
Import ListNotations.

(** ** Python exceptions and the state-and-exception monad *)

Module Py.

(** The exceptions the two classes and their libraries raise.
    The specification's [NotFitted] is [NotFittedError] and its
    [InvalidParameter] and [InvalidInput] are [ValueError]. *)
Inductive exn : Set :=
| NotFittedError
| ValueError
| AttributeError
| LinAlgError.

Inductive result (A : Type) : Type :=
| Ok (a : A)
| Raise (e : exn).
Arguments Ok {A} a.
Arguments Raise {A} e.

(** A method of an object whose attributes are [S]. *)
Definition M (S A : Type) : Type := S -> result A * S.

Definition ret {S A} (a : A) : M S A := fun s => (Ok a, s).

Definition bind {S A B} (m : M S A) (k : A -> M S B) : M S B :=
  fun s =>
    match m s with
    | (Ok a, s') => k a s'
    | (Raise e, s') => (Raise e, s')
    end.

(** A call into a pure function that may raise. *)
Definition lift {S A} (r : result A) : M S A := fun s => (r, s).

Definition get {S} : M S S := fun s => (Ok s, s).

Definition modify {S} (f : S -> S) : M S unit := fun s => (Ok tt, f s).

(** [bind] for results alone. *)
Definition rbind {A B} (r : result A) (k : A -> result B) : result B :=
  match r with
  | Ok a => k a
  | Raise e => Raise e
  end.

(** A list comprehension whose body may raise: left to right, the first
    exception ends it. *)
Fixpoint traverse {A B} (f : A -> result B) (l : list A) : result (list B) :=
  match l with
  | [] => Ok []
  | a :: t => rbind (f a) (fun b => rbind (traverse f t) (fun bs => Ok (b :: bs)))
  end.

Definition is_ok {A} (r : result A) : bool :=
  match r with Ok _ => true | Raise _ => false end.

End Py.
Import Py.

Declare Scope py_scope.
Delimit Scope py_scope with py.
Notation "x <- m ;; k" := (bind m (fun x => k))
  (at level 61, m at next level, right associativity) : py_scope.
Notation "m ;; k" := (bind m (fun _ => k))
  (at level 61, right associativity) : py_scope.

(** ** NumPy on lists *)

Module Np.

(** Elementwise binary operation on two arrays of one shape. *)
Fixpoint map2 {A B C} (f : A -> B -> C) (u : list A) (v : list B) : list C :=
  match u, v with
  | a :: u', b :: v' => f a b :: map2 f u' v'
  | _, _ => []
  end.

Section Scalar.
(** The part of NumPy that the mixture score uses, over any scalar
    type: it is run on reals and on binary64 floats. *)
Context {F : Type}.
Variables (zero : F) (add mul : F -> F -> F) (neg log : F -> F).

(** [w * v] for a scalar [w] and a vector [v]. *)
Definition scale (w : F) (v : list F) : list F := map (mul w) v.

(** [np.sum(rows, axis=0)] for rows of length [n]: the rows are added
    up, first to last. *)
Definition sum_axis0 (n : nat) (rows : list (list F)) : list F :=
  fold_left (map2 add) rows (repeat zero n).

(** [-np.log(v)]. *)
Definition neg_log (v : list F) : list F := map (fun s => neg (log s)) v.

(** The sum of a vector, first to last. *)
Definition sum (v : list F) : F := fold_left add v zero.
End Scalar.

End Np.

Local Open Scope R_scope.

Definition vec : Type := list R.
Definition matrix : Type := list vec.

(** The number of columns of a two-dimensional array given by its rows. *)
Definition n_features (X : matrix) : nat :=
  match X with
  | [] => 0%nat
  | r :: _ => length r
  end.

Definition rectangular (X : matrix) : bool :=
  forallb (fun r => Nat.eqb (length r) (n_features X)) X.

(** [sklearn.utils.check_array(X)] with its defaults: the input must be
    two-dimensional with at least one sample and one feature (real
    entries are always finite); the array is returned as it is. *)
Definition check_array (X : matrix) : result matrix :=
  if (Nat.leb 1 (length X) && Nat.leb 1 (n_features X) && rectangular X)%bool
  then Ok X
  else Raise ValueError.

Definition Rsum (v : vec) : R := Np.sum 0 Rplus v.
Definition dot (u v : vec) : R := Rsum (Np.map2 Rmult u v).
Definition vsub (u v : vec) : vec := Np.map2 Rminus u v.
Definition vadd (u v : vec) : vec := Np.map2 Rplus u v.

(** *** [np.percentile] *)

Fixpoint insert_sorted (x : R) (l : vec) : vec :=
  match l with
  | [] => [x]
  | y :: t => if Rle_dec x y then x :: l else y :: insert_sorted x t
  end.

Definition np_sort (l : vec) : vec := fold_right insert_sorted [] l.

(** The largest natural number below or at a nonnegative real. *)
Definition floor_nat (h : R) : nat := Z.to_nat (Int_part h).

(** [np.percentile(a, q)] with the default (linear) method: [q] outside
    [0, 100] raises [ValueError]; otherwise, with [s] the sorted data and
    [h = q / 100 * (n - 1)] the virtual index, the result interpolates
    between [s[floor h]] and the next order statistic.  The data of a
    fitted detector are never empty; on empty data the model raises. *)
Definition np_percentile (a : vec) (q : R) : result R :=
  if Rlt_dec q 0 then Raise ValueError
  else if Rlt_dec 100 q then Raise ValueError
  else match a with
       | [] => Raise ValueError
       | _ :: _ =>
           let s := np_sort a in
           let h := q / 100 * INR (length a - 1) in
           let lo := floor_nat h in
           let hi := Nat.min (lo + 1) (length a - 1) in
           let g := h - INR lo in
           Ok (nth lo s 0 + g * (nth hi s 0 - nth lo s 0))
       end.

(** ** The library estimators the detectors are built on *)

(** [sklearn.mixture.GaussianMixture]: constructor parameters and the
    attributes its [fit] assigns. *)
Module GaussianMixture.
Record params : Type := {
  max_iter : nat;
  means_init : option matrix;
  n_components : nat;
  precisions_init : option (list matrix);
  random_state : option Z;
  tol : R;
  weights_init : option vec
}.

Record attrs : Type := {
  weights_ : vec;
  means_ : matrix;
  covariances_ : list matrix;
  precisions_ : list matrix
}.
End GaussianMixture.

(** [sklearn.decomposition.PCA]: the keyword arguments the detector
    forwards, and the attributes its [fit] assigns. *)
Module Decomposition.
Record kwargs : Type := {
  n_components : option nat;
  whiten : bool
}.

Record attrs : Type := {
  components_ : matrix;
  explained_variance_ : vec;
  explained_variance_ratio_ : vec;
  mean_ : vec;
  noise_variance_ : R;
  n_components_ : nat;
  singular_values_ : vec
}.

(** The estimator object: its parameters and, once fitted, its
    attributes. *)
Record PCA : Type := {
  kw : kwargs;
  fitted : option attrs
}.
End Decomposition.

(** How [scipy.stats.multivariate_normal] judges a mean and a
    covariance: accepted, or rejected as singular ([LinAlgError]) or as
    not positive semidefinite or ill-shaped ([ValueError]). *)
Inductive cov_status : Set :=
| CovOk
| CovSingular
| CovInvalid.

(** The numerical routines of the libraries, left uninterpreted. *)
Class Libs : Type := {
  (** [GaussianMixture.fit(X)]: parameter checks and EM; it either
      raises or yields all fitted attributes. *)
  GaussianMixture_fit : GaussianMixture.params -> matrix -> result GaussianMixture.attrs;
  (** [scipy.stats.multivariate_normal]: the check of [mean] and [cov],
      and the density at one point. *)
  mvn_check : vec -> matrix -> cov_status;
  mvn_density : vec -> vec -> matrix -> R;
  (** The SVD solver behind [decomposition.PCA.fit], for a validated
      number of components. *)
  svd_fit : Decomposition.kwargs -> nat -> matrix -> result Decomposition.attrs;
  (** [decomposition.PCA.score_samples]: log-likelihood of each sample
      under the probabilistic PCA model. *)
  ppca_score_samples : Decomposition.attrs -> matrix -> vec
}.

Section Estimators.
Context {L : Libs}.
Import Decomposition.

(** [multivariate_normal.pdf(X, mean=mean, cov=cov)] on a
    two-dimensional [X]: one density per row.  The rows are not checked
    against the dimension of [mean]: [X - mean] is formed by NumPy's
    broadcasting, so a one-column [X] is read as the points
    [(x, ..., x)], and any other mismatch raises [ValueError]. *)
Definition multivariate_normal_pdf (X : matrix) (mean : vec) (cov : matrix)
  : result vec :=
  match mvn_check mean cov with
  | CovSingular => Raise LinAlgError
  | CovInvalid => Raise ValueError
  | CovOk =>
      if Nat.eqb (n_features X) (length mean)
      then Ok (map (fun x => mvn_density x mean cov) X)
      else if Nat.eqb (n_features X) 1
      then Ok (map (fun x => mvn_density (repeat (hd 0 x) (length mean)) mean cov) X)
      else Raise ValueError
  end.

(** [decomposition.PCA.fit(X)]: the number of components defaults to
    [min(n_samples, n_features)] and must not exceed it. *)
Definition sk_fit (p : PCA) (X : matrix) : result attrs :=
  rbind (check_array X) (fun X =>
    let m := Nat.min (length X) (n_features X) in
    let k := match n_components (kw p) with None => m | Some k => k end in
    if Nat.leb k m then svd_fit (kw p) k X else Raise ValueError).

(** [decomposition.PCA.transform(X)]:
    [np.dot(X - mean_, components_.T)], divided by
    [np.sqrt(explained_variance_)] when whitening.  Entry [(i, k)] of
    the product is the dot product of row [i] with component [k]. *)
Definition transform_row (w : bool) (a : attrs) (x : vec) : vec :=
  let z := map (dot (vsub x (mean_ a))) (components_ a) in
  if w then Np.map2 Rdiv z (map sqrt (explained_variance_ a)) else z.

Definition sk_transform (p : PCA) (X : matrix) : result matrix :=
  match fitted p with
  | None => Raise NotFittedError
  | Some a =>
      rbind (check_array X) (fun X =>
        if Nat.eqb (n_features X) (length (mean_ a))
        then Ok (map (transform_row (whiten (kw p)) a) X)
        else Raise ValueError)
  end.

(** Row [i] of [np.dot(Z, C)] is the combination of the rows of [C]
    with the coefficients [Z[i]]; [d] is the number of columns. *)
Definition lincomb (d : nat) (z : vec) (C : matrix) : vec :=
  Np.sum_axis0 0 Rplus d (Np.map2 (Np.scale Rmult) z C).

(** [decomposition.PCA.inverse_transform(Z)]:
    [np.dot(Z, components_) + mean_], the components scaled by
    [np.sqrt(explained_variance_)] when whitening. *)
Definition inverse_transform_row (w : bool) (a : attrs) (z : vec) : vec :=
  let C := if w
           then Np.map2 (Np.scale Rmult) (map sqrt (explained_variance_ a)) (components_ a)
           else components_ a in
  vadd (lincomb (length (mean_ a)) z C) (mean_ a).

Definition sk_inverse_transform (p : PCA) (Z : matrix) : result matrix :=
  match fitted p with
  | None => Raise NotFittedError
  | Some a =>
      if forallb (fun z => Nat.eqb (length z) (length (components_ a))) Z
      then Ok (map (inverse_transform_row (whiten (kw p)) a) Z)
      else Raise ValueError
  end.

(** [decomposition.PCA.score(X)]: the mean of [score_samples(X)]. *)
Definition sk_score (p : PCA) (X : matrix) : result R :=
  match fitted p with
  | None => Raise NotFittedError
  | Some a =>
      rbind (check_array X) (fun X =>
        if Nat.eqb (n_features X) (length (mean_ a))
        then Ok (Rsum (ppca_score_samples a X) / INR (length X))
        else Raise ValueError)
  end.
End Estimators.

(** ** [GaussianMixtureOutlierDetector] (mixture_distns.py)

    The decorators [assign_info_on_pandas_obj] and [construct_pandas_obj]
    only rewrap pandas inputs and outputs; on arrays they change
    nothing and are left out. *)

Module GaussianMixtureOutlierDetector.
Import GaussianMixture.
Local Open Scope py_scope.

(** The instance: [fpr], the parameters kept by the base class, and the
    attributes that exist only after they were assigned. *)
Record t : Type := {
  fpr : R;
  base : params;
  fitted : option attrs;
  threshold_ : option R
}.

Definition set_fitted (a : attrs) (self : t) : t :=
  {| fpr := fpr self; base := base self; fitted := Some a;
     threshold_ := threshold_ self |}.

Definition set_threshold_ (v : R) (self : t) : t :=
  {| fpr := fpr self; base := base self; fitted := fitted self;
     threshold_ := Some v |}.

(** [__init__]: the base class stores its parameters, then
    [self.fpr = fpr]. *)
Definition __init__ (fpr : R) (max_iter : nat) (means_init : option matrix)
    (n_components : nat) (precisions_init : option (list matrix))
    (random_state : option Z) (tol : R) (weights_init : option vec)
  : result t :=
  Ok {| fpr := fpr;
        base := {| max_iter := max_iter; means_init := means_init;
                   n_components := n_components;
                   precisions_init := precisions_init;
                   random_state := random_state; tol := tol;
                   weights_init := weights_init |};
        fitted := None;
        threshold_ := None |}.

(** [check_is_fitted(self, ['weights_', 'means_', 'covariances_',
    'precisions_'])]. *)
Definition check_is_fitted (self : t) : result attrs :=
  match fitted self with
  | Some a => Ok a
  | None => Raise NotFittedError
  end.

Section Methods.
Context {L : Libs}.

(** One term of the list comprehension:
    [weight * multivariate_normal.pdf(X, mean=mean, cov=cov)]. *)
Definition weighted_pdf (X : matrix) (c : R * (vec * matrix)) : result vec :=
  let '(weight, (mean, cov)) := c in
  rbind (multivariate_normal_pdf X mean cov) (fun p =>
    Ok (Np.scale Rmult weight p)).

Definition anomaly_score (X : matrix) : M t vec :=
  self <- get ;;
  a <- lift (check_is_fitted self) ;;
  X <- lift (check_array X) ;;
  terms <- lift (traverse (weighted_pdf X)
             (combine (weights_ a) (combine (means_ a) (covariances_ a)))) ;;
  ret (Np.neg_log Ropp ln (Np.sum_axis0 0 Rplus (length X) terms)).

Definition fit (X : matrix) : M t unit :=
  X <- lift (check_array X) ;;
  self <- get ;;
  a <- lift (GaussianMixture_fit (base self) X) ;;
  modify (set_fitted a) ;;
  scores <- anomaly_score X ;;
  self <- get ;;
  threshold <- lift (np_percentile scores (100 * (1 - fpr self))) ;;
  modify (set_threshold_ threshold).
End Methods.
End GaussianMixtureOutlierDetector.

(** ** [PCA] (reconstruction_based.py) *)

Module PCA.
Import Decomposition.
Local Open Scope py_scope.

Record t : Type := {
  fpr : R;
  _pca : Decomposition.PCA;
  X_ : option matrix;
  threshold_ : option R
}.

Definition set_X_ (X : matrix) (self : t) : t :=
  {| fpr := fpr self; _pca := _pca self; X_ := Some X;
     threshold_ := threshold_ self |}.

Definition set_pca_fitted (a : attrs) (self : t) : t :=
  {| fpr := fpr self;
     _pca := {| kw := kw (_pca self); fitted := Some a |};
     X_ := X_ self; threshold_ := threshold_ self |}.

Definition set_threshold_ (v : R) (self : t) : t :=
  {| fpr := fpr self; _pca := _pca self; X_ := X_ self;
     threshold_ := Some v |}.

(** A property [self._pca.<name>_]: the attribute is missing until the
    estimator is fitted. *)
Definition pca_attr {A} (f : attrs -> A) (self : t) : result A :=
  match fitted (_pca self) with
  | Some a => Ok (f a)
  | None => Raise AttributeError
  end.

Definition components_ := pca_attr Decomposition.components_.
Definition explained_variance_ := pca_attr Decomposition.explained_variance_.
Definition explained_variance_ratio_ :=
  pca_attr Decomposition.explained_variance_ratio_.
Definition mean_ := pca_attr Decomposition.mean_.
Definition noise_variance_ := pca_attr Decomposition.noise_variance_.
Definition n_components_ := pca_attr Decomposition.n_components_.
Definition singular_values_ := pca_attr Decomposition.singular_values_.

Definition check_params (self : t) : result unit :=
  if Rlt_dec (fpr self) 0 then Raise ValueError
  else if Rlt_dec 1 (fpr self) then Raise ValueError
  else Ok tt.

Definition __init__ (fpr : R) (kwargs : Decomposition.kwargs) : result t :=
  let self := {| fpr := fpr;
                 _pca := {| kw := kwargs; fitted := None |};
                 X_ := None;
                 threshold_ := None |} in
  rbind (check_params self) (fun _ => Ok self).

(** Reading [self.X_]. *)
Definition get_X_ : M t matrix :=
  self <- get ;;
  lift (match X_ self with
        | Some X => Ok X
        | None => Raise AttributeError
        end).

Section Methods.
Context {L : Libs}.

Definition reconstruct (X : matrix) : M t matrix :=
  self <- get ;;
  Z <- lift (sk_transform (_pca self) X) ;;
  lift (sk_inverse_transform (_pca self) Z).

(** [np.sqrt(np.sum((X - X_rec) ** 2, axis=1))]. *)
Definition residual_norms (X X_rec : matrix) : vec :=
  map sqrt (map Rsum (map (map (fun r => r ^ 2)) (Np.map2 vsub X X_rec))).

Definition anomaly_score (X : option matrix) : M t vec :=
  X <- match X with
       | None => get_X_
       | Some X => ret X
       end ;;
  X_rec <- reconstruct X ;;
  ret (residual_norms X X_rec).

Definition fit (X : matrix) : M t unit :=
  X <- lift (check_array X) ;;
  modify (set_X_ X) ;;
  X <- get_X_ ;;
  self <- get ;;
  a <- lift (sk_fit (_pca self) X) ;;
  modify (set_pca_fitted a) ;;
  anomaly_score <- anomaly_score None ;;
  self <- get ;;
  threshold <- lift (np_percentile anomaly_score (100 * (1 - fpr self))) ;;
  modify (set_threshold_ threshold).

Definition score (X : matrix) : M t R :=
  self <- get ;;
  lift (sk_score (_pca self) X).
End Methods.
End PCA.

(** ** The detector variants under one interface *)

Module Detector.
Inductive t : Type :=
| Mixture (d : GaussianMixtureOutlierDetector.t)
| Reconstruction (d : PCA.t).

Definition fpr (d : t) : R :=
  match d with
  | Mixture g => GaussianMixtureOutlierDetector.fpr g
  | Reconstruction p => PCA.fpr p
  end.

Definition threshold_ (d : t) : option R :=
  match d with
  | Mixture g => GaussianMixtureOutlierDetector.threshold_ g
  | Reconstruction p => PCA.threshold_ p
  end.



(** Running a method of a variant on the detector that holds it. *)
Definition on_mixture {A} (m : M GaussianMixtureOutlierDetector.t A)
    (g : GaussianMixtureOutlierDetector.t) : result A * t :=
  let (r, g') := m g in (r, Mixture g').

Definition on_reconstruction {A} (m : M PCA.t A) (p : PCA.t) : result A * t :=
  let (r, p') := m p in (r, Reconstruction p').

Section Methods.
Context {L : Libs}.

Definition fit (X : matrix) : M t unit :=
  fun d =>
    match d with
    | Mixture g => on_mixture (GaussianMixtureOutlierDetector.fit X) g
    | Reconstruction p => on_reconstruction (PCA.fit X) p
    end.

Definition anomaly_score (X : matrix) : M t vec :=
  fun d =>
    match d with
    | Mixture g => on_mixture (GaussianMixtureOutlierDetector.anomaly_score X) g
    | Reconstruction p => on_reconstruction (PCA.anomaly_score (Some X)) p
    end.

(** The fitted attributes that the library estimator yields for this
    detector on [X], compared with the ones the detector holds. *)
Definition holds_estimate_of (d : t) (X : matrix) : Prop :=
  match d with
  | Mixture g =>
      exists a, GaussianMixture_fit (GaussianMixtureOutlierDetector.base g) X = Ok a
                /\ GaussianMixtureOutlierDetector.fitted g = Some a
  | Reconstruction p =>
      exists a, sk_fit (PCA._pca p) X = Ok a
                /\ Decomposition.fitted (PCA._pca p) = Some a
                /\ PCA.X_ p = Some X
  end.
End Methods.
End Detector.

(** ** The mixture score on binary64 floats

    Lines 122-130 of mixture_distns.py once more, on the primitive
    floats of the kernel.  [np.log] follows IEEE 754 at the special
    values (the logarithm of either zero is minus infinity); [libm_log]
    is the logarithm on positive finite numbers and [pdf] is
    [multivariate_normal.pdf]. *)

Module Float64.
Import PrimFloat.

Definition np_log (libm_log : float -> float) (x : float) : float :=
  if eqb x zero then neg_infinity
  else if ltb x zero then nan
  else if is_nan x then nan
  else if is_infinity x then infinity
  else libm_log x.

Definition fvec : Type := list float.
Definition fmatrix : Type := list fvec.

Record attrs : Type := {
  weights_ : fvec;
  means_ : fmatrix;
  covariances_ : list fmatrix
}.

Section Score.
Variable libm_log : float -> float.
Variable pdf : fmatrix -> fvec -> fmatrix -> fvec.

(** [np.sum([weight * pdf(X, mean, cov) for ...], axis=0)]. *)
Definition mixture_density (a : attrs) (X : fmatrix) : fvec :=
  Np.sum_axis0 zero add (length X)
    (map (fun c : float * (fvec * fmatrix) =>
            let '(weight, (mean, cov)) := c in
            Np.scale mul weight (pdf X mean cov))
         (combine (weights_ a) (combine (means_ a) (covariances_ a)))).

Definition anomaly_score (a : attrs) (X : fmatrix) : fvec :=
  Np.neg_log opp (np_log libm_log) (mixture_density a X).
End Score.

(** [multivariate_normal.pdf] returns one density per row of [X]. *)
Definition rowwise_pdf (pdf1 : fvec -> fvec -> fmatrix -> float)
    (X : fmatrix) (mean : fvec) (cov : fmatrix) : fvec :=
  map (fun x => pdf1 x mean cov) X.

(** A density that has underflowed: every value is [0.0]. *)
Definition underflowed_pdf : fmatrix -> fvec -> fmatrix -> fvec :=
  rowwise_pdf (fun _ _ _ => zero).

(** One standard normal component, and a sample 40 standard deviations
    away: its density, about 1e-348, is below the smallest positive
    binary64 number. *)
Definition standard_normal : attrs :=
  {| weights_ := [one]; means_ := [[zero]]; covariances_ := [[[one]]] |}.

Definition far_sample : fmatrix := [[40%float]].
End Float64.

(** ** The [fpr] check on binary64 floats

    Lines 87-93 of reconstruction_based.py once more, on the primitive
    floats of the kernel: [self.fpr < 0. or self.fpr > 1.] with the
    comparisons of IEEE 754, which are both false when [fpr] is NaN. *)

Module Float64Params.
Import PrimFloat.

Definition check_params (fpr : float) : result unit :=
  if (ltb fpr zero || ltb one fpr)%bool then Raise ValueError else Ok tt.
End Float64Params.

(** Whether a float, in the form its specification gives it, is NaN. *)
Definition spec_is_nan (x : SpecFloat.spec_float) : bool :=
  match x with SpecFloat.S754_nan => true | _ => false end.

(** ** A worked instance

    Four points in the plane, centred at the origin, and what the
    libraries return on them: one Gaussian component with the sample
    covariance [diag(1/2, 1/2)] plus the regularisation [1e-6], and the
    principal axes of the data (both singular values are [sqrt 2], so the
    coordinate axes are a valid choice). *)

Module Examples.
Definition X_train : matrix := [[1; 0]; [-1; 0]; [0; 1]; [0; -1]].

Definition gm_attrs : GaussianMixture.attrs :=
  {| GaussianMixture.weights_ := [1];
     GaussianMixture.means_ := [[0; 0]];
     GaussianMixture.covariances_ :=
       [[[1/2 + 1/1000000; 0]; [0; 1/2 + 1/1000000]]];
     GaussianMixture.precisions_ :=
       [[[/ (1/2 + 1/1000000); 0]; [0; / (1/2 + 1/1000000)]]] |}.

Definition pca_attrs (k : nat) : Decomposition.attrs :=
  {| Decomposition.components_ := firstn k [[1; 0]; [0; 1]];
     Decomposition.explained_variance_ := firstn k [2/3; 2/3];
     Decomposition.explained_variance_ratio_ := firstn k [1/2; 1/2];
     Decomposition.mean_ := [0; 0];
     Decomposition.noise_variance_ := 0;
     Decomposition.n_components_ := k;
     Decomposition.singular_values_ := firstn k [sqrt 2; sqrt 2] |}.

(** The density of an isotropic normal distribution in the plane. *)
Definition isotropic_density (x mean : vec) (cov : matrix) : R :=
  let v := nth 0 (nth 0 cov []) 0 in
  exp (- dot (vsub x mean) (vsub x mean) / (2 * v)) / (2 * PI * v).

Definition libs : Libs :=
  {| GaussianMixture_fit := fun _ _ => Ok gm_attrs;
     mvn_check := fun _ _ => CovOk;
     mvn_density := isotropic_density;
     svd_fit := fun _ k _ => Ok (pca_attrs k);
     ppca_score_samples := fun _ X => map (fun _ => 0) X |}.

(** [GaussianMixtureOutlierDetector(fpr=fpr)], other parameters at
    their defaults. *)
Definition mixture (fpr : R) : GaussianMixtureOutlierDetector.t :=
  {| GaussianMixtureOutlierDetector.fpr := fpr;
     GaussianMixtureOutlierDetector.base :=
       {| GaussianMixture.max_iter := 100;
          GaussianMixture.means_init := None;
          GaussianMixture.n_components := 1;
          GaussianMixture.precisions_init := None;
          GaussianMixture.random_state := None;
          GaussianMixture.tol := 1/1000;
          GaussianMixture.weights_init := None |};
     GaussianMixtureOutlierDetector.fitted := None;
     GaussianMixtureOutlierDetector.threshold_ := None |}.

(** [PCA(fpr=fpr, n_components=k)], not whitening. *)
Definition reconstruction (fpr : R) (k : option nat) : PCA.t :=
  {| PCA.fpr := fpr;
     PCA._pca := {| Decomposition.kw :=
                      {| Decomposition.n_components := k;
                         Decomposition.whiten := false |};
                    Decomposition.fitted := None |};
     PCA.X_ := None;
     PCA.threshold_ := None |}.

(** The same detector with the estimator fitted on [X_train], all
    components kept. *)
Definition reconstruction_fitted (fpr : R) : PCA.t :=
  {| PCA.fpr := fpr;
     PCA._pca := {| Decomposition.kw :=
                      {| Decomposition.n_components := None;
                         Decomposition.whiten := false |};
                    Decomposition.fitted := Some (pca_attrs 2) |};
     PCA.X_ := Some X_train;
     PCA.threshold_ := None |}.

Definition mixture_fitted (fpr : R) : GaussianMixtureOutlierDetector.t :=
  GaussianMixtureOutlierDetector.set_fitted gm_attrs (mixture fpr).
End Examples.

(** ** Vocabulary of the statements *)

(** The Euclidean norm of a vector. *)
Definition euclidean_norm (v : vec) : R := sqrt (Rsum (map (fun r => r ^ 2) v)).

(** The matrix that [PCA.anomaly_score] scores: the argument, or the
    stored training matrix when the argument is omitted. *)
Definition scored_input (self : PCA.t) (X : option matrix) : result matrix :=
  match X with
  | Some X => Ok X
  | None => match PCA.X_ self with
            | Some X => Ok X
            | None => Raise AttributeError
            end
  end.

(** The documented shapes of the fitted attributes:
    [components_] is [(n_components, n_features)], [explained_variance_]
    is [(n_components,)] and [mean_] is [(n_features,)]. *)
Definition attrs_shape_ok (a : Decomposition.attrs) : Prop :=
  length (Decomposition.explained_variance_ a) = length (Decomposition.components_ a)
  /\ Forall (fun c => length c = length (Decomposition.mean_ a))
       (Decomposition.components_ a).

(** The rows of [C] are orthonormal. *)
Definition orthonormal_rows (C : matrix) : Prop :=
  forall i j, (i < length C)%nat -> (j < length C)%nat ->
    dot (nth i C []) (nth j C []) = if Nat.eqb i j then 1 else 0.

(** [n] calls of one method in a row: the results, and the instance
    after the last call. *)
Fixpoint run_many {S A} (m : M S A) (n : nat) (s : S) : list (result A) * S :=
  match n with
  | O => ([], s)
  | Datatypes.S n' =>
      let (r, s') := m s in
      let (rs, s'') := run_many m n' s' in
      (r :: rs, s'')
  end.

Section Vocabulary.
Context {L : Libs}.

(** A mixture component that [multivariate_normal] accepts for data
    with [d] features. *)
Definition component_ok (d : nat) (c : R * (vec * matrix)) : Prop :=
  mvn_check (fst (snd c)) (snd (snd c)) = CovOk /\ length (fst (snd c)) = d.

(** A sample sent through [transform] and back. *)
Definition reconstruct_row (w : bool) (a : Decomposition.attrs) (x : vec) : vec :=
  inverse_transform_row w a (transform_row w a x).

(** [v] is a combination of the rows of [C]. *)
Definition in_span (d : nat) (C : matrix) (v : vec) : Prop :=
  exists coef, length coef = length C /\ v = lincomb d coef C.

(** The number of components [decomposition.PCA.fit(X)] asks the SVD
    solver for when none is to be dropped:
    [min(n_samples, n_features)]. *)
Definition all_components (X : matrix) : nat := Nat.min (length X) (n_features X).

(** The detector was built to retain all components: [n_components] is
    left at its default [None], or names [min(n_samples, n_features)]
    itself. *)
Definition keeps_all_components (self : PCA.t) (X : matrix) : Prop :=
  match Decomposition.n_components (Decomposition.kw (PCA._pca self)) with
  | None => True
  | Some k => k = all_components X
  end.

(** What the library documents of the attributes [a] that the SVD solver
    returns for [k] components of [X]
    ([U, S, Vt = svd(X - mean_)], [components_ = Vt[:k]]): the shapes,
    orthonormal components, and -- when no singular vector is dropped --
    the factorisation [X - mean_ = (U * S) Vt]: row [i] of [U * S]
    holds the coefficients of the centred sample [i] along the
    components. *)
Definition svd_of (X : matrix) (k : nat) (a : Decomposition.attrs) : Prop :=
  length (Decomposition.mean_ a) = n_features X
  /\ length (Decomposition.components_ a) = k
  /\ attrs_shape_ok a
  /\ orthonormal_rows (Decomposition.components_ a)
  /\ (k = all_components X ->
      exists US : matrix,
        Forall2 (fun x c =>
                   length c = k
                   /\ vsub x (Decomposition.mean_ a)
                      = lincomb (length (Decomposition.mean_ a)) c
                          (Decomposition.components_ a)) X US).

(** The SVD solver, called by [fit(X)] of the detector [self] for all
    components, answers with a decomposition of [X]. *)
Definition svd_solver_decomposes (self : PCA.t) (X : matrix) : Prop :=
  forall a,
    svd_fit (Decomposition.kw (PCA._pca self)) (all_components X) X = Ok a ->
    svd_of X (all_components X) a.

(** When whitening, no explained variance of the estimate is zero. *)
Definition whitening_scales_positive (self : PCA.t) : Prop :=
  Decomposition.whiten (Decomposition.kw (PCA._pca self)) = true ->
  forall a, Decomposition.fitted (PCA._pca self) = Some a ->
    Forall (fun v => 0 < v) (Decomposition.explained_variance_ a).

End Vocabulary.

(** Two detectors of one variant built with the same parameters. *)
Definition same_parameters (d1 d2 : Detector.t) : Prop :=
  match d1, d2 with
  | Detector.Mixture g1, Detector.Mixture g2 =>
      GaussianMixtureOutlierDetector.fpr g1 = GaussianMixtureOutlierDetector.fpr g2
      /\ GaussianMixtureOutlierDetector.base g1 = GaussianMixtureOutlierDetector.base g2
  | Detector.Reconstruction p1, Detector.Reconstruction p2 =>
      PCA.fpr p1 = PCA.fpr p2
      /\ Decomposition.kw (PCA._pca p1) = Decomposition.kw (PCA._pca p2)
  | _, _ => False
  end.

(** The configurations in which the library estimator is a function of
    its input, as [Libs] takes it to be: a mixture with a seeded
    [random_state], and a PCA with [n_components=None], which selects
    the full (LAPACK) solver. *)
Definition reproducible (d : Detector.t) : Prop :=
  match d with
  | Detector.Mixture g =>
      GaussianMixture.random_state (GaussianMixtureOutlierDetector.base g) <> None
  | Detector.Reconstruction p =>
      Decomposition.n_components (Decomposition.kw (PCA._pca p)) = None
  end.

(** The worked reconstruction detector restricted to its first
    component. *)
Definition example_one_component : PCA.t :=
  {| PCA.fpr := 1/100;
     PCA._pca := {| Decomposition.kw :=
                      {| Decomposition.n_components := Some 1%nat;
                         Decomposition.whiten := false |};
                    Decomposition.fitted := Some (Examples.pca_attrs 1) |};
     PCA.X_ := Some Examples.X_train;
     PCA.threshold_ := None |}.

(** ** [plot_anomaly_score] (utils/pyplot.py)

    The function draws on a matplotlib [Axes].  The axes are a record of
    what has been set and drawn; the detector is the object the function
    is handed, with the four attributes it reads.  The calls on the axes
    are taken to succeed (only the shape check of [ax.bar] is written
    out) and the keyword arguments forwarded to [ax.bar] are left out:
    what matplotlib itself may reject once drawing has started is not
    part of this model, and nothing below is stated about it. *)

Module Pyplot.
Import String.
Local Open Scope py_scope.

(** One bar: position, height, colour. *)
Record bar : Type := {
  bar_x : R;
  bar_height : R;
  bar_color : string
}.

(** One horizontal line: height, left end, right end. *)
Record hline : Type := {
  hline_y : R;
  hline_xmin : R;
  hline_xmax : R
}.

Record Axes : Type := {
  xlabel : option string;
  ylabel : option string;
  title : option string;
  xlim : option (R * R);
  ylim : option (R * R);
  grid : option bool;
  bars : list bar;
  hlines : list hline
}.

(** [plt.subplots(1, 1)]: fresh axes. *)
Definition subplots : Axes :=
  {| xlabel := None; ylabel := None; title := None; xlim := None; ylim := None;
     grid := None; bars := []; hlines := [] |}.

Definition set_xlabel (l : string) (ax : Axes) : Axes :=
  {| xlabel := Some l; ylabel := ylabel ax; title := title ax; xlim := xlim ax;
     ylim := ylim ax; grid := grid ax; bars := bars ax; hlines := hlines ax |}.

Definition set_ylabel (l : string) (ax : Axes) : Axes :=
  {| xlabel := xlabel ax; ylabel := Some l; title := title ax; xlim := xlim ax;
     ylim := ylim ax; grid := grid ax; bars := bars ax; hlines := hlines ax |}.

Definition set_title (l : string) (ax : Axes) : Axes :=
  {| xlabel := xlabel ax; ylabel := ylabel ax; title := Some l; xlim := xlim ax;
     ylim := ylim ax; grid := grid ax; bars := bars ax; hlines := hlines ax |}.

Definition set_xlim (l : R * R) (ax : Axes) : Axes :=
  {| xlabel := xlabel ax; ylabel := ylabel ax; title := title ax; xlim := Some l;
     ylim := ylim ax; grid := grid ax; bars := bars ax; hlines := hlines ax |}.

Definition set_ylim (l : R * R) (ax : Axes) : Axes :=
  {| xlabel := xlabel ax; ylabel := ylabel ax; title := title ax; xlim := xlim ax;
     ylim := Some l; grid := grid ax; bars := bars ax; hlines := hlines ax |}.

Definition set_grid (g : bool) (ax : Axes) : Axes :=
  {| xlabel := xlabel ax; ylabel := ylabel ax; title := title ax; xlim := xlim ax;
     ylim := ylim ax; grid := Some g; bars := bars ax; hlines := hlines ax |}.

Definition add_bars (bs : list bar) (ax : Axes) : Axes :=
  {| xlabel := xlabel ax; ylabel := ylabel ax; title := title ax; xlim := xlim ax;
     ylim := ylim ax; grid := grid ax; bars := (bars ax ++ bs)%list;
     hlines := hlines ax |}.

Definition add_hline (h : hline) (ax : Axes) : Axes :=
  {| xlabel := xlabel ax; ylabel := ylabel ax; title := title ax; xlim := xlim ax;
     ylim := ylim ax; grid := grid ax; bars := bars ax;
     hlines := (hlines ax ++ [h])%list |}.

(** The detector as [plot_anomaly_score] uses it: the stored training
    matrix [_fit_X] and the threshold (absent until assigned), and the
    two methods it calls. *)
Record detector : Type := {
  _fit_X : option matrix;
  threshold_ : option R;
  anomaly_score : option matrix -> result vec;
  detect : option matrix -> result (list Z)
}.

(** Reading an attribute that may be missing. *)
Definition getattr {A} (a : option A) : result A :=
  match a with
  | Some v => Ok v
  | None => Raise AttributeError
  end.

(** Python's [max] of a sequence: it raises [ValueError] on an empty
    one. *)
Definition py_max (v : vec) : result R :=
  match v with
  | [] => Raise ValueError
  | x :: t => Ok (fold_left Rmax t x)
  end.

(** [np.arange(n)]. *)
Definition arange (n : nat) : vec := map INR (seq 0 n).

(** [np.where(labels.astype(np.bool), '#ff2800', '#0041ff')]. *)
Definition colors (labels : list Z) : list string :=
  map (fun l => if Z.eqb l 0 then "#0041ff"%string else "#ff2800"%string) labels.

(** [ax.bar(xlocs, scores, align='center', color=color)]: the three
    sequences must have one length. *)
Fixpoint zip_bars (xs hs : vec) (cs : list string) : list bar :=
  match xs, hs, cs with
  | x :: xs', h :: hs', c :: cs' =>
      {| bar_x := x; bar_height := h; bar_color := c |} :: zip_bars xs' hs' cs'
  | _, _, _ => []
  end.

(** A call of a method of the axes: it changes the axes in place. *)
Definition on_ax (f : Axes -> Axes) : M (option Axes) unit :=
  modify (option_map f).

Definition ax_bar (xs hs : vec) (cs : list string) : M (option Axes) unit :=
  if (Nat.eqb (List.length hs) (List.length xs)
      && Nat.eqb (List.length cs) (List.length xs))%bool
  then on_ax (add_bars (zip_bars xs hs cs))
  else lift (Raise ValueError).

(** An optional setter: [if v is not None: ax.set(v)]. *)
Definition set_if {A} (set : A -> Axes -> Axes) (v : option A) : M (option Axes) unit :=
  match v with
  | Some a => on_ax (set a)
  | None => ret tt
  end.

(** [plot_anomaly_score(det, X, ax, title, xlim, ylim, xlabel, ylabel,
    grid)].  The state is the axes object: the one passed as [ax], or
    none, in which case [plt.subplots] creates it; the function returns
    that object, so the final state is its result. *)
Definition plot_anomaly_score (det : detector) (X : option matrix)
    (title : option string) (xlim ylim : option (R * R))
    (xlabel ylabel : option string) (grid : bool) : M (option Axes) unit :=
  n_samples <- lift (match X with
                     | None => rbind (getattr (_fit_X det))
                                 (fun F => Ok (List.length F))
                     | Some X => Ok (List.length X)
                     end) ;;
  let xlocs := arange n_samples in
  scores <- lift (anomaly_score det X) ;;
  labels <- lift (detect det X) ;;
  let color := colors labels in
  modify (fun ax => match ax with None => Some subplots | Some _ => ax end) ;;
  let xlim := match xlim with None => (-1, INR n_samples) | Some l => l end in
  ylim <- lift (match ylim with
                | None =>
                    rbind (py_max scores) (fun m =>
                    rbind (getattr (threshold_ det)) (fun t =>
                    Ok (0, 1.1 * Rmax m t)))
                | Some l => Ok l
                end) ;;
  set_if set_xlabel xlabel ;;
  set_if set_ylabel ylabel ;;
  set_if set_title title ;;
  on_ax (set_xlim xlim) ;;
  on_ax (set_ylim ylim) ;;
  on_ax (set_grid grid) ;;
  ax_bar xlocs scores color ;;
  t <- lift (getattr (threshold_ det)) ;;
  on_ax (add_hline {| hline_y := t; hline_xmin := fst xlim; hline_xmax := snd xlim |}).
End Pyplot.

(** The number of samples [plot_anomaly_score] plots: the rows of [X],
    or of the detector's [_fit_X] when [X] is omitted. *)
Definition plotted_samples (det : Pyplot.detector) (X : option matrix) : result nat :=
  match X with
  | None => rbind (Pyplot.getattr (Pyplot._fit_X det)) (fun F => Ok (length F))
  | Some X => Ok (length X)
  end.

(** A detector that answers with one score and one label per plotted
    sample. *)
Definition one_per_sample (det : Pyplot.detector) (X : option matrix) : Prop :=
  forall n scores labels,
    plotted_samples det X = Ok n ->
    Pyplot.anomaly_score det X = Ok scores ->
    Pyplot.detect det X = Ok labels ->
    length scores = n /\ length labels = n.

(** The bars and lines an axes object held before a call. *)
Definition bars_of (ax : option Pyplot.Axes) : list Pyplot.bar :=
  match ax with Some a => Pyplot.bars a | None => [] end.

Definition hlines_of (ax : option Pyplot.Axes) : list Pyplot.hline :=
  match ax with Some a => Pyplot.hlines a | None => [] end.

(** An optional setting applied to an axes record. *)
Definition set_opt {A} (set : A -> Pyplot.Axes -> Pyplot.Axes) (v : option A)
    (ax : Pyplot.Axes) : Pyplot.Axes :=
  match v with Some a => set a ax | None => ax end.

(** The axes after labels, limits and grid were set. *)
Definition framed (ax : Pyplot.Axes) (title xlabel ylabel : option String.string)
    (xlim ylim : R * R) (grid : bool) : Pyplot.Axes :=
  Pyplot.set_grid grid
    (Pyplot.set_ylim ylim
       (Pyplot.set_xlim xlim
          (set_opt Pyplot.set_title title
             (set_opt Pyplot.set_ylabel ylabel
                (set_opt Pyplot.set_xlabel xlabel ax))))).

(** A detector as [plot_anomaly_score] sees one: fitted on the four
    points of the worked instance, with one score and one label per
    sample; and the same detector before its threshold exists. *)
Definition example_plot_detector (threshold : option R) : Pyplot.detector :=
  {| Pyplot._fit_X := Some Examples.X_train;
     Pyplot.threshold_ := threshold;
     Pyplot.anomaly_score := fun _ => Ok [0; 1; 2; 1/2];
     Pyplot.detect := fun _ => Ok [0%Z; 0%Z; 1%Z; 0%Z] |}.

(** ** The dataset loaders of [kenchi/datasets/base.py]

    Reading a file is not modelled: a loader takes the two-dimensional
    array that [np.loadtxt] (or scikit-learn's [load_breast_cancer])
    returned, one entry per row with the class column split off, and
    does what the source does from there on.  The random state of
    [subset='kriegel11'] enters as the function [choice]. *)

Module Datasets.
Import String.

(** The exceptions the loaders raise. *)
Inductive exn : Set :=
| ValueError
| IndexError.

Inductive result (A : Type) : Type :=
| Ok (a : A)
| Raise (e : exn).
Arguments Ok {A} a.
Arguments Raise {A} e.

Definition rbind {A B} (r : result A) (k : A -> result B) : result B :=
  match r with
  | Ok a => k a
  | Raise e => Raise e
  end.

Fixpoint traverse {A B} (f : A -> result B) (l : list A) : result (list B) :=
  match l with
  | [] => Ok []
  | a :: t => rbind (f a) (fun b => rbind (traverse f t) (fun bs => Ok (b :: bs)))
  end.

Definition NEG_LABEL : Z := (-1)%Z.
Definition POS_LABEL : Z := 1%Z.

(** A loaded table: one entry per row, the features and the class. *)
Definition table (C : Type) : Type := list (vec * C).

(** [data[:, :-1]] and [data[:, -1]]. *)
Definition features {C} (data : table C) : matrix := map fst data.
Definition classes {C} (data : table C) : list C := map snd data.

(** [a == b] on two floats. *)
Definition float_eq (a b : R) : bool := if Req_dec_T a b then true else false.

(** [np.flatnonzero(mask)]: the positions that hold [True], ascending. *)
Definition flatnonzero (mask : list bool) : list nat :=
  map fst (filter snd (combine (seq 0 (List.length mask)) mask)).

(** [np.unique] on an index array: sorted, without repetition. *)
Fixpoint insert_unique (i : nat) (s : list nat) : list nat :=
  match s with
  | [] => [i]
  | j :: s' =>
      if (i <? j)%nat then i :: s
      else if (i =? j)%nat then s
      else j :: insert_unique i s'
  end.

Definition unique_index (l : list nat) : list nat := fold_right insert_unique [] l.

(** [np.union1d(a, b)]: the sorted union of two index arrays. *)
Definition union1d (a b : list nat) : list nat := unique_index (a ++ b).

(** [np.unique(y)] on floats: sorted, equal neighbours merged. *)
Fixpoint dedup (s : vec) : vec :=
  match s with
  | [] => []
  | x :: s' =>
      match s' with
      | [] => [x]
      | y :: _ => if float_eq x y then dedup s' else x :: dedup s'
      end
  end.

Definition unique (y : vec) : vec := dedup (np_sort y).

(** [a[i]] for one index; out of range raises [IndexError]. *)
Definition getitem {A} (a : list A) (i : nat) : result A :=
  match nth_error a i with
  | Some x => Ok x
  | None => Raise IndexError
  end.

(** [a[s]] for an index array [s]. *)
Definition take {A} (a : list A) (s : list nat) : result (list A) :=
  traverse (getitem a) s.

(** [y[mask] = v], for a mask of the shape of [y]. *)
Definition assign {A} (mask : list bool) (v : A) (y : list A) : list A :=
  Np.map2 (fun (m : bool) yi => if m then v else yi) mask y.

(** [astype(int)] on one float: truncation towards zero. *)
Definition astype_int (r : R) : Z :=
  if Rle_dec 0 r then Int_part r else (- Int_part (- r))%Z.

(** [subset in names]. *)
Definition among (subset : string) (names : list string) : bool :=
  existsb (String.eqb subset) names.

Section Random.
(** What [rnd.choice(a, size=size, replace=False)] returns when it
    returns, for the random state of the call. *)
Variable choice : list nat -> nat -> list nat.

(** [rnd.choice(a, size=size, replace=False)]: a sample larger than the
    population raises [ValueError]. *)
Definition rnd_choice (a : list nat) (size : nat) : result (list nat) :=
  if (List.length a <? size)%nat then Raise ValueError else Ok (choice a size).

(** [load_pendigits], given the arrays loaded from the training and from
    the test file; the result is the pair [(X, y)] that
    [return_X_y=True] returns and that the [Bunch] holds otherwise.  The
    three [if subset == ...] statements of the source are one chain
    here: after the membership test exactly one of them runs. *)
Definition load_pendigits (subset : string) (data_tra data_tes : table R)
    : result (matrix * list Z) :=
  let X_tra := features data_tra in
  let y_tra := classes data_tra in
  if negb (among subset ["goldstein12-global"; "goldstein12-local"; "kriegel11"]%string)
  then Raise ValueError
  else
    rbind
      (if (subset =? "goldstein12-global")%string then
         let X := X_tra in
         let y := y_tra in
         let n_outliers_per_class := 10%nat in
         let boolarr := map (fun i => map (fun yi => float_eq yi i) y) (unique y) in
         rbind (getitem boolarr 8) (fun is_outlier =>
         let s :=
           fold_left
             (fun s (ir : nat * list bool) =>
                let idx := flatnonzero (snd ir) in
                if (fst ir =? 8)%nat then union1d s idx
                else union1d s (firstn n_outliers_per_class idx))
             (combine (seq 0 (List.length boolarr)) boolarr) [] in
         Ok (X, y, is_outlier, s))
       else if (subset =? "goldstein12-local")%string then
         let X := X_tra in
         let y := y_tra in
         let n_outliers := 10%nat in
         let is_outlier := map (fun yi => float_eq yi 4) y in
         let idx_inlier := flatnonzero (map negb is_outlier) in
         let idx_outlier := flatnonzero is_outlier in
         Ok (X, y, is_outlier, union1d idx_inlier (firstn n_outliers idx_outlier))
       else
         let X := X_tra ++ features data_tes in
         let y := y_tra ++ classes data_tes in
         let n_outliers := 20%nat in
         let is_outlier := map (fun yi => float_eq yi 4) y in
         let idx_inlier := flatnonzero (map negb is_outlier) in
         let idx_outlier := flatnonzero is_outlier in
         rbind (rnd_choice idx_outlier n_outliers) (fun c =>
         Ok (X, y, is_outlier, union1d idx_inlier c)))
      (fun '(X, y, is_outlier, s) =>
         let y := assign (map negb is_outlier) (IZR POS_LABEL) y in
         let y := assign is_outlier (IZR NEG_LABEL) y in
         rbind (take X s) (fun X =>
         rbind (take y s) (fun y =>
         Ok (X, map astype_int y)))).

(** [load_wdbc], given what [load_breast_cancer(return_X_y=True)]
    returns. *)
Definition load_wdbc (subset : string) (loaded : table Z) : result (matrix * list Z) :=
  let X := features loaded in
  let y := classes loaded in
  let n_outliers := 10%nat in
  let is_outlier := map (fun yi => Z.eqb yi 0) y in
  let idx_inlier := flatnonzero (map negb is_outlier) in
  let idx_outlier := flatnonzero is_outlier in
  let y := assign is_outlier NEG_LABEL y in
  if negb (among subset ["goldstein12"; "kriegel11"; "sugiyama13"]%string)
  then Raise ValueError
  else
    rbind
      (if (subset =? "goldstein12")%string then
         Ok (union1d idx_inlier (firstn n_outliers idx_outlier))
       else if (subset =? "kriegel11")%string then
         rbind (rnd_choice idx_outlier n_outliers) (fun c =>
         Ok (union1d idx_inlier c))
       else Ok [])
      (fun s =>
         if negb (subset =? "sugiyama13")%string then
           rbind (take X s) (fun X =>
           rbind (take y s) (fun y =>
           Ok (X, y)))
         else Ok (X, y)).
End Random.

(** [load_pima], given the array loaded from its file. *)
Definition load_pima (data : table R) : matrix * list Z :=
  let X := features data in
  let y := classes data in
  let is_outlier := map (fun yi => float_eq yi 1) y in
  let y := assign (map negb is_outlier) (IZR POS_LABEL) y in
  let y := assign is_outlier (IZR NEG_LABEL) y in
  (X, map astype_int y).

End Datasets.

Import String.StringSyntax.
Delimit Scope string_scope with string.

(** The rows of a table at the positions that satisfy [keep], in
    order. *)
Definition rows_at {A} (keep : nat -> bool) (a : list A) : list A :=
  map snd (filter (fun p => keep (fst p)) (combine (seq 0 (length a)) a)).

(** Whether an index array holds [i]. *)
Definition mem_index (s : list nat) (i : nat) : bool := existsb (Nat.eqb i) s.

(** A row with its class replaced by a label. *)
Definition relabel {C} (lab : C -> Z) (row : vec * C) : vec * Z :=
  (fst row, lab (snd row)).

(** The rows of a table whose class is [c], and the others. *)
Definition of_class {C} (eqb : C -> C -> bool) (c : C) (row : vec * C) : bool :=
  eqb (snd row) c.

Definition not_of_class {C} (eqb : C -> C -> bool) (c : C) (row : vec * C) : bool :=
  negb (eqb (snd row) c).

(** What [rnd.choice(a, size, replace=False)] guarantees when it
    returns: [size] distinct entries of [a]. *)
Definition samples_without_replacement (choice : list nat -> nat -> list nat) : Prop :=
  forall a size, (size <= length a)%nat -> NoDup a ->
    length (choice a size) = size
    /\ NoDup (choice a size)
    /\ incl (choice a size) a.

(** A choice that samples without replacement: the first [size]
    entries. *)
Definition example_choice (a : list nat) (size : nat) : list nat := firstn size a.

(** Small tables: three tumours, one of them malignant; ten malignant
    tumours and a benign one; twenty samples of digit 4 and one of
    digit 7. *)
Definition example_tumours : Datasets.table Z :=
  [([1; 2], 1%Z); ([3; 4], 0%Z); ([5; 6], 1%Z)].

Definition example_many_tumours : Datasets.table Z :=
  repeat ([3; 4], 0%Z) 10 ++ [([1; 2], 1%Z)].

Definition example_fours : Datasets.table R := repeat ([0; 0], 4) 20.

Definition example_seven : Datasets.table R := [([1; 1], 7)].

(** * Properties *)

(** ** Arrays *)

Lemma check_array_inv (X X' : matrix) :
  check_array X = Ok X' ->
  X' = X /\ (1 <= length X)%nat /\ (1 <= n_features X)%nat
  /\ Forall (fun r => length r = n_features X) X.
Proof.
  unfold check_array.
  destruct (Nat.leb 1 (length X) && Nat.leb 1 (n_features X) && rectangular X)%bool
    eqn:E; [|discriminate].
  intros H; injection H as <-.
  apply andb_prop in E. destruct E as [E Hr].
  apply andb_prop in E. destruct E as [Hn Hd].
  apply Nat.leb_le in Hn. apply Nat.leb_le in Hd.
  repeat split; trivial.
  unfold rectangular in Hr. rewrite forallb_forall in Hr.
  apply Forall_forall. intros r Hin. apply Nat.eqb_eq. auto.
Qed.

Lemma check_array_idem (X X' : matrix) :
  check_array X = Ok X' -> check_array X' = Ok X'.
Proof.
  intros H. destruct (check_array_inv X X' H) as [-> _]. exact H.
Qed.

Lemma map2_length {A B C} (f : A -> B -> C) (u : list A) (v : list B) :
  length u = length v -> length (Np.map2 f u v) = length u.
Proof.
  revert v. induction u as [|a u IH]; intros [|b v]; simpl; intros H;
    try discriminate; trivial.
  f_equal. apply IH. lia.
Qed.

Lemma map2_nth {A B C} (f : A -> B -> C) (u : list A) (v : list B) i da db dc :
  (i < length u)%nat -> (i < length v)%nat ->
  nth i (Np.map2 f u v) dc = f (nth i u da) (nth i v db).
Proof.
  revert v i. induction u as [|a u IH]; intros [|b v] [|i]; simpl; intros Hu Hv;
    try lia; trivial.
  apply IH; lia.
Qed.

Lemma nth_map_in_range {A B} (f : A -> B) (l : list A) i da db :
  (i < length l)%nat -> nth i (map f l) db = f (nth i l da).
Proof.
  revert i. induction l as [|a l IH]; intros [|i]; simpl; intros H;
    try lia; trivial.
  apply IH. lia.
Qed.

(** ** [np.percentile] *)

Lemma np_percentile_ok (a : vec) (q : R) :
  a <> [] -> 0 <= q <= 100 -> exists v, np_percentile a q = Ok v.
Proof.
  intros Ha [H0 H1]. unfold np_percentile.
  destruct (Rlt_dec q 0); [lra|].
  destruct (Rlt_dec 100 q); [lra|].
  destruct a; [congruence|]. eexists; reflexivity.
Qed.

Lemma np_percentile_range (a : vec) (q v : R) :
  np_percentile a q = Ok v -> 0 <= q <= 100 /\ a <> [].
Proof.
  unfold np_percentile.
  destruct (Rlt_dec q 0); [discriminate|].
  destruct (Rlt_dec 100 q); [discriminate|].
  destruct a; [discriminate|]. intros _. split; [lra|congruence].
Qed.

Lemma np_percentile_out_of_range (a : vec) (q : R) :
  q < 0 \/ 100 < q -> np_percentile a q = Raise ValueError.
Proof.
  intros H. unfold np_percentile.
  destruct (Rlt_dec q 0); trivial.
  destruct (Rlt_dec 100 q); trivial. lra.
Qed.

(** [np_sort] sorts. *)

Lemma insert_sorted_permutation (x : R) (l : vec) :
  Permutation (x :: l) (insert_sorted x l).
Proof.
  induction l as [|y l IH]; simpl; [reflexivity|].
  destruct (Rle_dec x y); [reflexivity|].
  rewrite perm_swap. now apply perm_skip.
Qed.

Lemma np_sort_permutation (l : vec) : Permutation l (np_sort l).
Proof.
  induction l as [|x l IH]; simpl; [reflexivity|].
  rewrite <- insert_sorted_permutation. now apply perm_skip.
Qed.

Lemma np_sort_length (l : vec) : length (np_sort l) = length l.
Proof. symmetry. apply Permutation_length, np_sort_permutation. Qed.

Lemma insert_sorted_sorted (x : R) (l : vec) :
  StronglySorted Rle l -> StronglySorted Rle (insert_sorted x l).
Proof.
  induction 1 as [|y l Hs IH Hy]; simpl.
  - repeat constructor.
  - destruct (Rle_dec x y) as [Hxy|Hxy].
    + constructor; [now constructor|]. constructor; [exact Hxy|].
      rewrite Forall_forall in Hy |- *. intros z Hz. specialize (Hy z Hz). lra.
    + constructor; [exact IH|].
      apply (Permutation_Forall (insert_sorted_permutation x l)).
      constructor; [lra|exact Hy].
Qed.

Lemma np_sort_sorted (l : vec) : StronglySorted Rle (np_sort l).
Proof.
  induction l as [|x l IH]; simpl; [constructor|].
  now apply insert_sorted_sorted.
Qed.

Lemma sorted_nth_le (s : vec) :
  StronglySorted Rle s ->
  forall i j, (i <= j)%nat -> (j < length s)%nat -> nth i s 0 <= nth j s 0.
Proof.
  induction 1 as [|y s Hs IH Hy]; intros i j Hij Hj; simpl in *; [lia|].
  destruct i as [|i], j as [|j]; try lia.
  - lra.
  - rewrite Forall_forall in Hy. apply Hy, nth_In. lia.
  - apply IH; lia.
Qed.

(** [floor_nat] is the floor on the nonnegative reals. *)

Lemma floor_nat_spec (h : R) (k : nat) :
  INR k <= h < INR k + 1 -> floor_nat h = k.
Proof.
  intros [Hlo Hhi]. unfold floor_nat.
  rewrite <- (Int_part_spec h (Z.of_nat k)).
  - apply Nat2Z.id.
  - rewrite <- INR_IZR_INZ. lra.
Qed.

Lemma floor_nat_bounds (h : R) :
  0 <= h -> INR (floor_nat h) <= h < INR (floor_nat h) + 1.
Proof.
  intros Hh. unfold floor_nat.
  destruct (base_Int_part h) as [Hlo Hhi].
  assert (Hz : (0 <= Int_part h)%Z).
  { apply Z.lt_succ_r. apply lt_IZR. rewrite succ_IZR. lra. }
  rewrite INR_IZR_INZ, Z2Nat.id by exact Hz. lra.
Qed.

Lemma np_percentile_value (a : vec) (q v : R) :
  np_percentile a q = Ok v ->
  v = nth (floor_nat (q / 100 * INR (length a - 1))) (np_sort a) 0
      + (q / 100 * INR (length a - 1)
         - INR (floor_nat (q / 100 * INR (length a - 1))))
        * (nth (Nat.min (floor_nat (q / 100 * INR (length a - 1)) + 1)
                  (length a - 1)) (np_sort a) 0
           - nth (floor_nat (q / 100 * INR (length a - 1))) (np_sort a) 0).
Proof.
  unfold np_percentile.
  destruct (Rlt_dec q 0); [discriminate|].
  destruct (Rlt_dec 100 q); [discriminate|].
  destruct a; [discriminate|]. intros H. injection H as <-. reflexivity.
Qed.

(** The percentile lies between the two order statistics that are
    nearest to the virtual index. *)
Lemma np_percentile_between (a : vec) (q v : R) :
  np_percentile a q = Ok v ->
  let s := np_sort a in
  let lo := floor_nat (q / 100 * INR (length a - 1)) in
  let hi := Nat.min (lo + 1) (length a - 1) in
  (lo <= length a - 1)%nat /\ nth lo s 0 <= v <= nth hi s 0.
Proof.
  intros H. pose proof (np_percentile_range a q v H) as [Hq Hne].
  rewrite (np_percentile_value a q v H). clear H. cbv zeta.
  set (n := length a).
  set (h := q / 100 * INR (n - 1)).
  assert (Hn : (1 <= n)%nat).
  { unfold n. destruct a; [congruence|simpl; lia]. }
  assert (Hh0 : 0 <= h).
  { unfold h. apply Rmult_le_pos; [lra|apply pos_INR]. }
  assert (Hh1 : h <= INR (n - 1)).
  { unfold h. pose proof (pos_INR (n - 1)). nra. }
  destruct (floor_nat_bounds h Hh0) as [Hlo Hhi].
  assert (Hlon : (floor_nat h <= n - 1)%nat).
  { apply INR_le. lra. }
  split; [exact Hlon|].
  set (lo := floor_nat h) in *.
  assert (Hs : nth lo (np_sort a) 0
               <= nth (Nat.min (lo + 1) (n - 1)) (np_sort a) 0).
  { apply sorted_nth_le; [apply np_sort_sorted|lia|].
    rewrite np_sort_length. fold n. lia. }
  nra.
Qed.

Lemma np_percentile_100 (a : vec) :
  a <> [] -> np_percentile a 100 = Ok (nth (length a - 1) (np_sort a) 0).
Proof.
  intros Ha. unfold np_percentile.
  destruct (Rlt_dec 100 0) as [Hc|_]; [lra|]. destruct (Rlt_dec 100 100) as [Hc|_]; [lra|].
  destruct a as [|x a]; [congruence|].
  set (n := length (x :: a)).
  assert (Hfl : floor_nat (100 / 100 * INR (n - 1)) = (n - 1)%nat).
  { apply floor_nat_spec. lra. }
  rewrite Hfl. rewrite Nat.min_r by lia. f_equal. lra.
Qed.

Lemma np_percentile_0 (a : vec) :
  a <> [] -> np_percentile a 0 = Ok (nth 0 (np_sort a) 0).
Proof.
  intros Ha. unfold np_percentile.
  destruct (Rlt_dec 0 0) as [Hc|_]; [lra|]. destruct (Rlt_dec 100 0) as [Hc|_]; [lra|].
  destruct a as [|x a]; [congruence|].
  set (n := length (x :: a)).
  assert (Hfl : floor_nat (0 / 100 * INR (n - 1)) = 0%nat).
  { apply floor_nat_spec. simpl. lra. }
  rewrite Hfl. f_equal. simpl. lra.
Qed.

(** [np.percentile([4, 1, 3, 2], 50)] is [2.5]. *)
Lemma np_percentile_median_example : np_percentile [4; 1; 3; 2] 50 = Ok (5/2).
Proof.
  unfold np_percentile.
  destruct (Rlt_dec 50 0) as [Hc|_]; [lra|]. destruct (Rlt_dec 100 50) as [Hc|_]; [lra|].
  assert (Hfl : floor_nat (50 / 100 * INR (length [4; 1; 3; 2] - 1)) = 1%nat).
  { apply floor_nat_spec. simpl. lra. }
  rewrite Hfl.
  assert (Hs : np_sort [4; 1; 3; 2] = [1; 2; 3; 4]).
  { unfold np_sort. simpl.
    repeat (match goal with
            | |- context [Rle_dec ?x ?y] => destruct (Rle_dec x y); try lra
            end; simpl).
    reflexivity. }
  rewrite Hs. simpl. f_equal. lra.
Qed.

(** ** Sums over arrays, for any scalar type *)

Section ScalarFacts.
Context {F : Type}.
Variables (zero : F) (add : F -> F -> F).

Lemma map2_map_same {A} (g h : A -> F) (X : list A) :
  Np.map2 add (map g X) (map h X) = map (fun x => add (g x) (h x)) X.
Proof.
  induction X as [|x X IH]; simpl; [reflexivity|]. now rewrite IH.
Qed.

Lemma repeat_as_map {A} (X : list A) :
  repeat zero (length X) = map (fun _ => zero) X.
Proof.
  induction X as [|x X IH]; simpl; [reflexivity|]. now rewrite IH.
Qed.

Lemma fold_map2_pointwise {A C} (f : C -> A -> F) (comps : list C) (X : list A)
    (g : A -> F) :
  fold_left (Np.map2 add) (map (fun c => map (f c) X) comps) (map g X)
  = map (fun x => fold_left add (map (fun c => f c x) comps) (g x)) X.
Proof.
  revert g. induction comps as [|c comps IH]; intros g; simpl.
  - reflexivity.
  - rewrite map2_map_same. apply (IH (fun x => add (g x) (f c x))).
Qed.

(** Summing along axis 0 a stack of vectors that were each computed
    sample by sample gives, at every sample, the sum over the stack. *)
Lemma sum_axis0_pointwise {A C} (f : C -> A -> F) (comps : list C) (X : list A) :
  Np.sum_axis0 zero add (length X) (map (fun c => map (f c) X) comps)
  = map (fun x => Np.sum zero add (map (fun c => f c x) comps)) X.
Proof.
  unfold Np.sum_axis0, Np.sum. rewrite repeat_as_map.
  apply fold_map2_pointwise.
Qed.
End ScalarFacts.

(** ** The mixture detector *)

Section MixtureFacts.
Context {L : Libs}.
Import GaussianMixtureOutlierDetector.

(** What [anomaly_score] computes, and that it hands back the instance
    it was given. *)
Lemma mixture_anomaly_score_run (X : matrix) (self : t) :
  anomaly_score X self =
  (rbind (check_is_fitted self) (fun a =>
     rbind (check_array X) (fun X =>
       rbind (traverse (weighted_pdf X)
                (combine (GaussianMixture.weights_ a)
                   (combine (GaussianMixture.means_ a)
                      (GaussianMixture.covariances_ a))))
         (fun terms =>
            Ok (Np.neg_log Ropp ln (Np.sum_axis0 0 Rplus (length X) terms))))),
   self).
Proof.
  unfold anomaly_score, bind, get, lift, ret.
  destruct (check_is_fitted self) as [a|e]; simpl; [|reflexivity].
  destruct (check_array X) as [X'|e]; simpl; [|reflexivity].
  destruct (traverse _ _); reflexivity.
Qed.

Lemma mixture_anomaly_score_frame (X : matrix) (self : t) :
  snd (anomaly_score X self) = self.
Proof. rewrite mixture_anomaly_score_run. reflexivity. Qed.

Lemma mixture_anomaly_score_threshold (X : matrix) (v : R) (self : t) :
  fst (anomaly_score X (set_threshold_ v self)) = fst (anomaly_score X self).
Proof. rewrite !mixture_anomaly_score_run. reflexivity. Qed.

Lemma traverse_weighted_pdf (X : matrix) (comps : list (R * (vec * matrix))) :
  Forall (component_ok (n_features X)) comps ->
  traverse (weighted_pdf X) comps
  = Ok (map (fun c => map (fun x => fst c * mvn_density x (fst (snd c)) (snd (snd c))) X)
          comps).
Proof.
  induction 1 as [|[w [mean cov]] comps [Hc Hd] _ IH]; simpl; [reflexivity|].
  simpl in Hc, Hd. unfold multivariate_normal_pdf. rewrite Hc.
  rewrite Hd, Nat.eqb_refl. simpl. rewrite IH. simpl.
  unfold Np.scale. now rewrite map_map.
Qed.

(** The steps of [fit], read off a run that returned. *)
Lemma mixture_fit_ok_inv (X : matrix) (self self' : t) :
  fit X self = (Ok tt, self') ->
  exists a scores v,
    check_array X = Ok X
    /\ GaussianMixture_fit (base self) X = Ok a
    /\ anomaly_score X (set_fitted a self) = (Ok scores, set_fitted a self)
    /\ np_percentile scores (100 * (1 - fpr self)) = Ok v
    /\ self' = set_threshold_ v (set_fitted a self).
Proof.
  unfold fit, bind, lift, get, modify.
  destruct (check_array X) as [X'|e] eqn:HX; [|discriminate].
  destruct (check_array_inv X X' HX) as [-> _].
  destruct (GaussianMixture_fit (base self) X) as [a|e]; [|discriminate].
  pose proof (mixture_anomaly_score_frame X (set_fitted a self)) as Hfr.
  destruct (anomaly_score X (set_fitted a self)) as [[scores|e] s1] eqn:Hs;
    simpl in Hfr; subst s1; [|discriminate].
  simpl.
  destruct (np_percentile scores (100 * (1 - fpr self))) as [v|e] eqn:Hp;
    [|discriminate].
  intros H. injection H as <-. exists a, scores, v. auto.
Qed.
End MixtureFacts.

(** ** The reconstruction detector *)

Section ReconstructionFacts.
Context {L : Libs}.
Import PCA.

Lemma reconstruct_run (X : matrix) (self : t) :
  reconstruct X self =
  (rbind (sk_transform (_pca self) X) (sk_inverse_transform (_pca self)), self).
Proof.
  unfold reconstruct, bind, get, lift.
  destruct (sk_transform (_pca self) X); reflexivity.
Qed.

Lemma reconstruction_anomaly_score_run (X : option matrix) (self : t) :
  anomaly_score X self =
  (rbind (scored_input self X) (fun X =>
     rbind (rbind (sk_transform (_pca self) X) (sk_inverse_transform (_pca self)))
       (fun X_rec => Ok (residual_norms X X_rec))),
   self).
Proof.
  unfold anomaly_score, bind.
  destruct X as [X|]; simpl.
  - unfold ret. rewrite reconstruct_run.
    destruct (rbind _ _); reflexivity.
  - unfold get_X_, bind, get, lift.
    destruct (X_ self) as [X|]; simpl; [|reflexivity].
    rewrite reconstruct_run. destruct (rbind _ _); reflexivity.
Qed.

Lemma reconstruction_anomaly_score_frame (X : option matrix) (self : t) :
  snd (anomaly_score X self) = self.
Proof. rewrite reconstruction_anomaly_score_run. reflexivity. Qed.

Lemma reconstruct_frame (X : matrix) (self : t) :
  snd (reconstruct X self) = self.
Proof. rewrite reconstruct_run. reflexivity. Qed.

Lemma score_frame (X : matrix) (self : t) : snd (score X self) = self.
Proof. reflexivity. Qed.

Lemma reconstruction_anomaly_score_threshold (X : option matrix) (v : R) (self : t) :
  fst (anomaly_score X (set_threshold_ v self)) = fst (anomaly_score X self).
Proof. rewrite !reconstruction_anomaly_score_run. reflexivity. Qed.

(** The steps of [fit], read off a run that returned. *)
Lemma reconstruction_fit_ok_inv (X : matrix) (self self' : t) :
  fit X self = (Ok tt, self') ->
  exists a scores v,
    check_array X = Ok X
    /\ sk_fit (_pca self) X = Ok a
    /\ anomaly_score None (set_pca_fitted a (set_X_ X self))
       = (Ok scores, set_pca_fitted a (set_X_ X self))
    /\ np_percentile scores (100 * (1 - fpr self)) = Ok v
    /\ self' = set_threshold_ v (set_pca_fitted a (set_X_ X self)).
Proof.
  unfold fit, bind, lift, get, modify, get_X_.
  destruct (check_array X) as [X'|e] eqn:HX; [|discriminate].
  destruct (check_array_inv X X' HX) as [-> _]. simpl.
  unfold bind, get, lift. simpl.
  destruct (sk_fit (_pca self) X) as [a|e]; [|discriminate].
  pose proof (reconstruction_anomaly_score_frame None
                (set_pca_fitted a (set_X_ X self))) as Hfr.
  destruct (anomaly_score None (set_pca_fitted a (set_X_ X self)))
    as [[scores|e] s1] eqn:Hs; simpl in Hfr; subst s1; [|discriminate].
  simpl.
  destruct (np_percentile scores (100 * (1 - fpr self))) as [v|e] eqn:Hp;
    [|discriminate].
  intros H. injection H as <-. exists a, scores, v. auto.
Qed.
End ReconstructionFacts.

Section ReconstructionScores.
Context {L : Libs}.
Import PCA.

Lemma sk_transform_ok (p : Decomposition.PCA) (a : Decomposition.attrs) (X : matrix) :
  Decomposition.fitted p = Some a ->
  check_array X = Ok X ->
  n_features X = length (Decomposition.mean_ a) ->
  sk_transform p X
  = Ok (map (transform_row (Decomposition.whiten (Decomposition.kw p)) a) X).
Proof.
  intros Hf HX Hd. unfold sk_transform. rewrite Hf, HX. simpl.
  rewrite Hd, Nat.eqb_refl. reflexivity.
Qed.

Lemma transform_row_length (w : bool) (a : Decomposition.attrs) (x : vec) :
  attrs_shape_ok a ->
  length (transform_row w a x) = length (Decomposition.components_ a).
Proof.
  intros [Hev _]. unfold transform_row. destruct w.
  - rewrite map2_length; rewrite !length_map; auto.
  - apply length_map.
Qed.

Lemma sk_inverse_transform_ok (p : Decomposition.PCA) (a : Decomposition.attrs)
    (X : matrix) :
  Decomposition.fitted p = Some a ->
  attrs_shape_ok a ->
  sk_inverse_transform p
    (map (transform_row (Decomposition.whiten (Decomposition.kw p)) a) X)
  = Ok (map (reconstruct_row (Decomposition.whiten (Decomposition.kw p)) a) X).
Proof.
  intros Hf Hs. unfold sk_inverse_transform. rewrite Hf.
  replace (forallb _ _) with true.
  - rewrite map_map. reflexivity.
  - symmetry. apply forallb_forall. intros z Hz.
    apply in_map_iff in Hz. destruct Hz as [x [<- _]].
    apply Nat.eqb_eq. now apply transform_row_length.
Qed.

(** The vectorised residual is, row by row, the Euclidean norm of the
    difference. *)
Lemma residual_norms_rows (f : vec -> vec) (X : matrix) :
  residual_norms X (map f X) = map (fun x => euclidean_norm (vsub x (f x))) X.
Proof.
  unfold residual_norms. induction X as [|x X IH]; simpl; [reflexivity|].
  simpl in IH. now rewrite IH.
Qed.

(** On a fitted detector and an input of the fitted width,
    [reconstruct] and [anomaly_score] return. *)
Lemma reconstruct_ok (self : t) (a : Decomposition.attrs) (X : matrix) :
  Decomposition.fitted (_pca self) = Some a ->
  attrs_shape_ok a ->
  check_array X = Ok X ->
  n_features X = length (Decomposition.mean_ a) ->
  reconstruct X self
  = (Ok (map (reconstruct_row (Decomposition.whiten (Decomposition.kw (_pca self))) a) X),
     self).
Proof.
  intros Hf Hs HX Hd. rewrite reconstruct_run.
  rewrite (sk_transform_ok _ a X Hf HX Hd). simpl.
  now rewrite (sk_inverse_transform_ok _ a X Hf Hs).
Qed.

Lemma reconstruction_anomaly_score_ok (self : t) (a : Decomposition.attrs)
    (X : option matrix) (Xs : matrix) :
  Decomposition.fitted (_pca self) = Some a ->
  attrs_shape_ok a ->
  scored_input self X = Ok Xs ->
  check_array Xs = Ok Xs ->
  n_features Xs = length (Decomposition.mean_ a) ->
  anomaly_score X self
  = (Ok (map (fun x => euclidean_norm
                (vsub x (reconstruct_row
                           (Decomposition.whiten (Decomposition.kw (_pca self))) a x)))
           Xs),
     self).
Proof.
  intros Hf Hs Hin HX Hd. rewrite reconstruction_anomaly_score_run.
  rewrite Hin. simpl.
  rewrite (sk_transform_ok _ a Xs Hf HX Hd). simpl.
  rewrite (sk_inverse_transform_ok _ a Xs Hf Hs). simpl.
  now rewrite residual_norms_rows.
Qed.

(** Whatever [anomaly_score] returns was produced by
    [residual_norms]. *)
Lemma reconstruction_anomaly_score_inv (self self' : t) (X : option matrix)
    (scores : vec) :
  anomaly_score X self = (Ok scores, self') ->
  exists Xs X_rec, scored_input self X = Ok Xs /\ scores = residual_norms Xs X_rec.
Proof.
  rewrite reconstruction_anomaly_score_run.
  destruct (scored_input self X) as [Xs|e]; simpl; [|discriminate].
  destruct (rbind (sk_transform _ _) _) as [X_rec|e]; simpl; [|discriminate].
  intros H. injection H as <-. now exists Xs, X_rec.
Qed.

Lemma residual_norms_nonneg (X X_rec : matrix) :
  Forall (fun s => 0 <= s) (residual_norms X X_rec).
Proof.
  unfold residual_norms. apply Forall_forall. intros s Hs.
  apply in_map_iff in Hs. destruct Hs as [r [<- _]]. apply sqrt_pos.
Qed.
End ReconstructionScores.

(** ** Runs of [fit] *)

Section FitRuns.
Context {L : Libs}.

Lemma mixture_anomaly_score_ok (self : GaussianMixtureOutlierDetector.t)
    (a : GaussianMixture.attrs) (X : matrix) :
  GaussianMixtureOutlierDetector.fitted self = Some a ->
  check_array X = Ok X ->
  Forall (component_ok (n_features X))
    (combine (GaussianMixture.weights_ a)
       (combine (GaussianMixture.means_ a) (GaussianMixture.covariances_ a))) ->
  GaussianMixtureOutlierDetector.anomaly_score X self
  = (Ok (map (fun x =>
            - ln (Rsum (map (fun c => fst c * mvn_density x (fst (snd c)) (snd (snd c)))
                          (combine (GaussianMixture.weights_ a)
                             (combine (GaussianMixture.means_ a)
                                (GaussianMixture.covariances_ a))))))
           X),
     self).
Proof.
  intros Hf HX Hc. rewrite mixture_anomaly_score_run.
  unfold GaussianMixtureOutlierDetector.check_is_fitted. rewrite Hf. simpl.
  rewrite HX. simpl. rewrite (traverse_weighted_pdf X _ Hc). simpl.
  rewrite (sum_axis0_pointwise 0 Rplus
             (fun c x => fst c * mvn_density x (fst (snd c)) (snd (snd c)))).
  unfold Np.neg_log. rewrite map_map. reflexivity.
Qed.

(** [fit] returns as soon as each of its steps does. *)
Lemma mixture_fit_ok (X : matrix) (self : GaussianMixtureOutlierDetector.t)
    (a : GaussianMixture.attrs) (scores : vec) :
  let fitted := GaussianMixtureOutlierDetector.set_fitted a self in
  check_array X = Ok X ->
  GaussianMixture_fit (GaussianMixtureOutlierDetector.base self) X = Ok a ->
  GaussianMixtureOutlierDetector.anomaly_score X fitted = (Ok scores, fitted) ->
  scores <> [] ->
  0 <= GaussianMixtureOutlierDetector.fpr self <= 1 ->
  exists v,
    np_percentile scores (100 * (1 - GaussianMixtureOutlierDetector.fpr self)) = Ok v
    /\ GaussianMixtureOutlierDetector.fit X self
       = (Ok tt, GaussianMixtureOutlierDetector.set_threshold_ v fitted).
Proof.
  intros fitted HX Ha Hs Hne Hfpr.
  destruct (np_percentile_ok scores
              (100 * (1 - GaussianMixtureOutlierDetector.fpr self)) Hne)
    as [v Hv]; [lra|].
  exists v. split; [exact Hv|].
  unfold GaussianMixtureOutlierDetector.fit, bind, lift, get, modify.
  rewrite HX, Ha. fold fitted. rewrite Hs. simpl.
  unfold fitted at 1. simpl. rewrite Hv. reflexivity.
Qed.

Lemma reconstruction_fit_ok (X : matrix) (self : PCA.t)
    (a : Decomposition.attrs) (scores : vec) :
  let fitted := PCA.set_pca_fitted a (PCA.set_X_ X self) in
  check_array X = Ok X ->
  sk_fit (PCA._pca self) X = Ok a ->
  PCA.anomaly_score None fitted = (Ok scores, fitted) ->
  scores <> [] ->
  0 <= PCA.fpr self <= 1 ->
  exists v,
    np_percentile scores (100 * (1 - PCA.fpr self)) = Ok v
    /\ PCA.fit X self = (Ok tt, PCA.set_threshold_ v fitted).
Proof.
  intros fitted HX Ha Hs Hne Hfpr.
  destruct (np_percentile_ok scores (100 * (1 - PCA.fpr self)) Hne)
    as [v Hv]; [lra|].
  exists v. split; [exact Hv|].
  unfold PCA.fit, bind, lift, get, modify, PCA.get_X_.
  rewrite HX. simpl. unfold bind, get, lift. simpl.
  rewrite Ha. fold fitted. rewrite Hs. simpl.
  unfold fitted at 1. simpl. rewrite Hv. reflexivity.
Qed.

(** A run of [fit] that raises: which attributes it has written. *)
Lemma mixture_fit_raise_inv (X : matrix) (self self' : GaussianMixtureOutlierDetector.t)
    (e : exn) :
  GaussianMixtureOutlierDetector.fit X self = (Raise e, self') ->
  self' = self
  \/ exists a, check_array X = Ok X
               /\ GaussianMixture_fit (GaussianMixtureOutlierDetector.base self) X = Ok a
               /\ self' = GaussianMixtureOutlierDetector.set_fitted a self.
Proof.
  unfold GaussianMixtureOutlierDetector.fit, bind, lift, get, modify.
  destruct (check_array X) as [X'|e0] eqn:HX.
  2:{ intros H. injection H as _ <-. now left. }
  destruct (check_array_inv X X' HX) as [-> _].
  destruct (GaussianMixture_fit _ X) as [a|e0].
  2:{ intros H. injection H as _ <-. now left. }
  pose proof (mixture_anomaly_score_frame X
                (GaussianMixtureOutlierDetector.set_fitted a self)) as Hfr.
  destruct (GaussianMixtureOutlierDetector.anomaly_score X _) as [[scores|e0] s1];
    simpl in Hfr; subst s1.
  2:{ intros H. injection H as _ <-. right. now exists a. }
  simpl. destruct (np_percentile scores _) as [v|e0]; [discriminate|].
  intros H. injection H as _ <-. right. now exists a.
Qed.

Lemma reconstruction_fit_raise_inv (X : matrix) (self self' : PCA.t) (e : exn) :
  PCA.fit X self = (Raise e, self') ->
  (check_array X = Raise e /\ self' = self)
  \/ (check_array X = Ok X
      /\ (self' = PCA.set_X_ X self
          \/ exists a, sk_fit (PCA._pca self) X = Ok a
                       /\ self' = PCA.set_pca_fitted a (PCA.set_X_ X self))).
Proof.
  unfold PCA.fit, bind, lift, get, modify, PCA.get_X_.
  destruct (check_array X) as [X'|e0] eqn:HX.
  2:{ intros H. injection H as <- <-. now left. }
  destruct (check_array_inv X X' HX) as [-> _]. simpl.
  unfold bind, get, lift. simpl.
  destruct (sk_fit (PCA._pca self) X) as [a|e0].
  2:{ intros H. injection H as _ <-. right. split; auto. }
  pose proof (reconstruction_anomaly_score_frame None
                (PCA.set_pca_fitted a (PCA.set_X_ X self))) as Hfr.
  destruct (PCA.anomaly_score None _) as [[scores|e0] s1];
    simpl in Hfr; subst s1.
  2:{ intros H. injection H as _ <-. right. split; eauto. }
  simpl. destruct (np_percentile scores _) as [v|e0]; [discriminate|].
  intros H. injection H as _ <-. right. split; eauto.
Qed.
End FitRuns.

(** ** Calibration of the threshold *)

Section Calibration.
Context {L : Libs}.

Lemma mixture_score_after_threshold (X : matrix) (v : R)
    (self : GaussianMixtureOutlierDetector.t) (r : result vec) :
  GaussianMixtureOutlierDetector.anomaly_score X self = (r, self) ->
  GaussianMixtureOutlierDetector.anomaly_score X
    (GaussianMixtureOutlierDetector.set_threshold_ v self)
  = (r, GaussianMixtureOutlierDetector.set_threshold_ v self).
Proof.
  intros H.
  rewrite (surjective_pairing (GaussianMixtureOutlierDetector.anomaly_score X _)).
  rewrite mixture_anomaly_score_frame, mixture_anomaly_score_threshold, H.
  reflexivity.
Qed.

Lemma reconstruction_score_after_threshold (X : option matrix) (v : R)
    (self : PCA.t) (r : result vec) :
  PCA.anomaly_score X self = (r, self) ->
  PCA.anomaly_score X (PCA.set_threshold_ v self) = (r, PCA.set_threshold_ v self).
Proof.
  intros H. rewrite (surjective_pairing (PCA.anomaly_score X _)).
  rewrite reconstruction_anomaly_score_frame,
    reconstruction_anomaly_score_threshold, H.
  reflexivity.
Qed.

(** Scoring the stored training matrix and scoring it as an argument
    are the same call. *)
Lemma reconstruction_score_default (X : matrix) (self : PCA.t) :
  PCA.X_ self = Some X ->
  PCA.anomaly_score (Some X) self = PCA.anomaly_score None self.
Proof.
  intros H. rewrite !reconstruction_anomaly_score_run. simpl. now rewrite H.
Qed.

(** C1.  For each detector variant, a call [fit(X)] that returns leaves
    as threshold the [100 * (1 - fpr)] percentile (linear
    interpolation, [np_percentile]) of the anomaly scores that the
    detector, holding the parameters just estimated on [X], assigns to
    [X] itself. *)
Theorem fit_threshold_is_percentile_of_training_scores
    (X : matrix) (d d' : Detector.t) :
  Detector.fit X d = (Ok tt, d') ->
  exists scores v,
    Detector.holds_estimate_of d' X
    /\ Detector.anomaly_score X d' = (Ok scores, d')
    /\ np_percentile scores (100 * (1 - Detector.fpr d')) = Ok v
    /\ Detector.threshold_ d' = Some v.
Proof.
  destruct d as [g|p]; unfold Detector.fit.
  - unfold Detector.on_mixture.
    destruct (GaussianMixtureOutlierDetector.fit X g) as [r g'] eqn:E.
    intros H. injection H as -> <-.
    apply mixture_fit_ok_inv in E.
    destruct E as (a & scores & v & HX & Ha & Hs & Hp & ->).
    exists scores, v. repeat split.
    + exists a. simpl. auto.
    + unfold Detector.anomaly_score, Detector.on_mixture.
      now rewrite (mixture_score_after_threshold X v _ _ Hs).
    + exact Hp.
  - unfold Detector.on_reconstruction.
    destruct (PCA.fit X p) as [r p'] eqn:E.
    intros H. injection H as -> <-.
    apply reconstruction_fit_ok_inv in E.
    destruct E as (a & scores & v & HX & Ha & Hs & Hp & ->).
    exists scores, v. repeat split.
    + exists a. simpl. auto.
    + unfold Detector.anomaly_score, Detector.on_reconstruction.
      rewrite (reconstruction_score_default X) by reflexivity.
      now rewrite (reconstruction_score_after_threshold None v _ _ Hs).
    + exact Hp.
Qed.
End Calibration.

(** The worked instance: shapes, and the run of [fit] on it. *)

Lemma example_pca_shape : attrs_shape_ok (Examples.pca_attrs 2).
Proof. split; [reflexivity|]. repeat constructor. Qed.

Lemma example_reconstruction_fit (fpr : R) :
  0 <= fpr <= 1 ->
  exists v,
    PCA.fit (L := Examples.libs) Examples.X_train (Examples.reconstruction fpr None)
    = (Ok tt, PCA.set_threshold_ v (Examples.reconstruction_fitted fpr)).
Proof.
  intros Hfpr.
  pose (fitted := Examples.reconstruction_fitted fpr).
  destruct (reconstruction_fit_ok (L := Examples.libs) Examples.X_train
              (Examples.reconstruction fpr None) (Examples.pca_attrs 2)
              (map (fun x => euclidean_norm
                      (vsub x (reconstruct_row false (Examples.pca_attrs 2) x)))
                 Examples.X_train))
    as [v [_ Hfit]].
  - reflexivity.
  - reflexivity.
  - apply (reconstruction_anomaly_score_ok fitted
             (Examples.pca_attrs 2) None Examples.X_train);
      try reflexivity.
    apply example_pca_shape.
  - discriminate.
  - exact Hfpr.
  - exists v. exact Hfit.
Qed.

Lemma fit_threshold_is_percentile_of_training_scores_witness :
  exists d' scores v,
    Detector.fit (L := Examples.libs) Examples.X_train
      (Detector.Reconstruction (Examples.reconstruction (1/100) None)) = (Ok tt, d')
    /\ Detector.holds_estimate_of (L := Examples.libs) d' Examples.X_train
    /\ Detector.anomaly_score (L := Examples.libs) Examples.X_train d' = (Ok scores, d')
    /\ np_percentile scores (100 * (1 - Detector.fpr d')) = Ok v
    /\ Detector.threshold_ d' = Some v.
Proof.
  destruct (example_reconstruction_fit (1/100)) as [v Hfit]; [lra|].
  assert (Hrun : Detector.fit (L := Examples.libs) Examples.X_train
                   (Detector.Reconstruction (Examples.reconstruction (1/100) None))
                 = (Ok tt, Detector.Reconstruction
                             (PCA.set_threshold_ v (Examples.reconstruction_fitted (1/100))))).
  { unfold Detector.fit, Detector.on_reconstruction. now rewrite Hfit. }
  destruct (fit_threshold_is_percentile_of_training_scores (L := Examples.libs)
              Examples.X_train _ _ Hrun) as (scores & v' & H).
  eexists _, scores, v'. split; [exact Hrun | exact H].
Defined.

(** ** What a failed [fit] leaves behind *)

Section Atomicity.
Context {L : Libs}.




(** A run of the mixture [fit] whose calibration step raises. *)
Lemma mixture_fit_calibration_raises (X : matrix)
    (self : GaussianMixtureOutlierDetector.t) (a : GaussianMixture.attrs)
    (scores : vec) (e : exn) :
  let fitted := GaussianMixtureOutlierDetector.set_fitted a self in
  check_array X = Ok X ->
  GaussianMixture_fit (GaussianMixtureOutlierDetector.base self) X = Ok a ->
  GaussianMixtureOutlierDetector.anomaly_score X fitted = (Ok scores, fitted) ->
  np_percentile scores (100 * (1 - GaussianMixtureOutlierDetector.fpr self)) = Raise e ->
  GaussianMixtureOutlierDetector.fit X self = (Raise e, fitted).
Proof.
  intros fitted HX Ha Hs Hp.
  unfold GaussianMixtureOutlierDetector.fit, bind, lift, get, modify.
  rewrite HX, Ha. fold fitted. rewrite Hs. simpl.
  unfold fitted at 1. simpl. rewrite Hp. reflexivity.
Qed.
End Atomicity.

Lemma example_mixture_components :
  Forall (component_ok (L := Examples.libs) (n_features Examples.X_train))
    (combine (GaussianMixture.weights_ Examples.gm_attrs)
       (combine (GaussianMixture.means_ Examples.gm_attrs)
          (GaussianMixture.covariances_ Examples.gm_attrs))).
Proof. repeat constructor. Qed.

(** With [fpr = 1.5] the mixture detector is estimated and scored, and
    only then [np.percentile] rejects the percentile [-50]. *)
Lemma example_mixture_fit_bad_fpr :
  GaussianMixtureOutlierDetector.fit (L := Examples.libs) Examples.X_train
    (Examples.mixture (3/2))
  = (Raise ValueError, Examples.mixture_fitted (3/2)).
Proof.
  eapply (mixture_fit_calibration_raises (L := Examples.libs)).
  - reflexivity.
  - reflexivity.
  - apply (mixture_anomaly_score_ok (L := Examples.libs)
             (Examples.mixture_fitted (3/2)) Examples.gm_attrs Examples.X_train).
    + reflexivity.
    + reflexivity.
    + exact example_mixture_components.
  - apply np_percentile_out_of_range. left. simpl. lra.
Qed.



(** ** Scoring reads and never writes *)

Section ReadOnly.
Context {L : Libs}.

Lemma run_many_read_only {S A} (m : M S A) :
  (forall s, snd (m s) = s) ->
  forall n s, run_many m n s = (repeat (fst (m s)) n, s).
Proof.
  intros Hm n. induction n as [|n IH]; intros s; simpl; [reflexivity|].
  specialize (Hm s). destruct (m s) as [r s'] eqn:E. simpl in Hm. subst s'.
  rewrite IH, E. reflexivity.
Qed.

Lemma detector_anomaly_score_frame (X : matrix) (d : Detector.t) :
  snd (Detector.anomaly_score X d) = d.
Proof.
  destruct d as [g|p]; unfold Detector.anomaly_score.
  - unfold Detector.on_mixture.
    pose proof (mixture_anomaly_score_frame X g) as H.
    destruct (GaussianMixtureOutlierDetector.anomaly_score X g). simpl in *.
    now subst.
  - unfold Detector.on_reconstruction.
    pose proof (reconstruction_anomaly_score_frame (Some X) p) as H.
    destruct (PCA.anomaly_score (Some X) p). simpl in *. now subst.
Qed.

(** C9.  No scoring method writes to the detector: after any number of
    calls of [anomaly_score] (either variant, the argument given or
    omitted), [score] or [reconstruct], the instance (parameters,
    fitted attributes, stored training matrix, threshold) is the one
    before the calls, and every call has returned the same result. *)
Theorem scoring_does_not_mutate (n : nat) (X : matrix) :
  (forall d : Detector.t,
      run_many (Detector.anomaly_score X) n d
      = (repeat (fst (Detector.anomaly_score X d)) n, d))
  /\ (forall (p : PCA.t) (Xo : option matrix),
        run_many (PCA.anomaly_score Xo) n p
        = (repeat (fst (PCA.anomaly_score Xo p)) n, p))
  /\ (forall p : PCA.t,
        run_many (PCA.score X) n p = (repeat (fst (PCA.score X p)) n, p))
  /\ (forall p : PCA.t,
        run_many (PCA.reconstruct X) n p
        = (repeat (fst (PCA.reconstruct X p)) n, p)).
Proof.
  repeat split; intros.
  - apply run_many_read_only. apply detector_anomaly_score_frame.
  - apply run_many_read_only. apply reconstruction_anomaly_score_frame.
  - apply run_many_read_only. intros s. apply score_frame.
  - apply run_many_read_only. apply reconstruct_frame.
Qed.
End ReadOnly.

(** ** The fitted-state guard *)

Section Guard.
Context {L : Libs}.

(** An unfitted mixture detector raises [NotFittedError]. *)
Lemma mixture_unfitted_raises (X : matrix) (g : GaussianMixtureOutlierDetector.t) :
  GaussianMixtureOutlierDetector.fitted g = None ->
  GaussianMixtureOutlierDetector.anomaly_score X g = (Raise NotFittedError, g).
Proof.
  intros H. rewrite mixture_anomaly_score_run.
  unfold GaussianMixtureOutlierDetector.check_is_fitted. now rewrite H.
Qed.

(** An unfitted reconstruction detector raises [NotFittedError] from
    every scoring method that is given its input. *)
Lemma reconstruction_unfitted_raises (X : matrix) (p : PCA.t) :
  Decomposition.fitted (PCA._pca p) = None ->
  PCA.anomaly_score (Some X) p = (Raise NotFittedError, p)
  /\ PCA.reconstruct X p = (Raise NotFittedError, p)
  /\ PCA.score X p = (Raise NotFittedError, p).
Proof.
  intros H. rewrite reconstruction_anomaly_score_run, reconstruct_run.
  unfold PCA.score, bind, get, lift, sk_transform, sk_score. rewrite H.
  repeat split.
Qed.

Lemma traverse_weighted_pdf_not_NotFitted (X : matrix)
    (comps : list (R * (vec * matrix))) :
  traverse (GaussianMixtureOutlierDetector.weighted_pdf X) comps <> Raise NotFittedError.
Proof.
  induction comps as [|[w [mean cov]] comps IH]; simpl; [discriminate|].
  unfold multivariate_normal_pdf.
  destruct (mvn_check mean cov); simpl; try discriminate.
  destruct (Nat.eqb _ (length mean)); [|destruct (Nat.eqb _ 1)]; simpl;
    try discriminate;
    (destruct (traverse (GaussianMixtureOutlierDetector.weighted_pdf X) comps)
       as [terms|e]; simpl; [discriminate|]);
    intros H; apply IH; exact H.
Qed.

(** Once the fitted attributes exist, no scoring method raises
    [NotFittedError]. *)
Lemma mixture_fitted_not_NotFitted (X : matrix) (g : GaussianMixtureOutlierDetector.t)
    (a : GaussianMixture.attrs) :
  GaussianMixtureOutlierDetector.fitted g = Some a ->
  fst (GaussianMixtureOutlierDetector.anomaly_score X g) <> Raise NotFittedError.
Proof.
  intros H. rewrite mixture_anomaly_score_run.
  unfold GaussianMixtureOutlierDetector.check_is_fitted. rewrite H. simpl.
  unfold check_array. destruct (_ && _)%bool; simpl; [|discriminate].
  pose proof (traverse_weighted_pdf_not_NotFitted X
                (combine (GaussianMixture.weights_ a)
                   (combine (GaussianMixture.means_ a)
                      (GaussianMixture.covariances_ a)))) as Hn.
  destruct (traverse _ _) as [terms|e]; simpl; [discriminate|].
  intros He. apply Hn. injection He as ->. reflexivity.
Qed.

Lemma reconstruction_fitted_not_NotFitted (X : matrix) (p : PCA.t)
    (a : Decomposition.attrs) :
  Decomposition.fitted (PCA._pca p) = Some a ->
  fst (PCA.anomaly_score (Some X) p) <> Raise NotFittedError
  /\ fst (PCA.reconstruct X p) <> Raise NotFittedError
  /\ fst (PCA.score X p) <> Raise NotFittedError.
Proof.
  intros H. rewrite reconstruction_anomaly_score_run, reconstruct_run.
  unfold PCA.score, bind, get, lift, sk_transform, sk_inverse_transform, sk_score.
  rewrite H. simpl. unfold check_array.
  destruct (_ && _)%bool; simpl; [|repeat split; discriminate].
  destruct (Nat.eqb _ _); simpl; [|repeat split; discriminate].
  destruct (forallb _ _); simpl; repeat split; discriminate.
Qed.
End Guard.

(** C2, on the input where the code departs from it.  A freshly
    constructed reconstruction detector, asked for [anomaly_score()]
    with the argument omitted, raises [AttributeError] (the read of
    [self.X_]) and not [NotFittedError]. *)
Theorem reconstruction_default_score_before_fit :
  PCA.anomaly_score None (Examples.reconstruction (1/100) None)
  = (Raise AttributeError, Examples.reconstruction (1/100) None).
Proof. reflexivity. Qed.

(** ** Validation of [fpr] *)

Lemma pca_init_ok (fpr : R) (kwargs : Decomposition.kwargs) :
  0 <= fpr <= 1 ->
  PCA.__init__ fpr kwargs
  = Ok {| PCA.fpr := fpr;
          PCA._pca := {| Decomposition.kw := kwargs; Decomposition.fitted := None |};
          PCA.X_ := None;
          PCA.threshold_ := None |}.
Proof.
  intros H. unfold PCA.__init__, PCA.check_params. simpl.
  destruct (Rlt_dec fpr 0); [lra|]. destruct (Rlt_dec 1 fpr); [lra|]. reflexivity.
Qed.

Lemma pca_init_rejects (fpr : R) (kwargs : Decomposition.kwargs) :
  fpr < 0 \/ 1 < fpr -> PCA.__init__ fpr kwargs = Raise ValueError.
Proof.
  intros H. unfold PCA.__init__, PCA.check_params. simpl.
  destruct (Rlt_dec fpr 0); [reflexivity|].
  destruct (Rlt_dec 1 fpr); [reflexivity|]. lra.
Qed.

Lemma pca_init_boundaries (kwargs : Decomposition.kwargs) :
  is_ok (PCA.__init__ 0 kwargs) = true
  /\ is_ok (PCA.__init__ 1 kwargs) = true
  /\ PCA.__init__ (3/2) kwargs = Raise ValueError.
Proof.
  rewrite !pca_init_ok by lra. rewrite pca_init_rejects by lra. repeat split.
Qed.

(** C3, on the input where the code departs from it.  The mixture
    detector is constructed with [fpr = 1.5] without any error; the
    [ValueError] comes from [np.percentile] inside [fit], after the
    parameters were estimated and stored. *)
Theorem mixture_init_accepts_fpr_out_of_range :
  GaussianMixtureOutlierDetector.__init__ (3/2) 100 None 1 None None (1/1000) None
  = Ok (Examples.mixture (3/2))
  /\ GaussianMixtureOutlierDetector.fit (L := Examples.libs) Examples.X_train
       (Examples.mixture (3/2))
     = (Raise ValueError, Examples.mixture_fitted (3/2))
  /\ GaussianMixtureOutlierDetector.fitted (Examples.mixture_fitted (3/2))
     = Some Examples.gm_attrs.
Proof.
  split; [reflexivity|]. split; [|reflexivity].
  exact example_mixture_fit_bad_fpr.
Qed.

(** ** The scores *)

Section Scores.
Context {L : Libs}.

(** C5.  On a fitted mixture detector and an input of the fitted
    width, [anomaly_score] returns, for every sample [x], exactly the
    negative logarithm of the sum over the components of the weight
    times the normal density of the component at [x]. *)
Theorem mixture_score_is_neg_log_mixture_density
    (self : GaussianMixtureOutlierDetector.t) (a : GaussianMixture.attrs)
    (X : matrix) :
  let comps := combine (GaussianMixture.weights_ a)
                 (combine (GaussianMixture.means_ a)
                    (GaussianMixture.covariances_ a)) in
  GaussianMixtureOutlierDetector.fitted self = Some a ->
  check_array X = Ok X ->
  Forall (component_ok (n_features X)) comps ->
  exists scores,
    GaussianMixtureOutlierDetector.anomaly_score X self = (Ok scores, self)
    /\ length scores = length X
    /\ forall i, (i < length X)%nat ->
         nth i scores 0
         = - ln (Rsum (map (fun c => fst c
                                     * mvn_density (nth i X []) (fst (snd c)) (snd (snd c)))
                         comps)).
Proof.
  intros comps Hf HX Hc.
  eexists. split; [apply (mixture_anomaly_score_ok self a X Hf HX Hc)|].
  split; [apply length_map|].
  intros i Hi.
  apply (nth_map_in_range
           (fun x => - ln (Rsum (map (fun c => fst c
              * mvn_density x (fst (snd c)) (snd (snd c))) comps)))
           X i [] 0 Hi).
Qed.

(** C7.  On a fitted reconstruction detector and an input of the
    fitted width, [reconstruct] sends every sample through the
    projection onto the retained components and back, and
    [anomaly_score] is the Euclidean norm of the sample minus its
    reconstruction. *)
Theorem reconstruction_score_is_residual_norm
    (self : PCA.t) (a : Decomposition.attrs) (X : matrix) :
  let w := Decomposition.whiten (Decomposition.kw (PCA._pca self)) in
  Decomposition.fitted (PCA._pca self) = Some a ->
  attrs_shape_ok a ->
  check_array X = Ok X ->
  n_features X = length (Decomposition.mean_ a) ->
  exists X_rec scores,
    PCA.reconstruct X self = (Ok X_rec, self)
    /\ PCA.anomaly_score (Some X) self = (Ok scores, self)
    /\ length X_rec = length X
    /\ length scores = length X
    /\ forall i, (i < length X)%nat ->
         nth i X_rec [] = inverse_transform_row w a (transform_row w a (nth i X []))
         /\ nth i scores 0 = euclidean_norm (vsub (nth i X []) (nth i X_rec [])).
Proof.
  intros w Hf Hs HX Hd.
  exists (map (reconstruct_row w a) X),
    (map (fun x => euclidean_norm (vsub x (reconstruct_row w a x))) X).
  split; [apply (reconstruct_ok self a X Hf Hs HX Hd)|].
  split; [apply (reconstruction_anomaly_score_ok self a (Some X) X Hf Hs eq_refl HX Hd)|].
  split; [apply length_map|]. split; [apply length_map|].
  intros i Hi.
  rewrite (nth_map_in_range (reconstruct_row w a) X i [] [] Hi).
  split; [reflexivity|].
  apply (nth_map_in_range
           (fun x => euclidean_norm (vsub x (reconstruct_row w a x))) X i [] 0 Hi).
Qed.

(** C10.  Every entry of a vector that the reconstruction detector's
    [anomaly_score] returns, for an argument given or omitted, is
    nonnegative. *)
Theorem reconstruction_scores_nonnegative
    (self self' : PCA.t) (X : option matrix) (scores : vec) :
  PCA.anomaly_score X self = (Ok scores, self') ->
  Forall (fun s => 0 <= s) scores.
Proof.
  intros H. apply reconstruction_anomaly_score_inv in H.
  destruct H as (Xs & X_rec & _ & ->). apply residual_norms_nonneg.
Qed.
End Scores.

Lemma mixture_score_is_neg_log_mixture_density_witness :
  exists scores,
    GaussianMixtureOutlierDetector.anomaly_score (L := Examples.libs)
      Examples.X_train (Examples.mixture_fitted (1/100))
    = (Ok scores, Examples.mixture_fitted (1/100))
    /\ length scores = 4%nat.
Proof.
  destruct (mixture_score_is_neg_log_mixture_density (L := Examples.libs)
              (Examples.mixture_fitted (1/100)) Examples.gm_attrs Examples.X_train
              eq_refl eq_refl example_mixture_components)
    as (scores & Hrun & Hlen & _).
  exists scores. split; [exact Hrun | exact Hlen].
Defined.

Lemma reconstruction_score_is_residual_norm_witness :
  exists X_rec scores,
    PCA.reconstruct Examples.X_train (Examples.reconstruction_fitted (1/100))
    = (Ok X_rec, Examples.reconstruction_fitted (1/100))
    /\ PCA.anomaly_score (Some Examples.X_train) (Examples.reconstruction_fitted (1/100))
       = (Ok scores, Examples.reconstruction_fitted (1/100))
    /\ nth 0 scores 0 = euclidean_norm (vsub [1; 0] (nth 0 X_rec [])).
Proof.
  destruct (reconstruction_score_is_residual_norm
              (Examples.reconstruction_fitted (1/100)) (Examples.pca_attrs 2)
              Examples.X_train eq_refl example_pca_shape eq_refl eq_refl)
    as (X_rec & scores & Hrec & Hrun & _ & _ & Hrow).
  exists X_rec, scores. split; [exact Hrec|]. split; [exact Hrun|].
  apply (Hrow 0%nat). simpl. lia.
Defined.

Lemma reconstruction_scores_nonnegative_witness :
  exists scores,
    PCA.anomaly_score None (Examples.reconstruction_fitted (1/100))
    = (Ok scores, Examples.reconstruction_fitted (1/100))
    /\ length scores = 4%nat
    /\ Forall (fun s => 0 <= s) scores.
Proof.
  eexists. split; [reflexivity|]. split; [reflexivity|].
  apply (reconstruction_scores_nonnegative
           (Examples.reconstruction_fitted (1/100))
           (Examples.reconstruction_fitted (1/100)) None).
  reflexivity.
Defined.

(** ** The mixture score in binary64 *)

Section Float64Facts.
Import PrimFloat.
Variable libm_log : float -> float.
Variable pdf1 : Float64.fvec -> Float64.fvec -> Float64.fmatrix -> float.

(** C6, as the code has it.  The score of a sample is the negated
    logarithm of the directly accumulated sum of weight times density;
    no log-sum-exp is taken.  At a sample where that sum is zero, as it
    is when every density has underflowed, the score is plus
    infinity. *)
Theorem float_mixture_score_is_direct_sum (a : Float64.attrs) (X : Float64.fmatrix) :
  let density x :=
    Np.sum zero add
      (map (fun c : float * (Float64.fvec * Float64.fmatrix) =>
              mul (fst c) (pdf1 x (fst (snd c)) (snd (snd c))))
         (combine (Float64.weights_ a)
            (combine (Float64.means_ a) (Float64.covariances_ a)))) in
  Float64.anomaly_score libm_log (Float64.rowwise_pdf pdf1) a X
  = map (fun x => opp (Float64.np_log libm_log (density x))) X
  /\ forall x, eqb (density x) zero = true ->
       opp (Float64.np_log libm_log (density x)) = infinity.
Proof.
  intros density. split.
  - unfold Float64.anomaly_score, Float64.mixture_density, Np.neg_log.
    rewrite (map_ext _
               (fun c : float * (Float64.fvec * Float64.fmatrix) =>
                  map (fun x => mul (fst c) (pdf1 x (fst (snd c)) (snd (snd c)))) X)).
    + rewrite (sum_axis0_pointwise zero add
                 (fun (c : float * (Float64.fvec * Float64.fmatrix)) x =>
                    mul (fst c) (pdf1 x (fst (snd c)) (snd (snd c))))).
      now rewrite map_map.
    + intros [w [mean cov]]. unfold Np.scale, Float64.rowwise_pdf. simpl.
      now rewrite map_map.
  - intros x H. unfold Float64.np_log. rewrite H. reflexivity.
Qed.
End Float64Facts.

Section Float64Examples.
Import PrimFloat.

(** C6, as the claim states it, fails: for one standard normal component
    and the sample [40.0], whose density underflows to [0.0], the score
    is plus infinity, not a finite number.  (The logarithm on positive
    numbers is never reached; the identity stands in for it.) *)
Lemma float_mixture_score_not_finite_on_underflow :
  Float64.anomaly_score (fun x => x) Float64.underflowed_pdf
    Float64.standard_normal Float64.far_sample
  = [infinity]
  /\ forallb is_finite
       (Float64.anomaly_score (fun x => x) Float64.underflowed_pdf
          Float64.standard_normal Float64.far_sample)
     = false.
Proof. split; reflexivity. Qed.

Lemma float_mixture_score_is_direct_sum_witness :
  Float64.anomaly_score (fun x => x) Float64.underflowed_pdf
    Float64.standard_normal Float64.far_sample
  = [opp (Float64.np_log (fun x => x) zero)]
  /\ opp (Float64.np_log (fun x => x) zero) = infinity.
Proof.
  destruct (float_mixture_score_is_direct_sum (fun x => x) (fun _ _ _ => zero)
              Float64.standard_normal Float64.far_sample) as [Hrun Hinf].
  split.
  - exact Hrun.
  - apply (Hinf [40%float]). reflexivity.
Defined.
End Float64Examples.

(** ** Linear algebra on rows *)

Lemma fold_left_Rplus_acc (v : vec) (a : R) :
  fold_left Rplus v a = a + fold_left Rplus v 0.
Proof.
  revert a. induction v as [|x v IH]; intros a; simpl.
  - lra.
  - rewrite (IH (a + x)), (IH (0 + x)). lra.
Qed.

Lemma Rsum_cons (x : R) (v : vec) : Rsum (x :: v) = x + Rsum v.
Proof.
  unfold Rsum, Np.sum. simpl. rewrite fold_left_Rplus_acc. lra.
Qed.

Lemma Rsum_nil : Rsum [] = 0.
Proof. reflexivity. Qed.

Lemma dot_vadd (a b v : vec) :
  length a = length b -> dot (vadd a b) v = dot a v + dot b v.
Proof.
  unfold dot, vadd. revert b v.
  induction a as [|x a IH]; intros [|y b] [|z v] H; simpl in *;
    try discriminate; rewrite ?Rsum_nil; try lra.
  rewrite !Rsum_cons, IH by lia. lra.
Qed.

Lemma dot_scale (z : R) (c v : vec) :
  dot (Np.scale Rmult z c) v = z * dot c v.
Proof.
  unfold dot, Np.scale. revert v.
  induction c as [|x c IH]; intros [|y v]; simpl; rewrite ?Rsum_nil; try lra.
  rewrite !Rsum_cons, IH. lra.
Qed.

Lemma dot_zeros (d : nat) (v : vec) : dot (repeat 0 d) v = 0.
Proof.
  unfold dot. revert v.
  induction d as [|d IH]; intros [|y v]; simpl; rewrite ?Rsum_nil; try lra.
  rewrite Rsum_cons, IH. lra.
Qed.

Lemma vadd_length (a b : vec) :
  length a = length b -> length (vadd a b) = length a.
Proof. apply map2_length. Qed.

(** The dot product distributes over a sum of rows of one length. *)
Lemma dot_fold_vadd (d : nat) (rows : matrix) (acc v : vec) :
  length acc = d ->
  Forall (fun r => length r = d) rows ->
  dot (fold_left (Np.map2 Rplus) rows acc) v
  = fold_left Rplus (map (fun r => dot r v) rows) (dot acc v).
Proof.
  intros Hacc Hrows. revert acc Hacc.
  induction Hrows as [|r rows Hr _ IH]; intros acc Hacc; simpl.
  - reflexivity.
  - rewrite <- (dot_vadd acc r v) by congruence.
    apply IH. change (Np.map2 Rplus acc r) with (vadd acc r).
    rewrite vadd_length; congruence.
Qed.

Lemma map2_scale_rows (d : nat) (z : vec) (C : matrix) :
  Forall (fun c => length c = d) C ->
  Forall (fun r => length r = d) (Np.map2 (Np.scale Rmult) z C).
Proof.
  intros H. revert z. induction H as [|c C Hc _ IH]; intros [|x z]; simpl;
    constructor.
  - unfold Np.scale. now rewrite length_map.
  - apply IH.
Qed.

Lemma dot_lincomb (d : nat) (z : vec) (C : matrix) (v : vec) :
  Forall (fun c => length c = d) C ->
  dot (lincomb d z C) v = Rsum (Np.map2 (fun x c => x * dot c v) z C).
Proof.
  intros H. unfold lincomb, Np.sum_axis0.
  rewrite (dot_fold_vadd d) by (auto using repeat_length, map2_scale_rows).
  rewrite dot_zeros. unfold Rsum, Np.sum. f_equal.
  clear H. revert z. induction C as [|c C IH]; intros [|x z]; simpl; trivial.
  now rewrite dot_scale, IH.
Qed.

(** A sum whose every term carries the factor zero. *)
Lemma Rsum_all_zero (g : vec -> R) (z : vec) (C : matrix) :
  (forall k, (k < length C)%nat -> g (nth k C []) = 0) ->
  Rsum (Np.map2 (fun x c => x * g c) z C) = 0.
Proof.
  revert z. induction C as [|c C IH]; intros [|x z] H; simpl;
    rewrite ?Rsum_nil; trivial.
  rewrite Rsum_cons, IH.
  - pose proof (H 0%nat) as H0. simpl in H0. rewrite H0 by lia. lra.
  - intros k Hk. apply (H (S k)). simpl. lia.
Qed.

(** A sum in which one term carries the factor one and the others zero
    picks out that term. *)
Lemma Rsum_select (g : vec -> R) (C : matrix) :
  forall (z : vec) (m : nat),
    length z = length C ->
    (m < length C)%nat ->
    (forall k, (k < length C)%nat -> g (nth k C []) = if Nat.eqb k m then 1 else 0) ->
    Rsum (Np.map2 (fun x c => x * g c) z C) = nth m z 0.
Proof.
  induction C as [|c C IH]; intros [|x z] m Hlen Hm H; simpl in *;
    try lia; try discriminate.
  rewrite Rsum_cons. pose proof (H 0%nat) as H0. simpl in H0.
  rewrite H0 by lia. destruct m as [|m]; simpl.
  - rewrite Rsum_all_zero; [lra|].
    intros k Hk. apply (H (S k)). lia.
  - rewrite (IH z m); [lra|lia|lia|].
    intros k Hk. apply (H (S k)). lia.
Qed.

(** The coefficients of a combination of orthonormal rows are recovered
    by the dot products with the rows. *)
Lemma project_lincomb (d : nat) (z : vec) (C : matrix) :
  orthonormal_rows C ->
  Forall (fun c => length c = d) C ->
  length z = length C ->
  map (dot (lincomb d z C)) C = z.
Proof.
  intros Ho Hd Hlen.
  apply (nth_ext _ _ 0 0); [now rewrite length_map|].
  intros m Hm. rewrite length_map in Hm.
  rewrite (nth_map_in_range (dot (lincomb d z C)) C m [] 0 Hm).
  rewrite (dot_lincomb d z C _ Hd).
  apply (Rsum_select (fun c => dot c (nth m C [])) C z m Hlen Hm).
  intros k Hk. apply Ho; assumption.
Qed.

Lemma vadd_vsub (x mean : vec) :
  length x = length mean -> vadd (vsub x mean) mean = x.
Proof.
  unfold vadd, vsub. revert mean.
  induction x as [|a x IH]; intros [|b mean] H; simpl in *;
    try discriminate; trivial.
  rewrite IH by lia. f_equal. lra.
Qed.

Lemma euclidean_norm_self (x : vec) : euclidean_norm (vsub x x) = 0.
Proof.
  assert (H : Rsum (map (fun r => r ^ 2) (vsub x x)) = 0).
  { induction x as [|a x IH]; [reflexivity|].
    change (Rsum (map (fun r => r ^ 2) (vsub (a :: x) (a :: x))))
      with (Rsum ((a - a) ^ 2 :: map (fun r => r ^ 2) (vsub x x))).
    rewrite Rsum_cons, IH. lra. }
  unfold euclidean_norm. rewrite H. apply sqrt_0.
Qed.

(** Whitening divides by the scales on the way in and multiplies by them
    on the way out. *)
Lemma whiten_cancels (z s : vec) (C : matrix) :
  Forall (fun t => t <> 0) s ->
  length z = length s ->
  length s = length C ->
  Np.map2 (Np.scale Rmult) (Np.map2 Rdiv z s) (Np.map2 (Np.scale Rmult) s C)
  = Np.map2 (Np.scale Rmult) z C.
Proof.
  intros Hs. revert z C.
  induction Hs as [|t s Ht _ IH]; intros [|x z] [|c C] Hz Hc; simpl in *;
    try discriminate; trivial.
  rewrite IH by lia. f_equal.
  unfold Np.scale. rewrite map_map. apply map_ext. intros r. now field.
Qed.

(** ** Round trip with all components kept *)

Lemma reconstruct_row_unwhitened (a : Decomposition.attrs) (x : vec) :
  attrs_shape_ok a ->
  orthonormal_rows (Decomposition.components_ a) ->
  length x = length (Decomposition.mean_ a) ->
  in_span (length (Decomposition.mean_ a)) (Decomposition.components_ a)
    (vsub x (Decomposition.mean_ a)) ->
  reconstruct_row false a x = x.
Proof.
  intros [_ Hrows] Ho Hx (coef & Hlen & Hspan).
  unfold reconstruct_row, transform_row, inverse_transform_row.
  rewrite Hspan, (project_lincomb _ coef _ Ho Hrows Hlen), <- Hspan.
  now apply vadd_vsub.
Qed.

Lemma reconstruct_row_whitened (a : Decomposition.attrs) (x : vec) :
  attrs_shape_ok a ->
  Forall (fun v => 0 < v) (Decomposition.explained_variance_ a) ->
  reconstruct_row true a x = reconstruct_row false a x.
Proof.
  intros [Hev _] Hpos.
  unfold reconstruct_row, transform_row, inverse_transform_row, lincomb.
  rewrite whiten_cancels; trivial.
  - apply Forall_forall. intros t Ht. apply in_map_iff in Ht.
    destruct Ht as [v [<- Hv]].
    rewrite Forall_forall in Hpos. apply Rgt_not_eq, sqrt_lt_R0. auto.
  - now rewrite !length_map.
  - now rewrite length_map.
Qed.

Lemma reconstruct_row_identity (w : bool) (a : Decomposition.attrs) (X : matrix) :
  check_array X = Ok X ->
  svd_of X (all_components X) a ->
  (w = true -> Forall (fun v => 0 < v) (Decomposition.explained_variance_ a)) ->
  forall x, In x X -> reconstruct_row w a x = x.
Proof.
  intros HX (Hd & Hk & Hs & Ho & Hfac) Hw x Hin.
  destruct (Hfac eq_refl) as [US HUS].
  destruct (check_array_inv X X HX) as (_ & _ & _ & Hrect).
  rewrite Forall_forall in Hrect.
  assert (Hspan : in_span (length (Decomposition.mean_ a))
                    (Decomposition.components_ a) (vsub x (Decomposition.mean_ a))).
  { revert Hk HUS Hin. generalize (all_components X). clear. intros k Hk HUS Hin.
    induction HUS as [|y c X' US' [Hc Hy] _ IH]; [contradiction|].
    destruct Hin as [->|Hin]; [|now apply IH].
    exists c. split; [congruence|exact Hy]. }
  assert (reconstruct_row false a x = x) as Hplain.
  { apply reconstruct_row_unwhitened; auto. rewrite Hd. auto. }
  destruct w; [|exact Hplain].
  rewrite reconstruct_row_whitened; auto.
Qed.

Section RoundTrip.
Context {L : Libs}.

(** C8.  A reconstruction detector built to retain all components
    ([n_components] at its default, or equal to
    [min(n_samples, n_features)]) and fitted on [X] by [fit]: when the
    SVD solver answers that call with a decomposition of [X], and no
    explained variance is zero if whitening is on, [reconstruct] is the
    identity on the training matrix and every training sample has
    anomaly score zero (in exact arithmetic; up to rounding in
    binary64). *)
Theorem full_reconstruction_is_identity_on_training_set
    (self self' : PCA.t) (X : matrix) :
  keeps_all_components self X ->
  svd_solver_decomposes self X ->
  PCA.fit X self = (Ok tt, self') ->
  whitening_scales_positive self' ->
  PCA.reconstruct X self' = (Ok X, self')
  /\ PCA.anomaly_score None self' = (Ok (map (fun _ => 0) X), self').
Proof.
  intros Hk Hsvd Hfit Hw.
  destruct (reconstruction_fit_ok_inv X self self' Hfit)
    as (a & scores & v & HX & Ha & _ & _ & ->).
  assert (Hsolver : svd_fit (Decomposition.kw (PCA._pca self)) (all_components X) X
                    = Ok a).
  { unfold sk_fit in Ha. rewrite HX in Ha. cbn [rbind] in Ha.
    unfold keeps_all_components in Hk. fold (all_components X) in Ha.
    destruct (Decomposition.n_components (Decomposition.kw (PCA._pca self)))
      as [k|]; [subst k|]; now rewrite Nat.leb_refl in Ha. }
  pose proof (Hsvd a Hsolver) as Hof.
  set (fitted := PCA.set_threshold_ v (PCA.set_pca_fitted a (PCA.set_X_ X self))) in *.
  assert (Hf : Decomposition.fitted (PCA._pca fitted) = Some a) by reflexivity.
  assert (Hid : forall x, In x X ->
             reconstruct_row
               (Decomposition.whiten (Decomposition.kw (PCA._pca fitted))) a x = x).
  { apply reconstruct_row_identity; trivial. intros Hwt. exact (Hw Hwt a Hf). }
  destruct Hof as (Hd & _ & Hs & _).
  split.
  - rewrite (reconstruct_ok fitted a X Hf Hs HX (eq_sym Hd)).
    rewrite (map_ext_in _ (fun x => x) _ Hid), map_id. reflexivity.
  - rewrite (reconstruction_anomaly_score_ok fitted a None X Hf Hs); trivial.
    + f_equal. f_equal. apply map_ext_in. intros x Hin.
      rewrite (Hid x Hin). apply euclidean_norm_self.
    + now rewrite Hd.
Qed.
End RoundTrip.

(** Equality of two vectors of real expressions, entry by entry. *)
Ltac vec_eq := repeat (apply (f_equal2 (@cons R)); [lra|]); reflexivity.

Lemma example_orthonormal :
  orthonormal_rows (Decomposition.components_ (Examples.pca_attrs 2)).
Proof.
  intros [|[|i]] [|[|j]] Hi Hj; simpl in *; try lia;
    unfold dot, Rsum, Np.sum; simpl; lra.
Qed.

Lemma example_svd :
  svd_of Examples.X_train (all_components Examples.X_train) (Examples.pca_attrs 2).
Proof.
  split; [reflexivity|]. split; [reflexivity|]. split; [exact example_pca_shape|].
  split; [exact example_orthonormal|]. intros _.
  exists [[1; 0]; [-1; 0]; [0; 1]; [0; -1]].
  repeat constructor; unfold lincomb, Np.sum_axis0, vsub; simpl; vec_eq.
Qed.

Lemma full_reconstruction_is_identity_on_training_set_witness :
  exists self',
    PCA.fit (L := Examples.libs) Examples.X_train (Examples.reconstruction (1/100) None)
    = (Ok tt, self')
    /\ PCA.reconstruct Examples.X_train self' = (Ok Examples.X_train, self')
    /\ PCA.anomaly_score None self' = (Ok [0; 0; 0; 0], self').
Proof.
  destruct (example_reconstruction_fit (1/100)) as [v Hfit]; [lra|].
  eexists. split; [exact Hfit|].
  apply (full_reconstruction_is_identity_on_training_set (L := Examples.libs)
           (Examples.reconstruction (1/100) None) _ Examples.X_train).
  - exact I.
  - intros a Ha. injection Ha as <-. exact example_svd.
  - exact Hfit.
  - intros Hw. discriminate Hw.
Defined.

(** The hypothesis on [n_components] is needed: fitted on the same
    matrix for one component, the detector loses the second coordinate
    of the sample [(0, 1)]. *)
Lemma example_dropped_component_is_lost :
  let built := Examples.reconstruction (1/100) (Some 1%nat) in
  let fitted := PCA.set_pca_fitted (Examples.pca_attrs 1)
                  (PCA.set_X_ Examples.X_train built) in
  ~ keeps_all_components built Examples.X_train
  /\ sk_fit (L := Examples.libs) (PCA._pca built) Examples.X_train
     = Ok (Examples.pca_attrs 1)
  /\ exists X_rec,
       PCA.reconstruct Examples.X_train fitted = (Ok X_rec, fitted)
       /\ nth 2 X_rec [] <> nth 2 Examples.X_train [].
Proof.
  intros built fitted. split; [discriminate|]. split; [reflexivity|].
  eexists. split.
  - apply (reconstruct_ok fitted (Examples.pca_attrs 1) Examples.X_train);
      try reflexivity.
    split; [reflexivity|]. repeat constructor.
  - unfold reconstruct_row, transform_row, inverse_transform_row, lincomb,
      Np.sum_axis0, vsub, vadd, dot, Rsum, Np.sum, Np.scale.
    simpl. intros H. injection H as _ H. lra.
Qed.

(** * Further properties of the detectors *)

(** ** Where the threshold falls among the training scores *)

(** The percentile is bracketed by two of the data. *)
Lemma np_percentile_bracket (a : vec) (q v : R) :
  np_percentile a q = Ok v ->
  exists lo hi, In lo a /\ In hi a /\ lo <= v <= hi.
Proof.
  intros H. pose proof (np_percentile_range a q v H) as [_ Hne].
  destruct (np_percentile_between a q v H) as [Hlo Hv].
  assert (Hn : (1 <= length a)%nat) by (destruct a; [congruence|simpl; lia]).
  eexists _, _. split; [|split; [|exact Hv]].
  - apply (Permutation_in _ (Permutation_sym (np_sort_permutation a))).
    apply nth_In. rewrite np_sort_length. lia.
  - apply (Permutation_in _ (Permutation_sym (np_sort_permutation a))).
    apply nth_In. rewrite np_sort_length. lia.
Qed.

Section Calibrated.
Context {L : Libs}.

(** A run of [fit] that returned, for either variant. *)
Lemma detector_fit_ok_inv (X : matrix) (d d' : Detector.t) :
  Detector.fit X d = (Ok tt, d') ->
  exists scores v,
    Detector.anomaly_score X d' = (Ok scores, d')
    /\ np_percentile scores (100 * (1 - Detector.fpr d)) = Ok v
    /\ Detector.threshold_ d' = Some v
    /\ Detector.fpr d' = Detector.fpr d.
Proof.
  destruct d as [g|p]; unfold Detector.fit.
  - unfold Detector.on_mixture.
    destruct (GaussianMixtureOutlierDetector.fit X g) as [r g'] eqn:E.
    intros H. injection H as -> <-.
    apply mixture_fit_ok_inv in E.
    destruct E as (a & scores & v & HX & Ha & Hs & Hp & ->).
    exists scores, v. repeat split; trivial.
    unfold Detector.anomaly_score, Detector.on_mixture.
    now rewrite (mixture_score_after_threshold X v _ _ Hs).
  - unfold Detector.on_reconstruction.
    destruct (PCA.fit X p) as [r p'] eqn:E.
    intros H. injection H as -> <-.
    apply reconstruction_fit_ok_inv in E.
    destruct E as (a & scores & v & HX & Ha & Hs & Hp & ->).
    exists scores, v. repeat split; trivial.
    unfold Detector.anomaly_score, Detector.on_reconstruction.
    rewrite (reconstruction_score_default X) by reflexivity.
    now rewrite (reconstruction_score_after_threshold None v _ _ Hs).
Qed.

(** X1.  After a call [fit(X)] that returned, on either variant, the
    threshold lies between two of the training scores: it is never
    below the smallest nor above the largest score of [X]. *)
Theorem threshold_lies_between_training_scores (X : matrix) (d d' : Detector.t) :
  Detector.fit X d = (Ok tt, d') ->
  exists scores v lo hi,
    Detector.anomaly_score X d' = (Ok scores, d')
    /\ Detector.threshold_ d' = Some v
    /\ In lo scores /\ In hi scores /\ lo <= v <= hi.
Proof.
  intros H. destruct (detector_fit_ok_inv X d d' H) as (scores & v & Hs & Hp & Ht & _).
  destruct (np_percentile_bracket scores _ v Hp) as (lo & hi & Hlo & Hhi & Hv).
  exists scores, v, lo, hi. auto.
Qed.

End Calibrated.

Lemma example_detector_fit :
  exists d',
    Detector.fit (L := Examples.libs) Examples.X_train
      (Detector.Reconstruction (Examples.reconstruction (1/100) None)) = (Ok tt, d').
Proof.
  destruct (example_reconstruction_fit (1/100)) as [v Hfit]; [lra|].
  eexists. unfold Detector.fit, Detector.on_reconstruction. now rewrite Hfit.
Qed.

Lemma threshold_lies_between_training_scores_witness :
  exists d' scores v lo hi,
    Detector.fit (L := Examples.libs) Examples.X_train
      (Detector.Reconstruction (Examples.reconstruction (1/100) None)) = (Ok tt, d')
    /\ Detector.anomaly_score (L := Examples.libs) Examples.X_train d' = (Ok scores, d')
    /\ Detector.threshold_ d' = Some v
    /\ In lo scores /\ In hi scores /\ lo <= v <= hi.
Proof.
  destruct example_detector_fit as [d' Hrun].
  destruct (threshold_lies_between_training_scores (L := Examples.libs)
              Examples.X_train _ d' Hrun) as (scores & v & lo & hi & H).
  exists d', scores, v, lo, hi. split; [exact Hrun | exact H].
Defined.

(** ** [fit] as one case analysis *)

Section FitCases.
Context {L : Libs}.

Lemma mixture_fit_run (X : matrix) (self : GaussianMixtureOutlierDetector.t) :
  GaussianMixtureOutlierDetector.fit X self =
  match check_array X with
  | Raise e => (Raise e, self)
  | Ok X =>
      match GaussianMixture_fit (GaussianMixtureOutlierDetector.base self) X with
      | Raise e => (Raise e, self)
      | Ok a =>
          let fitted := GaussianMixtureOutlierDetector.set_fitted a self in
          match fst (GaussianMixtureOutlierDetector.anomaly_score X fitted) with
          | Raise e => (Raise e, fitted)
          | Ok scores =>
              match np_percentile scores
                      (100 * (1 - GaussianMixtureOutlierDetector.fpr self)) with
              | Raise e => (Raise e, fitted)
              | Ok v => (Ok tt, GaussianMixtureOutlierDetector.set_threshold_ v fitted)
              end
          end
      end
  end.
Proof.
  unfold GaussianMixtureOutlierDetector.fit, bind, lift, get, modify.
  destruct (check_array X) as [X'|e]; [|reflexivity].
  destruct (GaussianMixture_fit _ X') as [a|e]; [|reflexivity].
  cbv zeta.
  pose proof (mixture_anomaly_score_frame X'
                (GaussianMixtureOutlierDetector.set_fitted a self)) as Hfr.
  destruct (GaussianMixtureOutlierDetector.anomaly_score X' _) as [[scores|e] s1];
    simpl in Hfr; subst s1; simpl; [|reflexivity].
  destruct (np_percentile scores _); reflexivity.
Qed.

Lemma reconstruction_fit_run (X : matrix) (self : PCA.t) :
  PCA.fit X self =
  match check_array X with
  | Raise e => (Raise e, self)
  | Ok X =>
      match sk_fit (PCA._pca self) X with
      | Raise e => (Raise e, PCA.set_X_ X self)
      | Ok a =>
          let fitted := PCA.set_pca_fitted a (PCA.set_X_ X self) in
          match fst (PCA.anomaly_score None fitted) with
          | Raise e => (Raise e, fitted)
          | Ok scores =>
              match np_percentile scores (100 * (1 - PCA.fpr self)) with
              | Raise e => (Raise e, fitted)
              | Ok v => (Ok tt, PCA.set_threshold_ v fitted)
              end
          end
      end
  end.
Proof.
  unfold PCA.fit, bind, lift, get, modify, PCA.get_X_.
  destruct (check_array X) as [X'|e]; [|reflexivity]. simpl.
  unfold bind, get, lift. simpl.
  destruct (sk_fit (PCA._pca self) X') as [a|e]; [|reflexivity].
  cbv zeta.
  pose proof (reconstruction_anomaly_score_frame None
                (PCA.set_pca_fitted a (PCA.set_X_ X' self))) as Hfr.
  destruct (PCA.anomaly_score None _) as [[scores|e] s1];
    simpl in Hfr; subst s1; simpl; [|reflexivity].
  destruct (np_percentile scores _); reflexivity.
Qed.

(** The scores depend on the fitted attributes (and, for the
    reconstruction detector, the stored training matrix) alone. *)
Lemma mixture_anomaly_score_fitted_only (X : matrix)
    (s1 s2 : GaussianMixtureOutlierDetector.t) :
  GaussianMixtureOutlierDetector.fitted s1 = GaussianMixtureOutlierDetector.fitted s2 ->
  fst (GaussianMixtureOutlierDetector.anomaly_score X s1)
  = fst (GaussianMixtureOutlierDetector.anomaly_score X s2).
Proof.
  intros H. rewrite !mixture_anomaly_score_run.
  unfold GaussianMixtureOutlierDetector.check_is_fitted. now rewrite H.
Qed.

Lemma reconstruction_anomaly_score_fitted_only (X : option matrix) (s1 s2 : PCA.t) :
  PCA._pca s1 = PCA._pca s2 ->
  PCA.X_ s1 = PCA.X_ s2 ->
  fst (PCA.anomaly_score X s1) = fst (PCA.anomaly_score X s2).
Proof.
  intros Hp HX. rewrite !reconstruction_anomaly_score_run.
  unfold scored_input. now rewrite Hp, HX.
Qed.

(** X3.  With a reproducible estimator, a call [fit(X)] that returned
    has erased every trace of an earlier fit: two detectors of one
    variant built with the same parameters end in the same state,
    whatever they held before; so fitting again on the same [X] changes
    nothing; and [fit] leaves the parameters themselves as they were. *)
Theorem fit_overwrites_earlier_fit (X : matrix) (d1 d2 d' : Detector.t) :
  reproducible d1 ->
  same_parameters d1 d2 ->
  Detector.fit X d1 = (Ok tt, d') ->
  Detector.fit X d2 = (Ok tt, d')
  /\ Detector.fit X d' = (Ok tt, d')
  /\ same_parameters d1 d'.
Proof.
  assert (Hkey : forall e1 e2 e',
             same_parameters e1 e2 -> Detector.fit X e1 = (Ok tt, e') ->
             Detector.fit X e2 = (Ok tt, e') /\ same_parameters e1 e').
  { intros [g1|p1] [g2|p2] e' Hsame; simpl in Hsame; try contradiction;
      destruct Hsame as [Hfpr Hpar]; unfold Detector.fit.
    - unfold Detector.on_mixture. rewrite !mixture_fit_run.
      rewrite <- Hfpr, <- Hpar.
      destruct (check_array X) as [X'|e]; [|discriminate].
      destruct (GaussianMixture_fit _ X') as [a|e]; [|discriminate]. cbv zeta.
      rewrite (mixture_anomaly_score_fitted_only X'
                 (GaussianMixtureOutlierDetector.set_fitted a g2)
                 (GaussianMixtureOutlierDetector.set_fitted a g1) eq_refl).
      destruct (fst (GaussianMixtureOutlierDetector.anomaly_score X' _))
        as [scores|e]; [|discriminate].
      destruct (np_percentile scores _) as [v|e]; [|discriminate].
      intros H. injection H as <-. split; [|simpl; auto].
      destruct g1, g2. simpl in *. subst. reflexivity.
    - unfold Detector.on_reconstruction. rewrite !reconstruction_fit_run.
      rewrite <- Hfpr.
      destruct (check_array X) as [X'|e]; [|discriminate].
      assert (Hfit : sk_fit (PCA._pca p2) X' = sk_fit (PCA._pca p1) X').
      { unfold sk_fit. now rewrite Hpar. }
      rewrite Hfit.
      destruct (sk_fit (PCA._pca p1) X') as [a|e]; [|discriminate]. cbv zeta.
      rewrite (reconstruction_anomaly_score_fitted_only None
                 (PCA.set_pca_fitted a (PCA.set_X_ X' p2))
                 (PCA.set_pca_fitted a (PCA.set_X_ X' p1)))
        by (simpl; congruence).
      destruct (fst (PCA.anomaly_score None _)) as [scores|e]; [|discriminate].
      destruct (np_percentile scores _) as [v|e]; [|discriminate].
      intros H. injection H as <-. split; [|simpl; auto].
      unfold PCA.set_threshold_, PCA.set_pca_fitted, PCA.set_X_. simpl.
      now rewrite Hfpr, Hpar. }
  intros _ Hsame Hfit.
  destruct (Hkey d1 d2 d' Hsame Hfit) as [H2 Hs'].
  split; [exact H2|]. split; [|exact Hs'].
  apply (Hkey d1 d' d' Hs' Hfit).
Qed.
End FitCases.

Lemma fit_overwrites_earlier_fit_witness :
  exists d',
    Detector.fit (L := Examples.libs) Examples.X_train
      (Detector.Reconstruction (Examples.reconstruction (1/100) None)) = (Ok tt, d')
    /\ Detector.fit (L := Examples.libs) Examples.X_train
         (Detector.Reconstruction (Examples.reconstruction_fitted (1/100))) = (Ok tt, d')
    /\ Detector.fit (L := Examples.libs) Examples.X_train d' = (Ok tt, d').
Proof.
  destruct example_detector_fit as [d' Hrun].
  destruct (fit_overwrites_earlier_fit (L := Examples.libs) Examples.X_train
              (Detector.Reconstruction (Examples.reconstruction (1/100) None))
              (Detector.Reconstruction (Examples.reconstruction_fitted (1/100)))
              d' eq_refl (conj eq_refl eq_refl) Hrun) as (H2 & H3 & _).
  exists d'. auto.
Defined.

(** ** The extreme rates *)

Lemma sorted_all_between (s : vec) :
  StronglySorted Rle s ->
  forall x, In x s -> nth 0 s 0 <= x <= nth (length s - 1) s 0.
Proof.
  intros Hs x Hx. destruct (In_nth s x 0 Hx) as (i & Hi & <-).
  split; apply sorted_nth_le; trivial; lia.
Qed.

Lemma np_percentile_100_max (a : vec) (v : R) :
  np_percentile a 100 = Ok v -> In v a /\ Forall (fun s => s <= v) a.
Proof.
  intros H. pose proof (np_percentile_range a 100 v H) as [_ Hne].
  rewrite (np_percentile_100 a Hne) in H. injection H as <-.
  assert (Hn : (1 <= length a)%nat) by (destruct a; [congruence|simpl; lia]).
  split.
  - apply (Permutation_in _ (Permutation_sym (np_sort_permutation a))).
    apply nth_In. rewrite np_sort_length. lia.
  - apply Forall_forall. intros x Hx.
    rewrite <- (np_sort_length a).
    apply (sorted_all_between _ (np_sort_sorted a)).
    apply (Permutation_in _ (np_sort_permutation a) Hx).
Qed.

Lemma np_percentile_0_min (a : vec) (v : R) :
  np_percentile a 0 = Ok v -> In v a /\ Forall (fun s => v <= s) a.
Proof.
  intros H. pose proof (np_percentile_range a 0 v H) as [_ Hne].
  rewrite (np_percentile_0 a Hne) in H. injection H as <-.
  assert (Hn : (1 <= length a)%nat) by (destruct a; [congruence|simpl; lia]).
  split.
  - apply (Permutation_in _ (Permutation_sym (np_sort_permutation a))).
    apply nth_In. rewrite np_sort_length. lia.
  - apply Forall_forall. intros x Hx.
    apply (sorted_all_between _ (np_sort_sorted a)).
    apply (Permutation_in _ (np_sort_permutation a) Hx).
Qed.

Section ExtremeRates.
Context {L : Libs}.

(** X4.  After a call [fit(X)] that returned, on either variant: with
    [fpr = 0] the threshold is the largest training score, so no
    training score exceeds it; with [fpr = 1] it is the smallest
    training score. *)
Theorem extreme_fpr_gives_extreme_score (X : matrix) (d d' : Detector.t) :
  Detector.fit X d = (Ok tt, d') ->
  exists scores v,
    Detector.anomaly_score X d' = (Ok scores, d')
    /\ Detector.threshold_ d' = Some v
    /\ (Detector.fpr d = 0 -> In v scores /\ Forall (fun s => s <= v) scores)
    /\ (Detector.fpr d = 1 -> In v scores /\ Forall (fun s => v <= s) scores).
Proof.
  intros H. destruct (detector_fit_ok_inv X d d' H) as (scores & v & Hs & Hp & Ht & _).
  exists scores, v. split; [exact Hs|]. split; [exact Ht|]. split; intros Hf.
  - rewrite Hf in Hp. replace (100 * (1 - 0)) with 100 in Hp by lra.
    now apply np_percentile_100_max.
  - rewrite Hf in Hp. replace (100 * (1 - 1)) with 0 in Hp by lra.
    now apply np_percentile_0_min.
Qed.
End ExtremeRates.

Lemma extreme_fpr_gives_extreme_score_witness :
  exists d' scores v,
    Detector.fit (L := Examples.libs) Examples.X_train
      (Detector.Reconstruction (Examples.reconstruction 0 None)) = (Ok tt, d')
    /\ Detector.anomaly_score (L := Examples.libs) Examples.X_train d' = (Ok scores, d')
    /\ Detector.threshold_ d' = Some v
    /\ In v scores /\ Forall (fun s => s <= v) scores.
Proof.
  destruct (example_reconstruction_fit 0) as [v0 Hfit]; [lra|].
  assert (Hrun : Detector.fit (L := Examples.libs) Examples.X_train
                   (Detector.Reconstruction (Examples.reconstruction 0 None))
                 = (Ok tt, Detector.Reconstruction
                             (PCA.set_threshold_ v0 (Examples.reconstruction_fitted 0)))).
  { unfold Detector.fit, Detector.on_reconstruction. now rewrite Hfit. }
  destruct (extreme_fpr_gives_extreme_score (L := Examples.libs)
              Examples.X_train _ _ Hrun) as (scores & v & Hs & Ht & H0 & _).
  eexists _, scores, v. split; [exact Hrun|]. split; [exact Hs|].
  split; [exact Ht|]. apply H0. reflexivity.
Defined.

(** ** Order of the checks *)

Lemma check_array_cases (X : matrix) :
  check_array X = Ok X \/ check_array X = Raise ValueError.
Proof. unfold check_array. destruct (_ && _)%bool; auto. Qed.

Lemma check_array_rejected (X : matrix) :
  is_ok (check_array X) = false -> check_array X = Raise ValueError.
Proof.
  intros H. destruct (check_array_cases X) as [E|E]; [|exact E].
  rewrite E in H. discriminate.
Qed.

Section Checks.
Context {L : Libs}.

(** X5.  The mixture detector's [anomaly_score] checks the fitted state
    before it looks at its input: without fitted attributes it raises
    [NotFittedError] for every [X], valid or not; with them it never
    raises [NotFittedError], and an [X] that is not a non-empty
    two-dimensional array raises [ValueError].  The instance is left as
    it was. *)
Theorem mixture_score_checks_fitted_then_input
    (X : matrix) (g : GaussianMixtureOutlierDetector.t) :
  match GaussianMixtureOutlierDetector.fitted g with
  | None =>
      GaussianMixtureOutlierDetector.anomaly_score X g = (Raise NotFittedError, g)
  | Some _ =>
      fst (GaussianMixtureOutlierDetector.anomaly_score X g) <> Raise NotFittedError
      /\ (is_ok (check_array X) = false ->
          GaussianMixtureOutlierDetector.anomaly_score X g = (Raise ValueError, g))
  end.
Proof.
  destruct (GaussianMixtureOutlierDetector.fitted g) as [a|] eqn:Hf.
  - split; [exact (mixture_fitted_not_NotFitted X g a Hf)|].
    intros HX. rewrite mixture_anomaly_score_run.
    unfold GaussianMixtureOutlierDetector.check_is_fitted. rewrite Hf. simpl.
    now rewrite (check_array_rejected X HX).
  - exact (mixture_unfitted_raises X g Hf).
Qed.

(** X6.  The reconstruction detector's scoring methods, given their
    input: before the estimator is fitted [anomaly_score(X)],
    [reconstruct(X)] and [score(X)] raise [NotFittedError]; afterwards
    none of them does, and an [X] that is not a non-empty
    two-dimensional array raises [ValueError].  With the input omitted,
    [anomaly_score()] is [anomaly_score(self.X_)] when a training matrix
    is stored and raises [AttributeError] when none is.  The instance is
    left as it was. *)
Theorem reconstruction_scoring_checks (X : matrix) (p : PCA.t) :
  match Decomposition.fitted (PCA._pca p) with
  | None =>
      PCA.anomaly_score (Some X) p = (Raise NotFittedError, p)
      /\ PCA.reconstruct X p = (Raise NotFittedError, p)
      /\ PCA.score X p = (Raise NotFittedError, p)
  | Some _ =>
      (fst (PCA.anomaly_score (Some X) p) <> Raise NotFittedError
       /\ fst (PCA.reconstruct X p) <> Raise NotFittedError
       /\ fst (PCA.score X p) <> Raise NotFittedError)
      /\ (is_ok (check_array X) = false ->
          PCA.anomaly_score (Some X) p = (Raise ValueError, p)
          /\ PCA.reconstruct X p = (Raise ValueError, p)
          /\ PCA.score X p = (Raise ValueError, p))
  end
  /\ match PCA.X_ p with
     | None => PCA.anomaly_score None p = (Raise AttributeError, p)
     | Some X0 => PCA.anomaly_score None p = PCA.anomaly_score (Some X0) p
     end.
Proof.
  split.
  - destruct (Decomposition.fitted (PCA._pca p)) as [a|] eqn:Hf.
    + split; [exact (reconstruction_fitted_not_NotFitted X p a Hf)|].
      intros HX. apply check_array_rejected in HX.
      rewrite reconstruction_anomaly_score_run, reconstruct_run.
      unfold PCA.score, bind, get, lift, sk_transform, sk_score.
      rewrite Hf. simpl. rewrite HX. repeat split.
    + exact (reconstruction_unfitted_raises X p Hf).
  - destruct (PCA.X_ p) as [X0|] eqn:HX_;
      rewrite !reconstruction_anomaly_score_run; unfold scored_input;
      rewrite HX_; reflexivity.
Qed.

(** X8.  The seven read-only properties of the reconstruction detector
    ([components_], [explained_variance_], ...) raise [AttributeError]
    while the estimator is unfitted; after a call [fit(X)] that
    returned, each yields the attribute of the estimate that the
    library computed on [X], and [X_] is [X]. *)
Theorem pca_properties_follow_fit (X : matrix) (self : PCA.t) :
  (Decomposition.fitted (PCA._pca self) = None ->
   PCA.components_ self = Raise AttributeError
   /\ PCA.explained_variance_ self = Raise AttributeError
   /\ PCA.explained_variance_ratio_ self = Raise AttributeError
   /\ PCA.mean_ self = Raise AttributeError
   /\ PCA.noise_variance_ self = Raise AttributeError
   /\ PCA.n_components_ self = Raise AttributeError
   /\ PCA.singular_values_ self = Raise AttributeError)
  /\ (forall self', PCA.fit X self = (Ok tt, self') ->
      exists a,
        sk_fit (PCA._pca self) X = Ok a
        /\ PCA.X_ self' = Some X
        /\ PCA.components_ self' = Ok (Decomposition.components_ a)
        /\ PCA.explained_variance_ self' = Ok (Decomposition.explained_variance_ a)
        /\ PCA.explained_variance_ratio_ self'
           = Ok (Decomposition.explained_variance_ratio_ a)
        /\ PCA.mean_ self' = Ok (Decomposition.mean_ a)
        /\ PCA.noise_variance_ self' = Ok (Decomposition.noise_variance_ a)
        /\ PCA.n_components_ self' = Ok (Decomposition.n_components_ a)
        /\ PCA.singular_values_ self' = Ok (Decomposition.singular_values_ a)).
Proof.
  split.
  - intros Hf.
    unfold PCA.components_, PCA.explained_variance_, PCA.explained_variance_ratio_,
      PCA.mean_, PCA.noise_variance_, PCA.n_components_, PCA.singular_values_,
      PCA.pca_attr.
    rewrite Hf. repeat split.
  - intros self' H. apply reconstruction_fit_ok_inv in H.
    destruct H as (a & scores & v & _ & Ha & _ & _ & ->).
    exists a. repeat split. exact Ha.
Qed.
End Checks.

(** ** The [fpr] check in floating point *)

Section Float64Checks.
Import PrimFloat.

Lemma SFcompare_refl_finite (s : bool) (m : positive) (e : Z) :
  SpecFloat.SFcompare (SpecFloat.S754_finite s m e) (SpecFloat.S754_finite s m e)
  = Some Eq.
Proof.
  simpl. rewrite Z.compare_refl, Pos.compare_cont_refl. now destruct s.
Qed.

Lemma is_nan_spec (x : float) : is_nan x = spec_is_nan (FloatOps.Prim2SF x).
Proof.
  unfold is_nan. rewrite FloatAxioms.eqb_spec. unfold SpecFloat.SFeqb.
  destruct (FloatOps.Prim2SF x) as [s|s| |s m e].
  - reflexivity.
  - destruct s; reflexivity.
  - reflexivity.
  - now rewrite SFcompare_refl_finite.
Qed.

(** Against zero and a positive finite bound, "below zero or above the
    bound" is the negation of "NaN or between them": the order of
    IEEE 754 is total on everything but NaN. *)
Lemma spec_unit_interval (x : SpecFloat.spec_float) (m1 : positive) (e1 : Z) :
  (SpecFloat.SFltb x (SpecFloat.S754_zero false)
   || SpecFloat.SFltb (SpecFloat.S754_finite false m1 e1) x)%bool
  = negb (spec_is_nan x
          || (SpecFloat.SFleb (SpecFloat.S754_zero false) x
              && SpecFloat.SFleb x (SpecFloat.S754_finite false m1 e1)))%bool.
Proof.
  unfold SpecFloat.SFltb, SpecFloat.SFleb.
  destruct x as [s|s| |s m e]; try (destruct s; reflexivity); try reflexivity.
  destruct s; [reflexivity|].
  cbn [SpecFloat.SFcompare spec_is_nan orb andb].
  rewrite (Z.compare_antisym e1 e).
  destruct (e1 ?= e)%Z; cbn [CompOpp]; try reflexivity.
  change (PosDef.Pos.compare_cont Eq m1 m) with (Pos.compare m1 m).
  change (PosDef.Pos.compare_cont Eq m m1) with (Pos.compare m m1).
  rewrite (Pos.compare_antisym m m1).
  destruct (Pos.compare m m1); reflexivity.
Qed.

(** X7.  On binary64 the check of [fpr] that the constructor of the
    reconstruction detector runs accepts exactly the values with
    [0 <= fpr <= 1] and NaN: for NaN both comparisons of the guard are
    false, so [PCA(fpr=nan)] is constructed; every other value,
    the infinities included, raises [ValueError]. *)
Theorem binary64_check_params_accepts_unit_interval_and_nan (fpr : float) :
  Float64Params.check_params fpr
  = if (is_nan fpr || (leb zero fpr && leb fpr one))%bool
    then Ok tt else Raise ValueError.
Proof.
  unfold Float64Params.check_params.
  rewrite is_nan_spec, !FloatAxioms.ltb_spec, !FloatAxioms.leb_spec.
  replace (FloatOps.Prim2SF zero) with (SpecFloat.S754_zero false) by reflexivity.
  replace (FloatOps.Prim2SF one)
    with (SpecFloat.S754_finite false 4503599627370496 (-52)) by reflexivity.
  rewrite spec_unit_interval.
  destruct (spec_is_nan _ || _)%bool; reflexivity.
Qed.
End Float64Checks.

Lemma pca_properties_follow_fit_witness :
  PCA.components_ (Examples.reconstruction (1/100) None) = Raise AttributeError
  /\ exists self',
       PCA.fit (L := Examples.libs) Examples.X_train
         (Examples.reconstruction (1/100) None) = (Ok tt, self')
       /\ PCA.components_ self' = Ok [[1; 0]; [0; 1]]
       /\ PCA.mean_ self' = Ok [0; 0].
Proof.
  destruct (pca_properties_follow_fit (L := Examples.libs) Examples.X_train
              (Examples.reconstruction (1/100) None)) as [Hbefore Hafter].
  split; [apply (Hbefore eq_refl)|].
  destruct (example_reconstruction_fit (1/100)) as [v Hfit]; [lra|].
  eexists. split; [exact Hfit|].
  destruct (Hafter _ Hfit) as (a & Ha & _ & Hc & _ & _ & Hm & _).
  assert (a = Examples.pca_attrs 2) as -> by (injection Ha as <-; reflexivity).
  split; [exact Hc | exact Hm].
Defined.

(** ** Shapes *)

Lemma fold_vadd_length (d : nat) (rows : matrix) (acc : vec) :
  length acc = d ->
  Forall (fun r => length r = d) rows ->
  length (fold_left (Np.map2 Rplus) rows acc) = d.
Proof.
  intros Hacc Hrows. revert acc Hacc.
  induction Hrows as [|r rows Hr _ IH]; intros acc Hacc; simpl; [exact Hacc|].
  apply IH. rewrite map2_length; congruence.
Qed.

Lemma lincomb_length (d : nat) (z : vec) (C : matrix) :
  Forall (fun c => length c = d) C -> length (lincomb d z C) = d.
Proof.
  intros H. unfold lincomb, Np.sum_axis0.
  apply fold_vadd_length; [apply repeat_length|now apply map2_scale_rows].
Qed.

Lemma inverse_transform_row_length (w : bool) (a : Decomposition.attrs) (z : vec) :
  attrs_shape_ok a ->
  length (inverse_transform_row w a z) = length (Decomposition.mean_ a).
Proof.
  intros [_ Hrows]. unfold inverse_transform_row.
  assert (Hl : forall C, Forall (fun c => length c = length (Decomposition.mean_ a)) C ->
                 length (vadd (lincomb (length (Decomposition.mean_ a)) z C)
                           (Decomposition.mean_ a))
                 = length (Decomposition.mean_ a)).
  { intros C HC. rewrite vadd_length; now rewrite lincomb_length. }
  apply Hl. destruct w; [|exact Hrows]. now apply map2_scale_rows.
Qed.

Lemma reconstruct_row_length (w : bool) (a : Decomposition.attrs) (x : vec) :
  attrs_shape_ok a ->
  length (reconstruct_row w a x) = length (Decomposition.mean_ a).
Proof. apply inverse_transform_row_length. Qed.

(** A valid array stays one when every row is replaced by a row of the
    same width. *)
Lemma check_array_map (f : vec -> vec) (X : matrix) :
  check_array X = Ok X ->
  (forall x, length (f x) = n_features X) ->
  check_array (map f X) = Ok (map f X) /\ n_features (map f X) = n_features X.
Proof.
  intros HX Hf. destruct (check_array_inv X X HX) as (_ & Hn & Hd & _).
  assert (Hw : n_features (map f X) = n_features X).
  { destruct X as [|x X]; [simpl in Hn; lia|]. simpl. apply Hf. }
  split; [|exact Hw]. unfold check_array. rewrite Hw, length_map.
  replace (rectangular (map f X)) with true.
  - destruct (Nat.leb_spec 1 (length X)); [|lia].
    destruct (Nat.leb_spec 1 (n_features X)); [|lia]. reflexivity.
  - symmetry. unfold rectangular. rewrite Hw. apply forallb_forall.
    intros r Hr. apply in_map_iff in Hr. destruct Hr as [x [<- _]].
    apply Nat.eqb_eq, Hf.
Qed.

(** ** The reconstruction as an orthogonal projection *)

Lemma vsub_vadd (u m : vec) :
  length u = length m -> vsub (vadd u m) m = u.
Proof.
  unfold vadd, vsub. revert m.
  induction u as [|a u IH]; intros [|b m] H; simpl in *;
    try discriminate; trivial.
  rewrite IH by lia. f_equal. lra.
Qed.

Lemma vsub_vadd_assoc (x p m : vec) :
  length x = length m -> length p = length m ->
  vsub x (vadd p m) = vsub (vsub x m) p.
Proof.
  unfold vadd, vsub. revert p m.
  induction x as [|a x IH]; intros [|b p] [|c m] Hx Hp; simpl in *;
    try discriminate; trivial.
  rewrite IH by lia. f_equal. lra.
Qed.

Lemma dot_comm (u v : vec) : dot u v = dot v u.
Proof.
  unfold dot. revert v.
  induction u as [|a u IH]; intros [|b v]; simpl; trivial.
  rewrite !Rsum_cons, IH. lra.
Qed.

Lemma dot_vsub (a b v : vec) :
  length a = length b -> dot (vsub a b) v = dot a v - dot b v.
Proof.
  unfold dot, vsub. revert b v.
  induction a as [|x a IH]; intros [|y b] [|z v] H; simpl in *;
    try discriminate; rewrite ?Rsum_nil; try lra.
  rewrite !Rsum_cons, IH by lia. lra.
Qed.

Lemma sum_squares_dot (v : vec) : Rsum (map (fun r => r ^ 2) v) = dot v v.
Proof.
  unfold dot. induction v as [|a v IH]; [reflexivity|].
  change (Rsum (map (fun r => r ^ 2) (a :: v)))
    with (Rsum (a ^ 2 :: map (fun r => r ^ 2) v)).
  change (Np.map2 Rmult (a :: v) (a :: v)) with (a * a :: Np.map2 Rmult v v).
  rewrite !Rsum_cons, IH. lra.
Qed.

Lemma dot_self_nonneg (v : vec) : 0 <= dot v v.
Proof.
  unfold dot. induction v as [|a v IH]; [simpl; rewrite Rsum_nil; lra|].
  change (Np.map2 Rmult (a :: v) (a :: v)) with (a * a :: Np.map2 Rmult v v).
  rewrite Rsum_cons. nra.
Qed.

Lemma euclidean_norm_sqr (v : vec) : euclidean_norm v ^ 2 = dot v v.
Proof.
  unfold euclidean_norm. rewrite sum_squares_dot. simpl. rewrite Rmult_1_r.
  apply sqrt_def, dot_self_nonneg.
Qed.

Lemma Rsum_map2_factor (g : vec -> R) (z : vec) (C : matrix) :
  Rsum (Np.map2 (fun x c => x * g c) z C) = dot z (map g C).
Proof.
  unfold dot. revert z. induction C as [|c C IH]; intros [|x z]; simpl; trivial.
  now rewrite !Rsum_cons, IH.
Qed.

(** The coefficients of a sample: its dot products, centred, with the
    retained components. *)
Lemma transform_of_reconstruction (a : Decomposition.attrs) (x : vec) :
  attrs_shape_ok a ->
  orthonormal_rows (Decomposition.components_ a) ->
  transform_row false a (reconstruct_row false a x) = transform_row false a x.
Proof.
  intros [Hev Hrows] Ho.
  unfold reconstruct_row, inverse_transform_row, transform_row.
  rewrite vsub_vadd by (now apply lincomb_length).
  apply project_lincomb; trivial. apply length_map.
Qed.

Lemma reconstruct_row_idempotent (w : bool) (a : Decomposition.attrs) (x : vec) :
  attrs_shape_ok a ->
  orthonormal_rows (Decomposition.components_ a) ->
  (w = true -> Forall (fun v => 0 < v) (Decomposition.explained_variance_ a)) ->
  reconstruct_row w a (reconstruct_row w a x) = reconstruct_row w a x.
Proof.
  intros Hs Ho Hw.
  assert (Hplain : forall y, reconstruct_row w a y = reconstruct_row false a y).
  { intros y. destruct w; [|reflexivity]. apply reconstruct_row_whitened; auto. }
  rewrite !Hplain. unfold reconstruct_row at 1.
  rewrite transform_of_reconstruction by assumption. reflexivity.
Qed.

(** The squared residual is the squared distance from the mean less the
    squared coefficients (Pythagoras). *)
Lemma residual_pythagoras (a : Decomposition.attrs) (x : vec) :
  attrs_shape_ok a ->
  orthonormal_rows (Decomposition.components_ a) ->
  length x = length (Decomposition.mean_ a) ->
  let u := vsub x (Decomposition.mean_ a) in
  let z := map (dot u) (Decomposition.components_ a) in
  dot (vsub x (reconstruct_row false a x)) (vsub x (reconstruct_row false a x))
  = dot u u - dot z z.
Proof.
  intros [Hev Hrows] Ho Hx u z.
  set (d := length (Decomposition.mean_ a)) in *.
  set (C := Decomposition.components_ a) in *.
  set (p := lincomb d z C).
  assert (Hp : length p = d) by (now apply lincomb_length).
  assert (Hu : length u = d).
  { unfold u, vsub. rewrite map2_length; trivial. }
  assert (Hrec : vsub x (reconstruct_row false a x) = vsub u p).
  { unfold reconstruct_row, inverse_transform_row, transform_row.
    fold C. fold d. fold u. fold z. fold p.
    apply vsub_vadd_assoc; trivial. }
  rewrite Hrec.
  assert (Hpu : dot p u = dot z z).
  { unfold p. rewrite (dot_lincomb d z C u Hrows), Rsum_map2_factor.
    f_equal. apply map_ext. intros c. apply dot_comm. }
  assert (Hpp : dot p p = dot z z).
  { unfold p at 1. rewrite (dot_lincomb d z C p Hrows), Rsum_map2_factor.
    f_equal. rewrite (map_ext (fun c => dot c p) (dot p))
      by (intros c; apply dot_comm).
    unfold p. apply project_lincomb; trivial. apply length_map. }
  rewrite (dot_vsub u p) by congruence.
  rewrite (dot_comm u (vsub u p)), (dot_comm p (vsub u p)).
  rewrite !(dot_vsub u p) by congruence.
  rewrite (dot_comm u p), Hpu, Hpp. lra.
Qed.

Lemma sum_squares_nonneg (v : vec) : 0 <= Rsum (map (fun r => r ^ 2) v).
Proof. rewrite sum_squares_dot. apply dot_self_nonneg. Qed.

Lemma euclidean_norm_dot (v : vec) : euclidean_norm v = sqrt (dot v v).
Proof. unfold euclidean_norm. now rewrite sum_squares_dot. Qed.

Lemma sum_squares_vsub_zero (x r : vec) :
  length x = length r ->
  Rsum (map (fun t => t ^ 2) (vsub x r)) = 0 -> r = x.
Proof.
  revert r. induction x as [|a x IH]; intros [|b r] Hlen H; simpl in Hlen;
    try discriminate; trivial.
  change (Rsum (map (fun t => t ^ 2) (vsub (a :: x) (b :: r))))
    with (Rsum ((a - b) ^ 2 :: map (fun t => t ^ 2) (vsub x r))) in H.
  rewrite Rsum_cons in H.
  pose proof (sum_squares_nonneg (vsub x r)) as Hrest.
  pose proof (pow2_ge_0 (a - b)) as Hsq.
  assert (Hab : (a - b) ^ 2 = 0) by lra.
  assert (Hr : Rsum (map (fun t => t ^ 2) (vsub x r)) = 0) by lra.
  rewrite (IH r) by (trivial; lia). f_equal.
  assert (a - b = 0).
  { apply Rsqr_0_uniq. unfold Rsqr. simpl in Hab. lra. }
  lra.
Qed.

Lemma euclidean_norm_vsub_zero (x r : vec) :
  length x = length r -> (euclidean_norm (vsub x r) = 0 <-> r = x).
Proof.
  intros Hlen. split.
  - intros H. apply sum_squares_vsub_zero; trivial.
    apply sqrt_eq_0; [apply sum_squares_nonneg|exact H].
  - intros ->. apply euclidean_norm_self.
Qed.

(** X9.  With orthonormal components, [reconstruct] is a projection:
    reconstructing a reconstruction returns it unchanged, and every
    reconstructed sample has anomaly score zero. *)
Theorem reconstruct_is_idempotent
    (self : PCA.t) (a : Decomposition.attrs) (X : matrix) :
  let w := Decomposition.whiten (Decomposition.kw (PCA._pca self)) in
  Decomposition.fitted (PCA._pca self) = Some a ->
  attrs_shape_ok a ->
  orthonormal_rows (Decomposition.components_ a) ->
  (w = true -> Forall (fun v => 0 < v) (Decomposition.explained_variance_ a)) ->
  check_array X = Ok X ->
  n_features X = length (Decomposition.mean_ a) ->
  exists X_rec,
    PCA.reconstruct X self = (Ok X_rec, self)
    /\ PCA.reconstruct X_rec self = (Ok X_rec, self)
    /\ PCA.anomaly_score (Some X_rec) self = (Ok (map (fun _ => 0) X), self).
Proof.
  intros w Hf Hs Ho Hw HX Hd.
  exists (map (reconstruct_row w a) X).
  destruct (check_array_map (reconstruct_row w a) X HX) as [HXr Hdr].
  { intros x. rewrite reconstruct_row_length by assumption. now rewrite Hd. }
  rewrite Hd in Hdr.
  split; [apply (reconstruct_ok self a X Hf Hs HX Hd)|]. split.
  - rewrite (reconstruct_ok self a _ Hf Hs HXr Hdr). fold w.
    rewrite map_map.
    rewrite (map_ext _ _ (fun x => reconstruct_row_idempotent w a x Hs Ho Hw)).
    reflexivity.
  - rewrite (reconstruction_anomaly_score_ok self a (Some _) _ Hf Hs eq_refl HXr Hdr).
    fold w. rewrite map_map. f_equal. f_equal. apply map_ext. intros x.
    rewrite (reconstruct_row_idempotent w a x Hs Ho Hw).
    apply euclidean_norm_self.
Qed.

(** X10.  With orthonormal components, the squared anomaly score of a
    sample plus the sum of its squared coefficients along the
    components is its squared distance from the training mean
    (Pythagoras); so the score never exceeds the distance from the
    mean. *)
Theorem residual_bounded_by_distance_to_mean
    (self : PCA.t) (a : Decomposition.attrs) (X : matrix) :
  let w := Decomposition.whiten (Decomposition.kw (PCA._pca self)) in
  Decomposition.fitted (PCA._pca self) = Some a ->
  attrs_shape_ok a ->
  orthonormal_rows (Decomposition.components_ a) ->
  (w = true -> Forall (fun v => 0 < v) (Decomposition.explained_variance_ a)) ->
  check_array X = Ok X ->
  n_features X = length (Decomposition.mean_ a) ->
  exists scores,
    PCA.anomaly_score (Some X) self = (Ok scores, self)
    /\ forall i, (i < length X)%nat ->
         let u := vsub (nth i X []) (Decomposition.mean_ a) in
         let z := map (dot u) (Decomposition.components_ a) in
         nth i scores 0 ^ 2 + euclidean_norm z ^ 2 = euclidean_norm u ^ 2
         /\ nth i scores 0 <= euclidean_norm u.
Proof.
  intros w Hf Hs Ho Hw HX Hd.
  eexists. split;
    [apply (reconstruction_anomaly_score_ok self a (Some X) X Hf Hs eq_refl HX Hd)|].
  intros i Hi u z. fold w.
  rewrite (nth_map_in_range
             (fun x => euclidean_norm (vsub x (reconstruct_row w a x))) X i [] 0 Hi).
  set (x := nth i X []) in *.
  assert (Hx : length x = length (Decomposition.mean_ a)).
  { destruct (check_array_inv X X HX) as (_ & _ & _ & Hrect).
    rewrite Forall_forall in Hrect. rewrite <- Hd. apply Hrect, nth_In, Hi. }
  assert (Hplain : reconstruct_row w a x = reconstruct_row false a x).
  { destruct w eqn:Ew; [|reflexivity]. apply reconstruct_row_whitened; auto. }
  rewrite Hplain.
  pose proof (residual_pythagoras a x Hs Ho Hx) as Hpy. cbv zeta in Hpy.
  fold u in Hpy. fold z in Hpy.
  pose proof (dot_self_nonneg z) as Hz.
  split.
  - rewrite !euclidean_norm_sqr, Hpy. lra.
  - rewrite !euclidean_norm_dot, Hpy. apply sqrt_le_1_alt. lra.
Qed.

(** X11.  On a fitted reconstruction detector, a sample has anomaly
    score zero exactly when [reconstruct] returns it unchanged. *)
Theorem zero_score_iff_reconstructed_exactly
    (self : PCA.t) (a : Decomposition.attrs) (X : matrix) :
  Decomposition.fitted (PCA._pca self) = Some a ->
  attrs_shape_ok a ->
  check_array X = Ok X ->
  n_features X = length (Decomposition.mean_ a) ->
  exists X_rec scores,
    PCA.reconstruct X self = (Ok X_rec, self)
    /\ PCA.anomaly_score (Some X) self = (Ok scores, self)
    /\ forall i, (i < length X)%nat ->
         (nth i scores 0 = 0 <-> nth i X_rec [] = nth i X []).
Proof.
  intros Hf Hs HX Hd.
  set (w := Decomposition.whiten (Decomposition.kw (PCA._pca self))).
  eexists _, _.
  split; [apply (reconstruct_ok self a X Hf Hs HX Hd)|].
  split; [apply (reconstruction_anomaly_score_ok self a (Some X) X Hf Hs eq_refl HX Hd)|].
  intros i Hi. fold w.
  rewrite (nth_map_in_range (reconstruct_row w a) X i [] [] Hi).
  rewrite (nth_map_in_range
             (fun x => euclidean_norm (vsub x (reconstruct_row w a x))) X i [] 0 Hi).
  apply euclidean_norm_vsub_zero.
  rewrite reconstruct_row_length by assumption.
  destruct (check_array_inv X X HX) as (_ & _ & _ & Hrect).
  rewrite Forall_forall in Hrect. rewrite <- Hd. apply Hrect, nth_In, Hi.
Qed.

Lemma example_one_component_shape : attrs_shape_ok (Examples.pca_attrs 1).
Proof. split; [reflexivity|]. repeat constructor. Qed.

Lemma example_one_component_orthonormal :
  orthonormal_rows (Decomposition.components_ (Examples.pca_attrs 1)).
Proof.
  intros [|i] [|j] Hi Hj; simpl in *; try lia.
  unfold dot, Rsum, Np.sum; simpl; lra.
Qed.

Lemma reconstruct_is_idempotent_witness :
  exists X_rec,
    PCA.reconstruct Examples.X_train example_one_component
    = (Ok X_rec, example_one_component)
    /\ PCA.reconstruct X_rec example_one_component = (Ok X_rec, example_one_component)
    /\ PCA.anomaly_score (Some X_rec) example_one_component
       = (Ok [0; 0; 0; 0], example_one_component).
Proof.
  apply (reconstruct_is_idempotent example_one_component (Examples.pca_attrs 1)
           Examples.X_train eq_refl example_one_component_shape
           example_one_component_orthonormal).
  - discriminate.
  - reflexivity.
  - reflexivity.
Defined.

Lemma residual_bounded_by_distance_to_mean_witness :
  exists scores,
    PCA.anomaly_score (Some Examples.X_train) example_one_component
    = (Ok scores, example_one_component)
    /\ nth 2 scores 0 <= euclidean_norm (vsub [0; 1] [0; 0]).
Proof.
  destruct (residual_bounded_by_distance_to_mean example_one_component
              (Examples.pca_attrs 1) Examples.X_train eq_refl
              example_one_component_shape example_one_component_orthonormal)
    as (scores & Hrun & Hrow).
  - discriminate.
  - reflexivity.
  - reflexivity.
  - exists scores. split; [exact Hrun|].
    apply (Hrow 2%nat). simpl. lia.
Defined.

Lemma zero_score_iff_reconstructed_exactly_witness :
  exists X_rec scores,
    PCA.reconstruct Examples.X_train example_one_component
    = (Ok X_rec, example_one_component)
    /\ PCA.anomaly_score (Some Examples.X_train) example_one_component
       = (Ok scores, example_one_component)
    /\ (nth 0 scores 0 = 0 <-> nth 0 X_rec [] = [1; 0]).
Proof.
  destruct (zero_score_iff_reconstructed_exactly example_one_component
              (Examples.pca_attrs 1) Examples.X_train eq_refl
              example_one_component_shape eq_refl eq_refl)
    as (X_rec & scores & Hrec & Hrun & Hrow).
  exists X_rec, scores. split; [exact Hrec|]. split; [exact Hrun|].
  apply (Hrow 0%nat). simpl. lia.
Defined.

(** ** The mixture score against the mixture density *)

Section MixtureOrder.
Context {L : Libs}.

(** X12.  On a fitted mixture detector the anomaly score is a strictly
    decreasing function of the mixture density: of two samples with
    positive density, the one with the smaller density has the larger
    score. *)
Theorem mixture_score_decreases_with_density
    (self : GaussianMixtureOutlierDetector.t) (a : GaussianMixture.attrs)
    (X : matrix) :
  let comps := combine (GaussianMixture.weights_ a)
                 (combine (GaussianMixture.means_ a)
                    (GaussianMixture.covariances_ a)) in
  let density x :=
    Rsum (map (fun c => fst c * mvn_density x (fst (snd c)) (snd (snd c))) comps) in
  GaussianMixtureOutlierDetector.fitted self = Some a ->
  check_array X = Ok X ->
  Forall (component_ok (n_features X)) comps ->
  exists scores,
    GaussianMixtureOutlierDetector.anomaly_score X self = (Ok scores, self)
    /\ forall i j, (i < length X)%nat -> (j < length X)%nat ->
         0 < density (nth i X []) ->
         density (nth i X []) < density (nth j X []) ->
         nth j scores 0 < nth i scores 0.
Proof.
  intros comps density Hf HX Hc.
  eexists. split; [apply (mixture_anomaly_score_ok self a X Hf HX Hc)|].
  intros i j Hi Hj Hpos Hlt.
  rewrite (nth_map_in_range _ X i [] 0 Hi), (nth_map_in_range _ X j [] 0 Hj).
  apply Ropp_lt_contravar. now apply ln_increasing.
Qed.
End MixtureOrder.

Lemma example_density_at (x : vec) :
  Rsum (map (fun c : R * (vec * matrix) =>
               fst c * Examples.isotropic_density x (fst (snd c)) (snd (snd c)))
          (combine (GaussianMixture.weights_ Examples.gm_attrs)
             (combine (GaussianMixture.means_ Examples.gm_attrs)
                (GaussianMixture.covariances_ Examples.gm_attrs))))
  = Examples.isotropic_density x [0; 0]
      [[1/2 + 1/1000000; 0]; [0; 1/2 + 1/1000000]].
Proof. unfold Rsum, Np.sum. simpl. lra. Qed.

Lemma example_density_centre_and_rim :
  0 < Examples.isotropic_density [1; 0] [0; 0]
        [[1/2 + 1/1000000; 0]; [0; 1/2 + 1/1000000]]
    < Examples.isotropic_density [0; 0] [0; 0]
        [[1/2 + 1/1000000; 0]; [0; 1/2 + 1/1000000]].
Proof.
  unfold Examples.isotropic_density. simpl nth.
  set (v := 1/2 + 1/1000000).
  assert (Hv : 0 < v) by (unfold v; lra).
  assert (Hden : 0 < / (2 * PI * v)).
  { apply Rinv_0_lt_compat. pose proof PI_RGT_0. nra. }
  assert (H1 : dot (vsub [1; 0] [0; 0]) (vsub [1; 0] [0; 0]) = 1).
  { unfold dot, vsub, Rsum, Np.sum. simpl. lra. }
  assert (H0 : dot (vsub [0; 0] [0; 0]) (vsub [0; 0] [0; 0]) = 0).
  { unfold dot, vsub, Rsum, Np.sum. simpl. lra. }
  rewrite H1, H0.
  assert (Hinv : 0 < / (2 * v)) by (apply Rinv_0_lt_compat; lra).
  match goal with
  | |- 0 < exp ?e1 / _ < exp ?e0 / _ =>
      assert (Hexp : exp e1 < exp e0)
        by (apply exp_increasing; unfold Rdiv; nra);
      pose proof (exp_pos e1) as Hpos;
      set (E1 := exp e1) in *; set (E0 := exp e0) in *
  end.
  unfold Rdiv. split; nra.
Qed.

Lemma mixture_score_decreases_with_density_witness :
  exists scores,
    GaussianMixtureOutlierDetector.anomaly_score (L := Examples.libs)
      [[0; 0]; [1; 0]] (Examples.mixture_fitted (1/100))
    = (Ok scores, Examples.mixture_fitted (1/100))
    /\ nth 0 scores 0 < nth 1 scores 0.
Proof.
  destruct (mixture_score_decreases_with_density (L := Examples.libs)
              (Examples.mixture_fitted (1/100)) Examples.gm_attrs [[0; 0]; [1; 0]]
              eq_refl eq_refl example_mixture_components)
    as (scores & Hrun & Horder).
  exists scores. split; [exact Hrun|].
  apply (Horder 1%nat 0%nat); simpl length; try lia.
  - change (@mvn_density Examples.libs) with Examples.isotropic_density.
    simpl nth. rewrite example_density_at. apply example_density_centre_and_rim.
  - change (@mvn_density Examples.libs) with Examples.isotropic_density.
    simpl nth. rewrite !example_density_at. apply example_density_centre_and_rim.
Defined.

(** * Properties of [plot_anomaly_score] *)

Lemma fold_Rmax_ge_init (t : vec) (x : R) : x <= fold_left Rmax t x.
Proof.
  revert x. induction t as [|y t IH]; intros x; simpl; [lra|].
  apply Rle_trans with (Rmax x y); [apply Rmax_l|apply IH].
Qed.

Lemma fold_Rmax_ge (t : vec) (x s : R) : In s t -> s <= fold_left Rmax t x.
Proof.
  revert x. induction t as [|y t IH]; intros x Hin; simpl in *; [contradiction|].
  destruct Hin as [<-|Hin]; [|now apply IH].
  apply Rle_trans with (Rmax x y); [apply Rmax_r|apply fold_Rmax_ge_init].
Qed.

Lemma py_max_ge (v : vec) (m : R) :
  Pyplot.py_max v = Ok m -> Forall (fun s => s <= m) v.
Proof.
  destruct v as [|x t]; simpl; [discriminate|]. intros H. injection H as <-.
  constructor; [apply fold_Rmax_ge_init|].
  apply Forall_forall. intros s Hs. now apply fold_Rmax_ge.
Qed.

Lemma arange_length (n : nat) : length (Pyplot.arange n) = n.
Proof. unfold Pyplot.arange. now rewrite length_map, length_seq. Qed.

Lemma arange_bounds (n : nat) :
  Forall (fun x => -1 < x < INR n) (Pyplot.arange n).
Proof.
  unfold Pyplot.arange. apply Forall_forall. intros x Hx.
  apply in_map_iff in Hx. destruct Hx as [k [<- Hk]].
  apply in_seq in Hk. split.
  - pose proof (pos_INR k). lra.
  - apply lt_INR. lia.
Qed.

Lemma zip_bars_x (xs hs : vec) (cs : list String.string) :
  length hs = length xs -> length cs = length xs ->
  map Pyplot.bar_x (Pyplot.zip_bars xs hs cs) = xs.
Proof.
  revert hs cs. induction xs as [|x xs IH]; intros [|h hs] [|c cs] Hh Hc;
    simpl in *; try discriminate; trivial.
  f_equal. apply IH; lia.
Qed.

Lemma zip_bars_height (xs hs : vec) (cs : list String.string) :
  length hs = length xs -> length cs = length xs ->
  map Pyplot.bar_height (Pyplot.zip_bars xs hs cs) = hs.
Proof.
  revert hs cs. induction xs as [|x xs IH]; intros [|h hs] [|c cs] Hh Hc;
    simpl in *; try discriminate; trivial.
  f_equal. apply IH; lia.
Qed.

Lemma zip_bars_color (xs hs : vec) (cs : list String.string) :
  length hs = length xs -> length cs = length xs ->
  map Pyplot.bar_color (Pyplot.zip_bars xs hs cs) = cs.
Proof.
  revert hs cs. induction xs as [|x xs IH]; intros [|h hs] [|c cs] Hh Hc;
    simpl in *; try discriminate; trivial.
  f_equal. apply IH; lia.
Qed.

(** The optional setters keep what was drawn and the limits. *)
Lemma set_if_run {A} (set : A -> Pyplot.Axes -> Pyplot.Axes) (v : option A)
    (ax : option Pyplot.Axes) :
  Pyplot.set_if set v ax
  = (Ok tt, match v with Some a => option_map (set a) ax | None => ax end).
Proof. destruct v; reflexivity. Qed.

(** [plot_anomaly_score] as one case analysis. *)
Lemma plot_anomaly_score_run (det : Pyplot.detector) (X : option matrix)
    (title : option String.string) (xlim ylim : option (R * R))
    (xlabel ylabel : option String.string) (grid : bool)
    (ax0 : option Pyplot.Axes) :
  Pyplot.plot_anomaly_score det X title xlim ylim xlabel ylabel grid ax0 =
  match plotted_samples det X with
  | Raise e => (Raise e, ax0)
  | Ok n =>
      match Pyplot.anomaly_score det X with
      | Raise e => (Raise e, ax0)
      | Ok scores =>
          match Pyplot.detect det X with
          | Raise e => (Raise e, ax0)
          | Ok labels =>
              let ax1 := match ax0 with None => Pyplot.subplots | Some a => a end in
              let xl := match xlim with None => (-1, INR n) | Some l => l end in
              match (match ylim with
                     | None =>
                         rbind (Pyplot.py_max scores) (fun m =>
                         rbind (Pyplot.getattr (Pyplot.threshold_ det)) (fun t =>
                         Ok (0, 1.1 * Rmax m t)))
                     | Some l => Ok l
                     end) with
              | Raise e => (Raise e, Some ax1)
              | Ok yl =>
                  let ax2 := framed ax1 title xlabel ylabel xl yl grid in
                  if (Nat.eqb (length scores) (length (Pyplot.arange n))
                      && Nat.eqb (length (Pyplot.colors labels))
                           (length (Pyplot.arange n)))%bool
                  then
                    let ax3 := Pyplot.add_bars
                                 (Pyplot.zip_bars (Pyplot.arange n) scores
                                    (Pyplot.colors labels)) ax2 in
                    match Pyplot.getattr (Pyplot.threshold_ det) with
                    | Raise e => (Raise e, Some ax3)
                    | Ok t =>
                        (Ok tt,
                         Some (Pyplot.add_hline
                                 {| Pyplot.hline_y := t;
                                    Pyplot.hline_xmin := fst xl;
                                    Pyplot.hline_xmax := snd xl |} ax3))
                    end
                  else (Raise ValueError, Some ax2)
              end
          end
      end
  end.
Proof.
  unfold Pyplot.plot_anomaly_score, plotted_samples, bind, lift, modify.
  destruct (match X with
            | Some X0 => Ok (length X0)
            | None => rbind (Pyplot.getattr (Pyplot._fit_X det))
                        (fun F => Ok (length F))
            end) as [n|e]; [|reflexivity].
  destruct (Pyplot.anomaly_score det X) as [scores|e]; [|reflexivity].
  destruct (Pyplot.detect det X) as [labels|e]; [|reflexivity].
  cbv zeta.
  assert (Hax : match ax0 with Some _ => ax0 | None => Some Pyplot.subplots end
                = Some (match ax0 with None => Pyplot.subplots | Some a => a end)).
  { destruct ax0; reflexivity. }
  rewrite Hax.
  destruct (match ylim with
            | Some l => Ok l
            | None => _
            end) as [yl|e]; [|reflexivity].
  rewrite !set_if_run. unfold Pyplot.on_ax, Pyplot.ax_bar, modify, Pyplot.on_ax, lift.
  unfold framed, set_opt.
  destruct (_ && _)%bool.
  - unfold modify.
    destruct (Pyplot.getattr (Pyplot.threshold_ det)) as [t|e];
      destruct xlabel, ylabel, title; reflexivity.
  - destruct xlabel, ylabel, title; reflexivity.
Qed.

Lemma colors_length (labels : list Z) :
  length (Pyplot.colors labels) = length labels.
Proof. apply length_map. Qed.

Lemma one_per_sample_lengths (det : Pyplot.detector) (X : option matrix)
    (n : nat) (scores : vec) (labels : list Z) :
  one_per_sample det X ->
  plotted_samples det X = Ok n ->
  Pyplot.anomaly_score det X = Ok scores ->
  Pyplot.detect det X = Ok labels ->
  (Nat.eqb (length scores) (length (Pyplot.arange n))
   && Nat.eqb (length (Pyplot.colors labels)) (length (Pyplot.arange n)))%bool = true.
Proof.
  intros H Hn Hs Hl. destruct (H n scores labels Hn Hs Hl) as [H1 H2].
  rewrite arange_length, colors_length, H1, H2, Nat.eqb_refl. reflexivity.
Qed.

Lemma framed_bars (ax : Pyplot.Axes) (title xlabel ylabel : option String.string)
    (xl yl : R * R) (grid : bool) :
  Pyplot.bars (framed ax title xlabel ylabel xl yl grid) = Pyplot.bars ax
  /\ Pyplot.hlines (framed ax title xlabel ylabel xl yl grid) = Pyplot.hlines ax.
Proof. destruct title, xlabel, ylabel; split; reflexivity. Qed.

Lemma subplots_or_given_bars (ax0 : option Pyplot.Axes) :
  Pyplot.bars (match ax0 with None => Pyplot.subplots | Some a => a end) = bars_of ax0
  /\ Pyplot.hlines (match ax0 with None => Pyplot.subplots | Some a => a end)
     = hlines_of ax0.
Proof. destruct ax0; split; reflexivity. Qed.

(** X13.  A call of [plot_anomaly_score] with [xlim] and [ylim] omitted
    that returns has added one bar per sample, at the positions
    [0 .. n-1] and with the scores as heights, and one horizontal line
    at the threshold reaching from [-1] to [n]; the x-limits [(-1, n)]
    hold every bar strictly inside; the y-limits start at 0, and when
    the scores and the threshold are nonnegative their upper end is at
    or above every bar and the threshold. *)
Theorem default_plot_shows_every_score (det : Pyplot.detector) (X : option matrix)
    (title xlabel ylabel : option String.string) (grid : bool)
    (ax0 ax' : option Pyplot.Axes) :
  one_per_sample det X ->
  Pyplot.plot_anomaly_score det X title None None xlabel ylabel grid ax0 = (Ok tt, ax') ->
  exists n scores labels t top ax new,
    ax' = Some ax
    /\ plotted_samples det X = Ok n
    /\ Pyplot.anomaly_score det X = Ok scores
    /\ Pyplot.detect det X = Ok labels
    /\ Pyplot.threshold_ det = Some t
    /\ Pyplot.bars ax = bars_of ax0 ++ new
    /\ map Pyplot.bar_x new = Pyplot.arange n
    /\ map Pyplot.bar_height new = scores
    /\ map Pyplot.bar_color new = Pyplot.colors labels
    /\ Pyplot.hlines ax
       = hlines_of ax0 ++ [{| Pyplot.hline_y := t; Pyplot.hline_xmin := -1;
                              Pyplot.hline_xmax := INR n |}]
    /\ Pyplot.xlim ax = Some (-1, INR n)
    /\ Pyplot.ylim ax = Some (0, top)
    /\ Forall (fun x => -1 < x < INR n) (map Pyplot.bar_x new)
    /\ (Forall (fun s => 0 <= s) scores -> 0 <= t ->
        Forall (fun s => 0 <= s <= top) scores /\ 0 <= t <= top).
Proof.
  intros Hone. rewrite plot_anomaly_score_run.
  destruct (plotted_samples det X) as [n|e] eqn:Hn; [|discriminate].
  destruct (Pyplot.anomaly_score det X) as [scores|e] eqn:Hs; [|discriminate].
  destruct (Pyplot.detect det X) as [labels|e] eqn:Hl; [|discriminate].
  cbv zeta.
  destruct (Pyplot.py_max scores) as [m|e] eqn:Hm; [|discriminate]. simpl rbind.
  destruct (Pyplot.threshold_ det) as [t|] eqn:Ht; [|discriminate]. simpl.
  rewrite (one_per_sample_lengths det X n scores labels Hone Hn Hs Hl).
  intros H. injection H as <-.
  destruct (Hone n scores labels Hn Hs Hl) as [H1 H2].
  assert (Hxs : map Pyplot.bar_x
                  (Pyplot.zip_bars (Pyplot.arange n) scores (Pyplot.colors labels))
                = Pyplot.arange n).
  { apply zip_bars_x; rewrite ?colors_length, arange_length; congruence. }
  eexists n, scores, labels, t, _, _, _.
  split; [reflexivity|]. repeat (split; [reflexivity|]).
  split.
  { cbn [Pyplot.add_hline Pyplot.add_bars Pyplot.bars].
    rewrite (proj1 (framed_bars _ _ _ _ _ _ _)), (proj1 (subplots_or_given_bars ax0)).
    reflexivity. }
  split; [exact Hxs|].
  split.
  { apply zip_bars_height; rewrite ?colors_length, arange_length; congruence. }
  split.
  { apply zip_bars_color; rewrite ?colors_length, arange_length; congruence. }
  split.
  { cbn [Pyplot.add_hline Pyplot.add_bars Pyplot.hlines].
    rewrite (proj2 (framed_bars _ _ _ _ _ _ _)), (proj2 (subplots_or_given_bars ax0)).
    reflexivity. }
  split; [reflexivity|]. split; [reflexivity|].
  split.
  { rewrite Hxs. apply arange_bounds. }
  intros Hpos Ht0.
  pose proof (py_max_ge scores m Hm) as Hmax.
  assert (Hm0 : 0 <= Rmax m t).
  { apply Rle_trans with t; [exact Ht0|apply Rmax_r]. }
  split.
  - apply Forall_forall. intros s Hin.
    rewrite Forall_forall in Hpos, Hmax.
    pose proof (Hpos s Hin). pose proof (Hmax s Hin).
    pose proof (Rmax_l m t). lra.
  - pose proof (Rmax_r m t). lra.
Qed.

(** X15.  With [ylim] supplied and a detector whose threshold does not
    exist yet, [plot_anomaly_score] raises [AttributeError] only at its
    last statement: labels, limits, grid and all bars have been drawn on
    the axes by then, and no horizontal line. *)
Theorem plot_without_threshold_draws_then_raises (det : Pyplot.detector)
    (X : option matrix) (title xlabel ylabel : option String.string)
    (xlim : option (R * R)) (yl : R * R) (grid : bool)
    (ax0 : option Pyplot.Axes) (n : nat) (scores : vec) (labels : list Z) :
  plotted_samples det X = Ok n ->
  Pyplot.anomaly_score det X = Ok scores ->
  Pyplot.detect det X = Ok labels ->
  length scores = n ->
  length labels = n ->
  Pyplot.threshold_ det = None ->
  exists ax new,
    Pyplot.plot_anomaly_score det X title xlim (Some yl) xlabel ylabel grid ax0
    = (Raise AttributeError, Some ax)
    /\ Pyplot.bars ax = bars_of ax0 ++ new
    /\ map Pyplot.bar_height new = scores
    /\ Pyplot.ylim ax = Some yl
    /\ Pyplot.grid ax = Some grid
    /\ Pyplot.hlines ax = hlines_of ax0.
Proof.
  intros Hn Hs Hl H1 H2 Ht. rewrite plot_anomaly_score_run, Hn, Hs, Hl. cbv zeta.
  rewrite arange_length, colors_length, H1, H2, Nat.eqb_refl, Ht. simpl.
  eexists _, _. split; [reflexivity|].
  split.
  { cbn [Pyplot.add_bars Pyplot.bars].
    rewrite (proj1 (framed_bars _ _ _ _ _ _ _)), (proj1 (subplots_or_given_bars ax0)).
    reflexivity. }
  split.
  { apply zip_bars_height; rewrite ?colors_length, arange_length; congruence. }
  split; [reflexivity|]. split; [reflexivity|].
  cbn [Pyplot.add_bars Pyplot.hlines].
  rewrite (proj2 (framed_bars _ _ _ _ _ _ _)), (proj2 (subplots_or_given_bars ax0)).
  reflexivity.
Qed.

Lemma example_plot_detector_one_per_sample (threshold : option R) :
  one_per_sample (example_plot_detector threshold) None.
Proof.
  intros n scores labels Hn Hs Hl. simpl in Hn, Hs, Hl.
  injection Hn as <-. injection Hs as <-. injection Hl as <-. split; reflexivity.
Qed.

Lemma default_plot_shows_every_score_witness :
  exists ax,
    Pyplot.plot_anomaly_score (example_plot_detector (Some (3/2))) None
      None None None None None true None
    = (Ok tt, Some ax)
    /\ map Pyplot.bar_height (Pyplot.bars ax) = [0; 1; 2; 1/2]
    /\ Pyplot.xlim ax = Some (-1, 4).
Proof.
  destruct (Pyplot.plot_anomaly_score (example_plot_detector (Some (3/2))) None
              None None None None None
              true None) as [r ax'] eqn:Hrun.
  assert (Hr : r = Ok tt).
  { rewrite plot_anomaly_score_run in Hrun. simpl in Hrun. now injection Hrun as <- _. }
  subst r.
  destruct (default_plot_shows_every_score _ _ _ _ _ _ _ _
              (example_plot_detector_one_per_sample (Some (3/2))) Hrun)
    as (n & scores & labels & t & top & ax & new & -> & Hn & Hs & _ & _ & Hb & _ & Hh
        & _ & _ & Hx & _).
  simpl in Hn, Hs. injection Hn as <-. injection Hs as <-.
  exists ax. split; [reflexivity|]. split.
  - rewrite Hb. simpl. exact Hh.
  - rewrite Hx. simpl. apply f_equal, f_equal2; [reflexivity|lra].
Defined.

Lemma plot_without_threshold_draws_then_raises_witness :
  exists ax,
    Pyplot.plot_anomaly_score (example_plot_detector None) None
      None None (Some (0, 3)) None None true None
    = (Raise AttributeError, Some ax)
    /\ map Pyplot.bar_height (Pyplot.bars ax) = [0; 1; 2; 1/2]
    /\ Pyplot.hlines ax = [].
Proof.
  destruct (plot_without_threshold_draws_then_raises (example_plot_detector None) None
              None None None None (0, 3) true None 4 [0; 1; 2; 1/2]
              [0%Z; 0%Z; 1%Z; 0%Z] eq_refl eq_refl eq_refl eq_refl eq_refl eq_refl)
    as (ax & new & Hrun & Hb & Hh & _ & _ & Hl).
  exists ax. split; [exact Hrun|]. split.
  - rewrite Hb. simpl. exact Hh.
  - exact Hl.
Defined.

(** * Properties of the dataset loaders *)

(** ** Index arrays *)

Lemma enumerate_in {A} (a : list A) (k i : nat) (x : A) :
  In (i, x) (combine (seq k (length a)) a)
  <-> (k <= i)%nat /\ nth_error a (i - k) = Some x.
Proof.
  revert k. induction a as [|y a IH]; intros k; simpl.
  - split; [tauto|]. intros [_ H]. destruct (i - k)%nat; discriminate.
  - rewrite IH. split.
    + intros [H|[Hk H]].
      * injection H as <- <-. split; [lia|]. now rewrite Nat.sub_diag.
      * split; [lia|]. replace (i - k)%nat with (S (i - S k)) by lia. exact H.
    + intros [Hk H]. destruct (Nat.eq_dec k i) as [<-|Hne].
      * rewrite Nat.sub_diag in H. simpl in H. injection H as <-. now left.
      * right. split; [lia|].
        replace (i - k)%nat with (S (i - S k)) in H by lia. exact H.
Qed.

Lemma enumerate_sorted {A} (f : nat * A -> bool) (a : list A) (k : nat) :
  StronglySorted lt (map fst (filter f (combine (seq k (length a)) a))).
Proof.
  revert k. induction a as [|y a IH]; intros k; simpl.
  - constructor.
  - destruct (f (k, y)); simpl; [|apply IH].
    constructor; [apply IH|].
    apply Forall_forall. intros i Hi.
    apply in_map_iff in Hi. destruct Hi as ([j x] & <- & Hin).
    apply filter_In in Hin. destruct Hin as [Hin _].
    apply enumerate_in in Hin. simpl. lia.
Qed.

Lemma flatnonzero_in (mask : list bool) (i : nat) :
  In i (Datasets.flatnonzero mask) <-> nth_error mask i = Some true.
Proof.
  unfold Datasets.flatnonzero. rewrite in_map_iff. split.
  - intros ([j b] & <- & Hin). apply filter_In in Hin. destruct Hin as [Hin Hb].
    simpl in Hb. subst b. apply enumerate_in in Hin. simpl.
    now rewrite Nat.sub_0_r in Hin.
  - intros H. exists (i, true). split; [reflexivity|].
    apply filter_In. split; [|reflexivity].
    apply enumerate_in. rewrite Nat.sub_0_r. split; [lia|exact H].
Qed.

Lemma flatnonzero_sorted (mask : list bool) :
  StronglySorted lt (Datasets.flatnonzero mask).
Proof. apply enumerate_sorted. Qed.

Lemma flatnonzero_map_in {A} (p : A -> bool) (a : list A) (d : A) (i : nat) :
  In i (Datasets.flatnonzero (map p a))
  <-> (i < length a)%nat /\ p (nth i a d) = true.
Proof.
  rewrite flatnonzero_in, nth_error_map. split.
  - destruct (nth_error a i) as [x|] eqn:E; [|discriminate].
    simpl. intros H. injection H as H. split.
    + apply nth_error_Some. congruence.
    + now rewrite (nth_error_nth _ _ d E).
  - intros [Hi H]. rewrite (nth_error_nth' a d Hi). simpl. now rewrite H.
Qed.

Lemma insert_unique_in (i j : nat) (s : list nat) :
  In j (Datasets.insert_unique i s) <-> j = i \/ In j s.
Proof.
  induction s as [|k s IH]; simpl.
  - intuition.
  - destruct (i <? k)%nat eqn:E1; simpl; [intuition|].
    destruct (i =? k)%nat eqn:E2; simpl.
    + apply Nat.eqb_eq in E2. subst k. intuition.
    + rewrite IH. intuition.
Qed.

Lemma insert_unique_sorted (i : nat) (s : list nat) :
  StronglySorted lt s -> StronglySorted lt (Datasets.insert_unique i s).
Proof.
  induction 1 as [|k s Hs IH Hk]; simpl.
  - repeat constructor.
  - destruct (i <? k)%nat eqn:E1.
    + apply Nat.ltb_lt in E1. constructor; [now constructor|].
      constructor; [exact E1|]. eapply Forall_impl; [|exact Hk]. simpl. lia.
    + destruct (i =? k)%nat eqn:E2; [now constructor|].
      apply Nat.ltb_ge in E1. apply Nat.eqb_neq in E2.
      constructor; [exact IH|].
      apply Forall_forall. intros j Hj. apply insert_unique_in in Hj.
      destruct Hj as [->|Hj]; [lia|].
      rewrite Forall_forall in Hk. now apply Hk.
Qed.

Lemma insert_unique_length (i : nat) (s : list nat) :
  (length (Datasets.insert_unique i s) <= S (length s))%nat
  /\ (~ In i s -> length (Datasets.insert_unique i s) = S (length s)).
Proof.
  induction s as [|k s [IH1 IH2]]; simpl.
  - split; [lia|reflexivity].
  - destruct (i <? k)%nat eqn:E1; simpl; [split; [lia|reflexivity]|].
    destruct (i =? k)%nat eqn:E2; simpl.
    + apply Nat.eqb_eq in E2. split; [lia|]. intros H. exfalso. apply H. now left.
    + split; [lia|]. intros H. rewrite IH2; [reflexivity|]. intros Hin. apply H. now right.
Qed.

Lemma unique_index_in (l : list nat) (i : nat) :
  In i (Datasets.unique_index l) <-> In i l.
Proof.
  induction l as [|k l IH]; simpl; [tauto|].
  rewrite insert_unique_in, IH. intuition.
Qed.

Lemma unique_index_sorted (l : list nat) :
  StronglySorted lt (Datasets.unique_index l).
Proof.
  induction l as [|k l IH]; simpl; [constructor|].
  now apply insert_unique_sorted.
Qed.

Lemma unique_index_length (l : list nat) :
  (length (Datasets.unique_index l) <= length l)%nat
  /\ (NoDup l -> length (Datasets.unique_index l) = length l).
Proof.
  induction l as [|k l [IH1 IH2]]; simpl; [split; [lia|reflexivity]|].
  destruct (insert_unique_length k (Datasets.unique_index l)) as [H1 H2].
  split; [lia|]. intros Hnd. inversion Hnd as [|? ? Hk Hl]; subst.
  rewrite H2, IH2; trivial. now rewrite unique_index_in.
Qed.

Lemma unique_index_of_sorted (l : list nat) :
  StronglySorted lt l -> Datasets.unique_index l = l.
Proof.
  induction 1 as [|k l Hs IH Hk]; simpl; [reflexivity|].
  rewrite IH. destruct l as [|j l]; [reflexivity|]. simpl.
  inversion Hk as [|? ? Hj _]; subst.
  apply Nat.ltb_lt in Hj. now rewrite Hj.
Qed.

Lemma union1d_in (a b : list nat) (i : nat) :
  In i (Datasets.union1d a b) <-> In i a \/ In i b.
Proof. unfold Datasets.union1d. now rewrite unique_index_in, in_app_iff. Qed.

Lemma union1d_sorted (a b : list nat) : StronglySorted lt (Datasets.union1d a b).
Proof. apply unique_index_sorted. Qed.

Lemma union1d_length (a b : list nat) :
  (length (Datasets.union1d a b) <= length a + length b)%nat.
Proof.
  unfold Datasets.union1d.
  pose proof (proj1 (unique_index_length (a ++ b))) as H.
  now rewrite length_app in H.
Qed.

Lemma sorted_lt_NoDup (l : list nat) : StronglySorted lt l -> NoDup l.
Proof.
  induction 1 as [|k l Hs IH Hk]; constructor; [|exact IH].
  intros Hin. rewrite Forall_forall in Hk. specialize (Hk k Hin). lia.
Qed.

(** ** Indexing by a sorted index array *)

Lemma mem_index_true (s : list nat) (i : nat) : mem_index s i = true <-> In i s.
Proof.
  unfold mem_index. rewrite existsb_exists. split.
  - intros (j & Hj & E). apply Nat.eqb_eq in E. now subst.
  - intros H. exists i. split; [exact H|apply Nat.eqb_refl].
Qed.

Lemma take_nth {A} (a : list A) (s : list nat) (d : A) :
  (forall i, In i s -> (i < length a)%nat) ->
  Datasets.take a s = Datasets.Ok (map (fun i => nth i a d) s).
Proof.
  unfold Datasets.take. induction s as [|i s IH]; intros H; simpl; [reflexivity|].
  unfold Datasets.getitem at 1.
  rewrite (nth_error_nth' a d (H i (or_introl eq_refl))). simpl.
  rewrite IH; [reflexivity|]. intros j Hj. apply H. now right.
Qed.

Lemma sorted_index_rows {A} (a : list A) (d : A) (s : list nat) (k : nat) :
  StronglySorted lt s ->
  (forall i, In i s -> (k <= i < k + length a)%nat) ->
  map (fun i => nth (i - k) a d) s
  = map snd (filter (fun p => mem_index s (fst p)) (combine (seq k (length a)) a)).
Proof.
  revert s k. induction a as [|x a IH]; intros s k Hs Hr.
  - destruct s as [|i s]; [reflexivity|].
    specialize (Hr i (or_introl eq_refl)). simpl in Hr. lia.
  - destruct s as [|i s].
    + replace (filter (fun p : nat * A => mem_index [] (fst p))
                 (combine (seq k (length (x :: a))) (x :: a))) with (@nil (nat * A));
        [reflexivity|].
      symmetry. generalize (combine (seq k (length (x :: a))) (x :: a)).
      intros l. induction l as [|q l IHl]; [reflexivity|exact IHl].
    + cbn [length seq combine filter].
      inversion Hs as [|? ? Hs' Hi]; subst. rewrite Forall_forall in Hi.
      assert (Htail : forall t, StronglySorted lt t ->
                (forall j, In j t -> (S k <= j < S k + length a)%nat) ->
                map (fun j => nth (j - k) (x :: a) d) t
                = map snd (filter (fun p => mem_index t (fst p))
                             (combine (seq (S k) (length a)) a))).
      { intros t Ht Hrt. rewrite <- (IH t (S k) Ht Hrt).
        apply map_ext_in. intros j Hj. specialize (Hrt j Hj).
        replace (j - k)%nat with (S (j - S k)) by lia. reflexivity. }
      destruct (Nat.eq_dec i k) as [->|Hne].
      * replace (mem_index (k :: s) (fst (k, x))) with true
          by (simpl; now rewrite Nat.eqb_refl).
        cbn [map snd]. rewrite Nat.sub_diag.
        change (nth 0 (x :: a) d) with x. f_equal.
        rewrite (Htail s Hs').
        2:{ intros j Hj. specialize (Hi j Hj). specialize (Hr j (or_intror Hj)).
            simpl in Hr. lia. }
        f_equal. apply filter_ext_in. intros [j y] Hj.
        apply enumerate_in in Hj. unfold mem_index. cbn [existsb fst].
        replace (j =? k)%nat with false; [reflexivity|].
        symmetry. apply Nat.eqb_neq. lia.
      * assert (Hk : mem_index (i :: s) (fst (k, x)) = false).
        { apply not_true_is_false. intros H. apply mem_index_true in H.
          simpl in H. destruct H as [H|H]; [congruence|].
          specialize (Hi k H). specialize (Hr i (or_introl eq_refl)). lia. }
        rewrite Hk. apply (Htail (i :: s) Hs).
        intros j [<-|Hj].
        -- specialize (Hr i (or_introl eq_refl)). simpl in Hr. lia.
        -- specialize (Hi j Hj). pose proof (Hr i (or_introl eq_refl)) as Hri.
           specialize (Hr j (or_intror Hj)). simpl in Hr. lia.
Qed.

Lemma take_sorted {A} (a : list A) (d : A) (s : list nat) :
  StronglySorted lt s ->
  (forall i, In i s -> (i < length a)%nat) ->
  map (fun i => nth i a d) s = rows_at (mem_index s) a.
Proof.
  intros Hs Hr. unfold rows_at. rewrite <- (sorted_index_rows a d s 0 Hs).
  - apply map_ext. intros i. now rewrite Nat.sub_0_r.
  - intros i Hi. specialize (Hr i Hi). lia.
Qed.

Lemma rows_at_ext {A} (f g : nat -> bool) (a : list A) :
  (forall i, (i < length a)%nat -> f i = g i) -> rows_at f a = rows_at g a.
Proof.
  intros H. unfold rows_at. f_equal. apply filter_ext_in. intros [i x] Hin.
  apply enumerate_in in Hin. destruct Hin as [_ Hin]. rewrite Nat.sub_0_r in Hin.
  simpl. apply H. apply nth_error_Some. congruence.
Qed.

Lemma filter_filter_and {A} (f g : A -> bool) (l : list A) :
  filter f (filter g l) = filter (fun x => g x && f x)%bool l.
Proof.
  induction l as [|x l IH]; simpl; [reflexivity|].
  destruct (g x); simpl; [destruct (f x)|]; now rewrite IH.
Qed.

Lemma rows_at_filter {A} (p : A -> bool) (keep : nat -> bool) (a : list A) (d : A) :
  filter p (rows_at keep a) = rows_at (fun i => keep i && p (nth i a d))%bool a.
Proof.
  unfold rows_at. rewrite filter_map_swap, filter_filter_and. f_equal.
  apply filter_ext_in. intros [i x] Hin.
  apply enumerate_in in Hin. destruct Hin as [_ Hin]. rewrite Nat.sub_0_r in Hin.
  simpl. now rewrite (nth_error_nth _ _ d Hin).
Qed.

Lemma map_snd_enumerate {A} (a : list A) (k : nat) :
  map snd (combine (seq k (length a)) a) = a.
Proof.
  revert k. induction a as [|x a IH]; intros k; simpl; [reflexivity|].
  now rewrite IH.
Qed.

Lemma rows_at_all {A} (p : A -> bool) (a : list A) (d : A) :
  rows_at (fun i => p (nth i a d)) a = filter p a.
Proof.
  transitivity (filter p (map snd (combine (seq 0 (length a)) a)));
    [|now rewrite map_snd_enumerate].
  rewrite filter_map_swap. unfold rows_at. f_equal. apply filter_ext_in. intros [i x] Hin.
  apply enumerate_in in Hin. destruct Hin as [_ Hin]. rewrite Nat.sub_0_r in Hin.
  simpl. now rewrite (nth_error_nth _ _ d Hin).
Qed.

Lemma flatnonzero_rows {A} (p : A -> bool) (a : list A) (d : A) :
  map (fun i => nth i a d) (Datasets.flatnonzero (map p a)) = filter p a.
Proof.
  rewrite (take_sorted a d); [|apply flatnonzero_sorted|].
  - rewrite <- (rows_at_all p a d). apply rows_at_ext. intros i Hi.
    apply eq_true_iff_eq. rewrite mem_index_true, (flatnonzero_map_in p a d). tauto.
  - intros i Hi. now apply (flatnonzero_map_in p a d) in Hi.
Qed.

Lemma flatnonzero_length {A} (p : A -> bool) (a : list A) :
  length (Datasets.flatnonzero (map p a)) = length (filter p a).
Proof.
  destruct a as [|d a]; [reflexivity|].
  rewrite <- (flatnonzero_rows p (d :: a) d). now rewrite length_map.
Qed.

Lemma firstn_in {A} (n : nat) (l : list A) (x : A) : In x (firstn n l) -> In x l.
Proof.
  intros H. rewrite <- (firstn_skipn n l). apply in_or_app. now left.
Qed.

Lemma firstn_sorted (n : nat) (l : list nat) :
  StronglySorted lt l -> StronglySorted lt (firstn n l).
Proof.
  intros H. revert n. induction H as [|k l Hs IH Hk]; intros [|n]; simpl;
    try constructor.
  - apply IH.
  - apply Forall_forall. intros j Hj. rewrite Forall_forall in Hk.
    apply Hk. now apply firstn_in in Hj.
Qed.

Lemma rows_at_in {A} (keep : nat -> bool) (a : list A) (x : A) :
  In x (rows_at keep a) -> In x a.
Proof.
  unfold rows_at. intros H. apply in_map_iff in H. destruct H as ([i y] & <- & H).
  apply filter_In in H. destruct H as [H _]. apply in_combine_r in H. exact H.
Qed.

(** ** Relabelling *)

Lemma assign_map {A B} (p : A -> bool) (f : A -> B) (v : B) (y : list A) :
  Datasets.assign (map p y) v (map f y) = map (fun yi => if p yi then v else f yi) y.
Proof.
  unfold Datasets.assign. induction y as [|c y IH]; simpl; [reflexivity|].
  now rewrite IH.
Qed.

Lemma Int_part_IZR (z : Z) : Int_part (IZR z) = z.
Proof. symmetry. apply Int_part_spec. lra. Qed.

Lemma astype_int_IZR (z : Z) : Datasets.astype_int (IZR z) = z.
Proof.
  unfold Datasets.astype_int. destruct (Rle_dec 0 (IZR z)).
  - apply Int_part_IZR.
  - rewrite <- opp_IZR, Int_part_IZR. lia.
Qed.

Lemma float_labels (p : R -> bool) (y : vec) :
  map Datasets.astype_int
    (Datasets.assign (map p y) (IZR Datasets.NEG_LABEL)
       (Datasets.assign (map negb (map p y)) (IZR Datasets.POS_LABEL) y))
  = map (fun yi => if p yi then Datasets.NEG_LABEL else Datasets.POS_LABEL) y.
Proof.
  unfold Datasets.assign. induction y as [|c y IH]; simpl; [reflexivity|].
  rewrite IH. f_equal. destruct (p c); simpl; apply astype_int_IZR.
Qed.

Lemma combine_features_labels {C} (lab : C -> Z) (data : Datasets.table C) :
  combine (Datasets.features data) (map lab (Datasets.classes data))
  = map (fun row => (fst row, lab (snd row))) data.
Proof.
  unfold Datasets.features, Datasets.classes.
  induction data as [|[x c] data IH]; simpl; [reflexivity|]. now rewrite IH.
Qed.

(** ** Selecting rows of the features and of the labels *)

Lemma combine_map_nth {A B} (X : list A) (Y : list B) (dx : A) (dy : B) (s : list nat) :
  length X = length Y ->
  combine (map (fun i => nth i X dx) s) (map (fun i => nth i Y dy) s)
  = map (fun i => nth i (combine X Y) (dx, dy)) s.
Proof.
  intros H. induction s as [|i s IH]; simpl; [reflexivity|].
  now rewrite IH, combine_nth.
Qed.

Lemma selected_table {B} (X : matrix) (y : list B) (g : B -> Z) (s : list nat) :
  length X = length y ->
  StronglySorted lt s ->
  (forall i, In i s -> (i < length X)%nat) ->
  exists X' y',
    Datasets.take X s = Datasets.Ok X'
    /\ Datasets.take y s = Datasets.Ok y'
    /\ length X' = length s
    /\ length y' = length s
    /\ combine X' (map g y') = rows_at (mem_index s) (combine X (map g y)).
Proof.
  intros Hl Hs Hr. destruct y as [|dy y'].
  - destruct s as [|i s].
    + exists [], []. destruct X; [|discriminate]. repeat split; reflexivity.
    + specialize (Hr i (or_introl eq_refl)). rewrite Hl in Hr. simpl in Hr. lia.
  - set (y := dy :: y') in *.
    exists (map (fun i => nth i X []) s), (map (fun i => nth i y dy) s).
    split; [now apply take_nth|].
    split; [apply take_nth; now rewrite <- Hl|].
    split; [apply length_map|]. split; [apply length_map|].
    rewrite map_map.
    rewrite <- (take_sorted (combine X (map g y)) ([], g dy) s Hs).
    + rewrite <- combine_map_nth by now rewrite length_map.
      f_equal. apply map_ext. intros i. now rewrite map_nth.
    + intros i Hi. rewrite length_combine, length_map, <- Hl, Nat.min_id. now apply Hr.
Qed.

(** ** Downsampling: all inliers and some outliers *)

Lemma downsample_filter {A} (a : list A) (d : A) (q : A -> bool) (idx_in c : list nat) :
  (forall i, In i idx_in <-> (i < length a)%nat /\ q (nth i a d) = false) ->
  (forall i, In i c -> (i < length a)%nat /\ q (nth i a d) = true) ->
  let s := Datasets.union1d idx_in c in
  (forall i, In i s -> (i < length a)%nat)
  /\ filter (fun r => negb (q r)) (rows_at (mem_index s) a)
     = filter (fun r => negb (q r)) a
  /\ filter q (rows_at (mem_index s) a)
     = map (fun i => nth i a d) (Datasets.unique_index c).
Proof.
  intros Hin Hc s.
  assert (Hr : forall i, In i s -> (i < length a)%nat).
  { intros i Hi. unfold s in Hi. rewrite union1d_in in Hi. destruct Hi as [Hi|Hi].
    - now apply Hin in Hi.
    - now apply Hc in Hi. }
  split; [exact Hr|]. split.
  - rewrite (rows_at_filter _ _ a d), <- (rows_at_all (fun r => negb (q r)) a d).
    apply rows_at_ext. intros i Hi.
    destruct (q (nth i a d)) eqn:E; simpl; [apply andb_false_r|].
    rewrite andb_true_r. apply mem_index_true, union1d_in. left. now apply Hin.
  - rewrite (rows_at_filter _ _ a d).
    rewrite (take_sorted a d (Datasets.unique_index c) (unique_index_sorted c)).
    2:{ intros i Hi. rewrite unique_index_in in Hi. now apply Hc in Hi. }
    apply rows_at_ext. intros i Hi. apply eq_true_iff_eq.
    rewrite andb_true_iff, !mem_index_true, unique_index_in.
    unfold s. rewrite union1d_in, Hin. split.
    + intros [[[_ H]|H] Hq]; [congruence|exact H].
    + intros H. split; [now right|]. now apply Hc.
Qed.

Lemma first_outliers {A} (a : list A) (d : A) (q : A -> bool) (n : nat) :
  map (fun i => nth i a d)
    (Datasets.unique_index (firstn n (Datasets.flatnonzero (map q a))))
  = firstn n (filter q a).
Proof.
  rewrite unique_index_of_sorted by apply firstn_sorted, flatnonzero_sorted.
  now rewrite <- firstn_map, flatnonzero_rows.
Qed.

Lemma rows_at_map {A B} (f : A -> B) (keep : nat -> bool) (a : list A) :
  rows_at keep (map f a) = map f (rows_at keep a).
Proof.
  unfold rows_at. rewrite length_map. generalize 0%nat.
  induction a as [|x a IH]; intros k; [reflexivity|].
  cbn [length seq map combine filter fst]. destruct (keep k); cbn [map snd]; now rewrite IH.
Qed.

Lemma assign_self {A} (p : A -> bool) (v : A) (y : list A) :
  Datasets.assign (map p y) v y = map (fun yi => if p yi then v else yi) y.
Proof.
  unfold Datasets.assign. induction y as [|c y IH]; simpl; [reflexivity|].
  now rewrite IH.
Qed.

Lemma downsampled_table {C B} (data : Datasets.table C) (p : C -> bool)
    (y2 : list B) (g : B -> Z) (lab : C -> Z) (c : list nat) :
  map g y2 = map lab (Datasets.classes data) ->
  incl c (Datasets.flatnonzero (map p (Datasets.classes data))) ->
  let s := Datasets.union1d
             (Datasets.flatnonzero (map negb (map p (Datasets.classes data)))) c in
  exists X' y' kept,
    Datasets.take (Datasets.features data) s = Datasets.Ok X'
    /\ Datasets.take y2 s = Datasets.Ok y'
    /\ length X' = length y'
    /\ combine X' (map g y') = map (relabel lab) kept
    /\ incl kept data
    /\ filter (fun row => negb (p (snd row))) kept
       = filter (fun row => negb (p (snd row))) data
    /\ forall d, filter (fun row => p (snd row)) kept
                 = map (fun i => nth i data d) (Datasets.unique_index c).
Proof.
  intros Hg Hc s.
  assert (Hlen : length (Datasets.features data) = length y2).
  { unfold Datasets.features. rewrite length_map, <- (length_map g y2), Hg.
    unfold Datasets.classes. now rewrite !length_map. }
  assert (Hin : forall d i,
             In i (Datasets.flatnonzero (map negb (map p (Datasets.classes data))))
             <-> (i < length data)%nat /\ p (snd (nth i data d)) = false).
  { intros d i. unfold Datasets.classes. rewrite !map_map.
    rewrite (flatnonzero_map_in (fun row => negb (p (snd row))) data d).
    now rewrite negb_true_iff. }
  assert (Hout : forall d i, In i c -> (i < length data)%nat /\ p (snd (nth i data d)) = true).
  { intros d i Hi. apply Hc in Hi. unfold Datasets.classes in Hi. rewrite map_map in Hi.
    now apply (flatnonzero_map_in (fun row => p (snd row)) data d) in Hi. }
  assert (Hr : forall i, In i s -> (i < length (Datasets.features data))%nat).
  { intros i Hi. unfold Datasets.features. rewrite length_map.
    destruct data as [|d data']; [|set (data := d :: data') in *].
    - unfold s in Hi. rewrite union1d_in in Hi. destruct Hi as [Hi|Hi].
      + exact (False_ind _ Hi).
      + exact (False_ind _ (Hc i Hi)).
    - now apply (proj1 (downsample_filter data d (fun row => p (snd row)) _ c
                          (Hin d) (Hout d))). }
  destruct (selected_table (Datasets.features data) y2 g s Hlen
              (union1d_sorted _ _) Hr) as (X' & y' & HX & Hy & HlX & Hly & Ht).
  exists X', y', (rows_at (mem_index s) data).
  split; [exact HX|]. split; [exact Hy|]. split; [congruence|].
  split.
  { rewrite Ht, Hg, combine_features_labels. apply rows_at_map. }
  split; [intros row; apply rows_at_in|].
  split.
  - destruct data as [|d data']; [reflexivity|set (data := d :: data') in *].
    apply (downsample_filter data d (fun row => p (snd row)) _ c (Hin d) (Hout d)).
  - intros d.
    apply (downsample_filter data d (fun row => p (snd row)) _ c (Hin d) (Hout d)).
Qed.

(** ** The loaders *)

Ltac subset_tests :=
  cbv [Datasets.among existsb];
  repeat match goal with
         | |- context [String.eqb ?a ?b] =>
             let v := eval cbv in (String.eqb a b) in
             change (String.eqb a b) with v
         end;
  cbn [orb negb].

Lemma classes_flatnonzero {C} (p : C -> bool) (data : Datasets.table C) :
  Datasets.flatnonzero (map p (Datasets.classes data))
  = Datasets.flatnonzero (map (fun row => p (snd row)) data).
Proof. unfold Datasets.classes. now rewrite map_map. Qed.

Lemma wdbc_labels (y : list Z) :
  Datasets.assign (map (fun yi => Z.eqb yi 0) y) Datasets.NEG_LABEL y
  = map (fun c => if Z.eqb c 0 then Datasets.NEG_LABEL else c) y.
Proof. apply assign_self. Qed.

(** X16.  [load_wdbc] with [subset='goldstein12'] returns, whatever was
    loaded: every benign sample (target not 0), in the loaded order and
    with its target untouched, and the first ten malignant samples
    (all of them when there are fewer), relabelled [-1]. *)
Theorem wdbc_goldstein12_keeps_benign_and_first_ten_malignant
    (choice : list nat -> nat -> list nat) (loaded : Datasets.table Z) :
  exists X y kept,
    Datasets.load_wdbc choice "goldstein12"%string loaded = Datasets.Ok (X, y)
    /\ length X = length y
    /\ combine X y
       = map (relabel (fun c => if Z.eqb c 0 then Datasets.NEG_LABEL else c)) kept
    /\ filter (not_of_class Z.eqb 0%Z) kept = filter (not_of_class Z.eqb 0%Z) loaded
    /\ filter (of_class Z.eqb 0%Z) kept = firstn 10 (filter (of_class Z.eqb 0%Z) loaded).
Proof.
  unfold Datasets.load_wdbc. subset_tests. cbn [Datasets.rbind].
  rewrite wdbc_labels.
  destruct (downsampled_table loaded (fun yi => Z.eqb yi 0)
              (map (fun c => if Z.eqb c 0 then Datasets.NEG_LABEL else c)
                 (Datasets.classes loaded))
              (fun z => z) (fun c => if Z.eqb c 0 then Datasets.NEG_LABEL else c)
              (firstn 10 (Datasets.flatnonzero
                            (map (fun yi => Z.eqb yi 0) (Datasets.classes loaded)))))
    as (X & y & kept & HX & Hy & Hl & Ht & Hk & Hin & Hout).
  { apply map_id. }
  { intros i. apply firstn_in. }
  exists X, y, kept. rewrite HX, Hy. cbn [Datasets.rbind].
  split; [reflexivity|]. split; [exact Hl|].
  split; [now rewrite map_id in Ht|]. split; [exact Hin|].
  unfold of_class. rewrite (Hout ([], 0%Z)), classes_flatnonzero.
  apply first_outliers.
Qed.

Lemma choice_result (choice : list nat -> nat -> list nat) (mask : list bool) (n : nat) :
  samples_without_replacement choice ->
  (n <= length (Datasets.flatnonzero mask))%nat ->
  Datasets.rnd_choice choice (Datasets.flatnonzero mask) n
  = Datasets.Ok (choice (Datasets.flatnonzero mask) n)
  /\ incl (choice (Datasets.flatnonzero mask) n) (Datasets.flatnonzero mask)
  /\ length (Datasets.unique_index (choice (Datasets.flatnonzero mask) n)) = n.
Proof.
  intros Hc Hn. unfold Datasets.rnd_choice.
  destruct (Nat.ltb_spec (length (Datasets.flatnonzero mask)) n) as [H|_]; [lia|].
  destruct (Hc (Datasets.flatnonzero mask) n Hn
              (sorted_lt_NoDup _ (flatnonzero_sorted mask))) as (H1 & H2 & H3).
  split; [reflexivity|]. split; [exact H3|].
  now rewrite (proj2 (unique_index_length _) H2).
Qed.

(** X17.  [load_wdbc] with [subset='kriegel11'], for a random choice
    that samples without replacement: with fewer than ten malignant
    samples loaded it raises [ValueError]; otherwise it returns every
    benign sample, in order and untouched, and exactly ten malignant
    samples, relabelled [-1]. *)
Theorem wdbc_kriegel11_samples_ten_malignant
    (choice : list nat -> nat -> list nat) (loaded : Datasets.table Z) :
  samples_without_replacement choice ->
  ((length (filter (of_class Z.eqb 0%Z) loaded) < 10)%nat ->
   Datasets.load_wdbc choice "kriegel11"%string loaded = Datasets.Raise Datasets.ValueError)
  /\ ((10 <= length (filter (of_class Z.eqb 0%Z) loaded))%nat ->
      exists X y kept,
        Datasets.load_wdbc choice "kriegel11"%string loaded = Datasets.Ok (X, y)
        /\ length X = length y
        /\ combine X y
           = map (relabel (fun c => if Z.eqb c 0 then Datasets.NEG_LABEL else c)) kept
        /\ filter (not_of_class Z.eqb 0%Z) kept
           = filter (not_of_class Z.eqb 0%Z) loaded
        /\ length (filter (of_class Z.eqb 0%Z) kept) = 10%nat
        /\ incl kept loaded).
Proof.
  intros Hc.
  assert (Hcount : length (Datasets.flatnonzero
                             (map (fun yi => Z.eqb yi 0) (Datasets.classes loaded)))
                   = length (filter (of_class Z.eqb 0%Z) loaded)).
  { rewrite classes_flatnonzero. apply flatnonzero_length. }
  unfold Datasets.load_wdbc. subset_tests.
  split; intros Hn.
  - unfold Datasets.rnd_choice. rewrite Hcount.
    destruct (Nat.ltb_spec (length (filter (of_class Z.eqb 0%Z) loaded)) 10) as [_|H];
      [reflexivity|lia].
  - rewrite <- Hcount in Hn.
    destruct (choice_result choice _ 10 Hc Hn) as (Hrun & Hincl & Hlen).
    rewrite Hrun. cbn [Datasets.rbind]. rewrite wdbc_labels.
    destruct (downsampled_table loaded (fun yi => Z.eqb yi 0)
                (map (fun c => if Z.eqb c 0 then Datasets.NEG_LABEL else c)
                   (Datasets.classes loaded))
                (fun z => z) (fun c => if Z.eqb c 0 then Datasets.NEG_LABEL else c)
                _ (map_id _) Hincl)
      as (X & y & kept & HX & Hy & Hl & Ht & Hk & Hin & Hout).
    exists X, y, kept. rewrite HX, Hy. cbn [Datasets.rbind].
    split; [reflexivity|]. split; [exact Hl|].
    split; [now rewrite map_id in Ht|]. split; [exact Hin|].
    split.
    + unfold of_class. now rewrite (Hout ([], 0%Z)), length_map.
    + exact Hk.
Qed.

Lemma pendigits_labels (c : R) (y : vec) :
  map Datasets.astype_int
    (Datasets.assign (map (fun yi => Datasets.float_eq yi c) y)
       (IZR Datasets.NEG_LABEL)
       (Datasets.assign (map negb (map (fun yi => Datasets.float_eq yi c) y))
          (IZR Datasets.POS_LABEL) y))
  = map (fun yi => if Datasets.float_eq yi c
                   then Datasets.NEG_LABEL else Datasets.POS_LABEL) y.
Proof. apply float_labels. Qed.

(** X18.  [load_pendigits] with [subset='goldstein12-local'] returns,
    whatever the training file holds: every sample of a digit other
    than 4, in file order and labelled [1], and the first ten samples
    of digit 4 (all of them when there are fewer), labelled [-1]; the
    test file plays no part. *)
Theorem pendigits_local_keeps_first_ten_fours
    (choice : list nat -> nat -> list nat) (data_tra data_tes : Datasets.table R) :
  exists X y kept,
    Datasets.load_pendigits choice "goldstein12-local"%string data_tra data_tes
    = Datasets.Ok (X, y)
    /\ length X = length y
    /\ combine X y
       = map (relabel (fun c => if Datasets.float_eq c 4
                                then Datasets.NEG_LABEL else Datasets.POS_LABEL)) kept
    /\ filter (not_of_class Datasets.float_eq 4) kept
       = filter (not_of_class Datasets.float_eq 4) data_tra
    /\ filter (of_class Datasets.float_eq 4) kept
       = firstn 10 (filter (of_class Datasets.float_eq 4) data_tra).
Proof.
  unfold Datasets.load_pendigits. subset_tests. cbn [Datasets.rbind].
  destruct (downsampled_table data_tra (fun yi => Datasets.float_eq yi 4) _
              Datasets.astype_int
              (fun c => if Datasets.float_eq c 4
                        then Datasets.NEG_LABEL else Datasets.POS_LABEL)
              (firstn 10 (Datasets.flatnonzero
                            (map (fun yi => Datasets.float_eq yi 4)
                               (Datasets.classes data_tra))))
              (pendigits_labels 4 (Datasets.classes data_tra)))
    as (X & y & kept & HX & Hy & Hl & Ht & Hk & Hin & Hout).
  { intros i. apply firstn_in. }
  exists X, (map Datasets.astype_int y), kept. rewrite HX, Hy. cbn [Datasets.rbind].
  split; [reflexivity|]. split; [now rewrite length_map|].
  split; [exact Ht|]. split; [exact Hin|].
  unfold of_class. rewrite (Hout ([], 0)), classes_flatnonzero.
  apply first_outliers.
Qed.

(** X19.  [load_pendigits] with [subset='kriegel11'], for a random
    choice that samples without replacement, works on the training file
    followed by the test file: with fewer than twenty samples of digit 4
    it raises [ValueError]; otherwise it returns every sample of another
    digit, in order and labelled [1], and exactly twenty samples of
    digit 4, labelled [-1]. *)
Theorem pendigits_kriegel11_samples_twenty_fours
    (choice : list nat -> nat -> list nat) (data_tra data_tes : Datasets.table R) :
  samples_without_replacement choice ->
  ((length (filter (of_class Datasets.float_eq 4%R) (data_tra ++ data_tes)) < 20)%nat ->
   Datasets.load_pendigits choice "kriegel11"%string data_tra data_tes
   = Datasets.Raise Datasets.ValueError)
  /\ ((20 <= length (filter (of_class Datasets.float_eq 4%R) (data_tra ++ data_tes)))%nat ->
      exists X y kept,
        Datasets.load_pendigits choice "kriegel11"%string data_tra data_tes
        = Datasets.Ok (X, y)
        /\ length X = length y
        /\ combine X y
           = map (relabel (fun c => if Datasets.float_eq c 4
                                    then Datasets.NEG_LABEL else Datasets.POS_LABEL)) kept
        /\ filter (not_of_class Datasets.float_eq 4) kept
           = filter (not_of_class Datasets.float_eq 4) (data_tra ++ data_tes)
        /\ length (filter (of_class Datasets.float_eq 4) kept) = 20%nat
        /\ incl kept (data_tra ++ data_tes)).
Proof.
  intros Hc. set (data := data_tra ++ data_tes).
  assert (HXs : Datasets.features data_tra ++ Datasets.features data_tes
                = Datasets.features data)
    by (unfold Datasets.features, data; now rewrite map_app).
  assert (Hys : Datasets.classes data_tra ++ Datasets.classes data_tes
                = Datasets.classes data)
    by (unfold Datasets.classes, data; now rewrite map_app).
  assert (Hcount : length (Datasets.flatnonzero
                             (map (fun yi => Datasets.float_eq yi 4)
                                (Datasets.classes data)))
                   = length (filter (of_class Datasets.float_eq 4) data)).
  { rewrite classes_flatnonzero. apply flatnonzero_length. }
  unfold Datasets.load_pendigits. subset_tests. rewrite HXs, Hys.
  split; intros Hn.
  - unfold Datasets.rnd_choice. rewrite Hcount.
    destruct (Nat.ltb_spec (length (filter (of_class Datasets.float_eq 4) data)) 20)
      as [_|H]; [reflexivity|lia].
  - rewrite <- Hcount in Hn.
    destruct (choice_result choice _ 20 Hc Hn) as (Hrun & Hincl & Hlen).
    rewrite Hrun. cbn [Datasets.rbind].
    destruct (downsampled_table data (fun yi => Datasets.float_eq yi 4) _
                Datasets.astype_int
                (fun c => if Datasets.float_eq c 4
                          then Datasets.NEG_LABEL else Datasets.POS_LABEL)
                _ (pendigits_labels 4 (Datasets.classes data)) Hincl)
      as (X & y & kept & HX & Hy & Hl & Ht & Hk & Hin & Hout).
    exists X, (map Datasets.astype_int y), kept. rewrite HX, Hy. cbn [Datasets.rbind].
    split; [reflexivity|]. split; [now rewrite length_map|].
    split; [exact Ht|]. split; [exact Hin|]. split; [|exact Hk].
    unfold of_class. now rewrite (Hout ([], 0)), length_map.
Qed.

(** X20.  [load_pima] returns every sample of its file, in order, with
    label [-1] where the class is 1 and label [1] everywhere else. *)
Theorem pima_labels_class_one_as_outlier (data : Datasets.table R) :
  fst (Datasets.load_pima data) = Datasets.features data
  /\ combine (fst (Datasets.load_pima data)) (snd (Datasets.load_pima data))
     = map (relabel (fun c => if Datasets.float_eq c 1
                              then Datasets.NEG_LABEL else Datasets.POS_LABEL)) data
  /\ Forall (fun l => l = (-1)%Z \/ l = 1%Z) (snd (Datasets.load_pima data)).
Proof.
  unfold Datasets.load_pima. cbn [fst snd]. rewrite pendigits_labels.
  split; [reflexivity|]. split; [apply combine_features_labels|].
  apply Forall_forall. intros l Hl. apply in_map_iff in Hl.
  destruct Hl as (c & <- & _). destruct (Datasets.float_eq c 1); [now left|now right].
Qed.

(** ** The global subset of the pen digits *)

Lemma float_eq_true (a b : R) : Datasets.float_eq a b = true <-> a = b.
Proof.
  unfold Datasets.float_eq. destruct (Req_dec_T a b); split; congruence.
Qed.

Lemma dedup_in (s : vec) (x : R) : In x (Datasets.dedup s) <-> In x s.
Proof.
  induction s as [|a s IH]; [reflexivity|].
  destruct s as [|b s'].
  - reflexivity.
  - change (Datasets.dedup (a :: b :: s'))
      with (if Datasets.float_eq a b then Datasets.dedup (b :: s')
            else a :: Datasets.dedup (b :: s')).
    destruct (Datasets.float_eq a b) eqn:E.
    + apply float_eq_true in E. subst b. rewrite IH. simpl. tauto.
    + simpl In at 1. rewrite IH. simpl. tauto.
Qed.

Lemma unique_in (y : vec) (x : R) : In x (Datasets.unique y) <-> In x y.
Proof.
  unfold Datasets.unique. rewrite dedup_in. split.
  - apply Permutation_in, Permutation_sym, np_sort_permutation.
  - apply Permutation_in, np_sort_permutation.
Qed.

(** One pass of the loop over the classes. *)
Lemma global_step_in (s : list nat) (ir : nat * list bool) (i : nat) :
  In i (if (fst ir =? 8)%nat then Datasets.union1d s (Datasets.flatnonzero (snd ir))
        else Datasets.union1d s (firstn 10 (Datasets.flatnonzero (snd ir))))
  <-> In i s
      \/ In i (if (fst ir =? 8)%nat then Datasets.flatnonzero (snd ir)
               else firstn 10 (Datasets.flatnonzero (snd ir))).
Proof. destruct (fst ir =? 8)%nat; apply union1d_in. Qed.

Lemma global_loop_in (l : list (nat * list bool)) (s0 : list nat) (i : nat) :
  In i (fold_left
          (fun s (ir : nat * list bool) =>
             if (fst ir =? 8)%nat then Datasets.union1d s (Datasets.flatnonzero (snd ir))
             else Datasets.union1d s (firstn 10 (Datasets.flatnonzero (snd ir))))
          l s0)
  <-> In i s0
      \/ exists ir, In ir l
           /\ In i (if (fst ir =? 8)%nat then Datasets.flatnonzero (snd ir)
                    else firstn 10 (Datasets.flatnonzero (snd ir))).
Proof.
  revert s0. induction l as [|ir l IH]; intros s0; simpl.
  - split; [now left|]. intros [H|(ir & [] & _)]. exact H.
  - rewrite IH, global_step_in. split.
    + intros [[H|H]|(ir' & Hin & H)].
      * now left.
      * right. exists ir. split; [now left|exact H].
      * right. exists ir'. split; [now right|exact H].
    + intros [H|(ir' & [<-|Hin] & H)].
      * left. now left.
      * left. now right.
      * right. exists ir'. split; trivial.
Qed.

Lemma global_loop_sorted (l : list (nat * list bool)) (s0 : list nat) :
  StronglySorted lt s0 ->
  StronglySorted lt
    (fold_left
       (fun s (ir : nat * list bool) =>
          if (fst ir =? 8)%nat then Datasets.union1d s (Datasets.flatnonzero (snd ir))
          else Datasets.union1d s (firstn 10 (Datasets.flatnonzero (snd ir))))
       l s0).
Proof.
  revert s0. induction l as [|ir l IH]; intros s0 Hs; simpl; [exact Hs|].
  apply IH. destruct (fst ir =? 8)%nat; apply union1d_sorted.
Qed.

Lemma class_positions (data : Datasets.table R) (c : R) (i : nat) :
  In i (Datasets.flatnonzero
          (map (fun yi => Datasets.float_eq yi c) (Datasets.classes data)))
  <-> (i < length data)%nat /\ of_class Datasets.float_eq c (nth i data ([], 0)) = true.
Proof.
  rewrite classes_flatnonzero.
  apply (flatnonzero_map_in (fun row => Datasets.float_eq (snd row) c)).
Qed.

(** X21.  [load_pendigits] with [subset='goldstein12-global'] raises
    [IndexError] when the training file holds fewer than nine classes.
    Otherwise, with [c9] the ninth smallest class value, it returns every
    sample of class [c9], in file order and labelled [-1], and of every
    other class the first ten samples (all of them when there are
    fewer), labelled [1]: the class that is kept whole is the one
    labelled as outliers. *)
Theorem pendigits_global_keeps_ninth_class_as_outliers
    (choice : list nat -> nat -> list nat) (data_tra data_tes : Datasets.table R) :
  ((length (Datasets.unique (Datasets.classes data_tra)) < 9)%nat ->
   Datasets.load_pendigits choice "goldstein12-global"%string data_tra data_tes
   = Datasets.Raise Datasets.IndexError)
  /\ (forall c9,
        nth_error (Datasets.unique (Datasets.classes data_tra)) 8 = Some c9 ->
        exists X y kept,
          Datasets.load_pendigits choice "goldstein12-global"%string data_tra data_tes
          = Datasets.Ok (X, y)
          /\ length X = length y
          /\ combine X y
             = map (relabel (fun c => if Datasets.float_eq c c9
                                      then Datasets.NEG_LABEL else Datasets.POS_LABEL)) kept
          /\ filter (of_class Datasets.float_eq c9) kept
             = filter (of_class Datasets.float_eq c9) data_tra
          /\ forall c, c <> c9 ->
               filter (of_class Datasets.float_eq c) kept
               = firstn 10 (filter (of_class Datasets.float_eq c) data_tra)).
Proof.
  unfold Datasets.load_pendigits. subset_tests.
  set (y := Datasets.classes data_tra).
  set (mask := fun i : R => map (fun yi => Datasets.float_eq yi i) y).
  split.
  - intros Hn. unfold Datasets.getitem.
    replace (nth_error (map mask (Datasets.unique y)) 8) with (@None (list bool));
      [reflexivity|].
    symmetry. apply nth_error_None. now rewrite length_map; lia.
  - intros c9 H9. unfold Datasets.getitem at 1.
    rewrite nth_error_map, H9. cbn [option_map Datasets.rbind].
    set (s := fold_left _ _ []).
    assert (Hs : forall i, In i s <->
                   exists j u, nth_error (Datasets.unique y) j = Some u
                     /\ In i (if (j =? 8)%nat then Datasets.flatnonzero (mask u)
                              else firstn 10 (Datasets.flatnonzero (mask u)))).
    { intros i. unfold s. rewrite global_loop_in. split.
      - intros [[]|([j row] & Hin & H)].
        apply enumerate_in in Hin. destruct Hin as [_ Hin].
        rewrite Nat.sub_0_r, nth_error_map in Hin.
        destruct (nth_error (Datasets.unique y) j) as [u|] eqn:Hu; [|discriminate].
        injection Hin as <-. exists j, u. split; [exact Hu|exact H].
      - intros (j & u & Hu & H). right. exists (j, mask u). split; [|exact H].
        apply enumerate_in. split; [lia|].
        now rewrite Nat.sub_0_r, nth_error_map, Hu. }
    assert (Hpart : forall j u i,
               In i (if (j =? 8)%nat then Datasets.flatnonzero (mask u)
                     else firstn 10 (Datasets.flatnonzero (mask u))) ->
               In i (Datasets.flatnonzero (mask u))).
    { intros j u i. destruct (j =? 8)%nat; [trivial|apply firstn_in]. }
    assert (Hr : forall i, In i s -> (i < length (Datasets.features data_tra))%nat).
    { intros i Hi. apply Hs in Hi. destruct Hi as (j & u & _ & Hi).
      apply Hpart in Hi. apply class_positions in Hi.
      unfold Datasets.features. now rewrite length_map. }
    assert (Hlen : length (Datasets.features data_tra)
                   = length (Datasets.assign (mask c9) (IZR Datasets.NEG_LABEL)
                               (Datasets.assign (map negb (mask c9))
                                  (IZR Datasets.POS_LABEL) y))).
    { rewrite <- (length_map Datasets.astype_int). unfold mask.
      rewrite pendigits_labels. unfold y, Datasets.features, Datasets.classes.
      now rewrite !length_map. }
    destruct (selected_table _ _ Datasets.astype_int s Hlen
                (global_loop_sorted _ [] (SSorted_nil lt)) Hr)
      as (X & y' & HX & Hy & HlX & Hly & Ht).
    exists X, (map Datasets.astype_int y'), (rows_at (mem_index s) data_tra).
    rewrite HX, Hy. cbn [Datasets.rbind].
    split; [reflexivity|]. split; [rewrite length_map; congruence|].
    split.
    { rewrite Ht. unfold mask. rewrite pendigits_labels.
      unfold y. rewrite combine_features_labels. apply rows_at_map. }
    split.
    + rewrite (rows_at_filter _ _ data_tra ([], 0)),
        <- (rows_at_all (of_class Datasets.float_eq c9) data_tra ([], 0)).
      apply rows_at_ext. intros i Hi.
      destruct (of_class Datasets.float_eq c9 (nth i data_tra ([], 0))) eqn:E;
        [|apply andb_false_r].
      rewrite andb_true_r. apply mem_index_true, Hs. exists 8%nat, c9.
      split; [exact H9|]. cbn [Nat.eqb]. apply class_positions. now split.
    + intros c Hc.
      rewrite (rows_at_filter _ _ data_tra ([], 0)).
      rewrite <- (flatnonzero_rows (of_class Datasets.float_eq c) data_tra ([], 0)).
      rewrite firstn_map.
      rewrite (take_sorted data_tra ([], 0)
                 (firstn 10 (Datasets.flatnonzero
                               (map (of_class Datasets.float_eq c) data_tra)))).
      2:{ apply firstn_sorted, flatnonzero_sorted. }
      2:{ intros i Hi. apply firstn_in in Hi.
          now apply (flatnonzero_map_in _ data_tra ([], 0)) in Hi. }
      apply rows_at_ext. intros i Hi. apply eq_true_iff_eq.
      rewrite andb_true_iff, !mem_index_true, Hs.
      change (map (of_class Datasets.float_eq c) data_tra)
        with (map (fun row : vec * R => Datasets.float_eq (snd row) c) data_tra).
      rewrite <- (classes_flatnonzero (fun yi => Datasets.float_eq yi c) data_tra).
      fold y. fold (mask c). split.
      * intros [(j & u & Hu & Hin) Hq].
        pose proof (Hpart _ _ _ Hin) as Hin'. apply class_positions in Hin'.
        destruct Hin' as [_ Hin']. unfold of_class in Hin', Hq.
        apply float_eq_true in Hin', Hq.
        assert (Huc : u = c) by congruence. clear Hin' Hq. subst u.
        destruct (j =? 8)%nat eqn:E; [|exact Hin].
        apply Nat.eqb_eq in E. subst j. congruence.
      * intros Hin.
        assert (Hin' : In i (Datasets.flatnonzero (mask c))) by now apply firstn_in in Hin.
        apply class_positions in Hin'. destruct Hin' as [_ Hq]. split; [|exact Hq].
        unfold of_class in Hq. apply float_eq_true in Hq.
        assert (Hu : In c (Datasets.unique y)).
        { apply unique_in. unfold y, Datasets.classes. rewrite <- Hq.
          apply in_map, nth_In, Hi. }
        apply In_nth_error in Hu. destruct Hu as [j Hj].
        exists j, c. split; [exact Hj|].
        destruct (j =? 8)%nat eqn:E; [|exact Hin].
        apply Nat.eqb_eq in E. subst j. congruence.
Qed.

(** ** Instances *)

Lemma example_choice_samples : samples_without_replacement example_choice.
Proof.
  intros a size Hs Ha. unfold example_choice. split; [|split].
  - rewrite length_firstn. lia.
  - rewrite <- (firstn_skipn size a) in Ha. now apply NoDup_app_remove_r in Ha.
  - intros i. apply firstn_in.
Qed.

Lemma filter_repeat {A} (p : A -> bool) (x : A) (n : nat) :
  p x = true -> filter p (repeat x n) = repeat x n.
Proof.
  intros H. induction n as [|n IH]; [reflexivity|].
  cbn [repeat filter]. now rewrite H, IH.
Qed.

Lemma example_fours_count :
  (20 <= length (filter (of_class Datasets.float_eq 4%R)
                   (example_fours ++ example_seven)))%nat.
Proof.
  rewrite filter_app, length_app. unfold example_fours.
  rewrite filter_repeat, repeat_length; [lia|].
  unfold of_class. now apply float_eq_true.
Qed.

Lemma wdbc_kriegel11_samples_ten_malignant_witness :
  Datasets.load_wdbc example_choice "kriegel11"%string example_tumours
  = Datasets.Raise Datasets.ValueError
  /\ exists X y kept,
       Datasets.load_wdbc example_choice "kriegel11"%string example_many_tumours
       = Datasets.Ok (X, y)
       /\ length (filter (of_class Z.eqb 0%Z) kept) = 10%nat
       /\ incl kept example_many_tumours.
Proof.
  split.
  - apply (proj1 (wdbc_kriegel11_samples_ten_malignant example_choice example_tumours
                    example_choice_samples)).
    simpl. lia.
  - destruct (proj2 (wdbc_kriegel11_samples_ten_malignant example_choice
                       example_many_tumours example_choice_samples))
      as (X & y & kept & Hrun & _ & _ & _ & Hn & Hk).
    + simpl. lia.
    + exists X, y, kept. auto.
Defined.

Lemma pendigits_kriegel11_samples_twenty_fours_witness :
  Datasets.load_pendigits example_choice "kriegel11"%string example_seven example_seven
  = Datasets.Raise Datasets.ValueError
  /\ exists X y kept,
       Datasets.load_pendigits example_choice "kriegel11"%string
         example_fours example_seven
       = Datasets.Ok (X, y)
       /\ length (filter (of_class Datasets.float_eq 4) kept) = 20%nat
       /\ incl kept (example_fours ++ example_seven).
Proof.
  split.
  - apply (proj1 (pendigits_kriegel11_samples_twenty_fours example_choice
                    example_seven example_seven example_choice_samples)).
    pose proof (filter_length_le (of_class Datasets.float_eq 4)
                  (example_seven ++ example_seven)) as H.
    simpl length in H at 2. lia.
  - destruct (proj2 (pendigits_kriegel11_samples_twenty_fours example_choice
                       example_fours example_seven example_choice_samples))
      as (X & y & kept & Hrun & _ & _ & _ & Hn & Hk).
    + exact example_fours_count.
    + exists X, y, kept. auto.
Defined.
